(** * Domain lookup tool: request validation and response normalisation

    A shallow embedding of the two API routes of the application and of the
    field helpers they call:

    - [Json]             : the values [response.json()] delivers
    - [Utils]            : [src/app/lib/utils.ts], on arguments of the
                           declared types
    - [UtilsDocumented]  : the documented variant of the same helpers
                           ([src/unnamed/part_003])
    - [UtilsJs], [UtilsDocumentedJs] : the same helpers on any JSON value,
                           as the route calls them
    - [DomainLookup]     : [src/app/api/domain-lookup/route.ts], handler [GET]
    - [AiLookup]         : [src/app/api/ai-lookup/route.ts], handler [POST]
    - [Page]             : [src/app/page.tsx], the validators of the form
                           and the requests it sends
    - [Reference]        : the definitions of the written specification
                           that the code is compared with

    Strings are sequences of code units; the development covers the code
    units 0..255, on which [trim], [toLowerCase] and the character classes
    of the regular expressions are the ECMAScript ones.  Exceptions are
    explicit completions, the network and the clock are inputs of the
    handlers. *)

From Stdlib Require Import List ZArith NArith QArith Lia Bool Ascii String.
Import ListNotations.
Close Scope Q_scope.
Local Open Scope string_scope.

(** ** The parts of the ECMAScript runtime the program calls *)

Module Js.

Definition code (c : ascii) : N := N_of_ascii c.

Definition inRange (lo hi : N) (c : ascii) : bool :=
  ((lo <=? code c) && (code c <=? hi))%N.

(** WhiteSpace and LineTerminator code units (TAB, LF, VT, FF, CR, SP,
    NBSP), which [String.prototype.trim] strips. *)
Definition isWhiteSpace (c : ascii) : bool :=
  inRange 9 13 c || (code c =? 32)%N || (code c =? 160)%N.

Fixpoint trimStart (s : string) : string :=
  match s with
  | String c r => if isWhiteSpace c then trimStart r else s
  | EmptyString => EmptyString
  end.

Fixpoint trimEnd (s : string) : string :=
  match s with
  | String c r =>
      match trimEnd r with
      | EmptyString => if isWhiteSpace c then EmptyString else String c EmptyString
      | r' => String c r'
      end
  | EmptyString => EmptyString
  end.

Definition trim (s : string) : string := trimEnd (trimStart s).

(** Upper-case letters with a lower-case partner: A-Z, and the Latin-1
    letters U+00C0..U+00DE without the multiplication sign U+00D7. *)
Definition isUpper (c : ascii) : bool :=
  inRange 65 90 c || (inRange 192 222 c && negb (code c =? 215)%N).

Definition lowerChar (c : ascii) : ascii :=
  if isUpper c then ascii_of_N (code c + 32) else c.

Fixpoint toLowerCase (s : string) : string :=
  match s with
  | String c r => String (lowerChar c) (toLowerCase r)
  | EmptyString => EmptyString
  end.

Definition startsWith (p s : string) : bool := prefix p s.

Fixpoint includes (sub s : string) : bool :=
  prefix sub s ||
  match s with
  | String _ r => includes sub r
  | EmptyString => false
  end.

Definition endsWith (suf s : string) : bool :=
  (length suf <=? length s)%nat &&
  (substring (length s - length suf) (length suf) s =? suf).

(** [dropPrefix p s] is the rest of [s] after the prefix [p]. *)
Fixpoint dropPrefix (p s : string) : option string :=
  match p, s with
  | EmptyString, _ => Some s
  | String a p', String b s' => if Ascii.eqb a b then dropPrefix p' s' else None
  | String _ _, EmptyString => None
  end.

(** [s.split(sep)[0]] for a one-character separator. *)
Fixpoint splitHead (sep : ascii) (s : string) : string :=
  match s with
  | String c r => if Ascii.eqb c sep then EmptyString else String c (splitHead sep r)
  | EmptyString => EmptyString
  end.

Fixpoint all (p : ascii -> bool) (s : string) : bool :=
  match s with
  | String c r => p c && all p r
  | EmptyString => true
  end.

Definition isEmpty (s : string) : bool :=
  match s with EmptyString => true | _ => false end.

(** [Array.prototype.join] on an array of strings. *)
Definition join (sep : string) (l : list string) : string := concat sep l.

(** Truthiness of an optional string: [undefined] and the empty string
    are falsy. *)
Definition truthy (v : option string) : bool :=
  match v with
  | Some s => negb (isEmpty s)
  | None => false
  end.

(** [a || b] where [b] is a string. *)
Definition orElse (a : option string) (b : string) : string :=
  match a with
  | Some s => if isEmpty s then b else s
  | None => b
  end.

(** [a || b] where both sides may be [undefined]. *)
Definition orOpt (a b : option string) : option string :=
  if truthy a then a else b.

(** Completions: a computation returns or throws. *)
Inductive completion (A : Type) : Type :=
| Normal (a : A)
| Throw (msg : string).
Arguments Normal {A} a.
Arguments Throw {A} msg.

End Js.

(** ** Date objects: time values, [Date.parse] and [toISOString] *)

Module JsDate.
Import Js.
Local Open Scope Z_scope.

Definition msPerDay : Z := 86400000.
Definition maxTime : Z := 8640000000000000.

Definition isLeap (y : Z) : bool :=
  ((y mod 4 =? 0) && negb (y mod 100 =? 0)) || (y mod 400 =? 0).

Definition daysInMonth (y m : Z) : Z :=
  if m =? 2 then (if isLeap y then 29 else 28)
  else if (m =? 4) || (m =? 6) || (m =? 9) || (m =? 11) then 30
  else 31.

(** Day number (days since 1970-01-01) of a proleptic Gregorian date. *)
Definition daysFromCivil (y m d : Z) : Z :=
  let y' := if m <=? 2 then y - 1 else y in
  let era := y' / 400 in
  let yoe := y' - era * 400 in
  let mp := if 2 <? m then m - 3 else m + 9 in
  let doy := (153 * mp + 2) / 5 + d - 1 in
  let doe := yoe * 365 + yoe / 4 - yoe / 100 + doy in
  era * 146097 + doe - 719468.

(** Year, month and day of a day number. *)
Definition civilFromDays (days : Z) : Z * Z * Z :=
  let z := days + 719468 in
  let era := z / 146097 in
  let doe := z - era * 146097 in
  let yoe := (doe - doe / 1460 + doe / 36524 - doe / 146096) / 365 in
  let doy := doe - (365 * yoe + yoe / 4 - yoe / 100) in
  let mp := (5 * doy + 2) / 153 in
  let d := doy - (153 * mp + 2) / 5 + 1 in
  let m := if mp <? 10 then mp + 3 else mp - 9 in
  let y := yoe + era * 400 + (if m <=? 2 then 1 else 0) in
  (y, m, d).

Definition digit (n : Z) : ascii := ascii_of_N (48 + Z.to_N (n mod 10)).

(** [pad w n]: the last [w] decimal digits of [n], zero padded. *)
Fixpoint pad (w : nat) (n : Z) : string :=
  match w with
  | O => EmptyString
  | S w' => (pad w' (n / 10) ++ String (digit n) EmptyString)%string
  end.

Definition yearString (y : Z) : string :=
  if (0 <=? y) && (y <=? 9999) then pad 4 y
  else ((if (y <? 0)%Z then "-" else "+") ++ pad 6 (Z.abs y))%string.

Definition dateString (t : Z) : string :=
  let '(y, m, d) := civilFromDays (t / msPerDay) in
  (yearString y ++ "-" ++ pad 2 m ++ "-" ++ pad 2 d)%string.

Definition timeString (t : Z) : string :=
  let r := t mod msPerDay in
  (pad 2 (r / 3600000) ++ ":" ++ pad 2 (r / 60000 mod 60) ++ ":" ++
   pad 2 (r / 1000 mod 60) ++ "." ++ pad 3 (r mod 1000))%string.

(** A Date object holds a time value or NaN ([None]). *)
Definition Date : Type := option Z.

Definition timeClip (t : Z) : Date :=
  if Z.abs t <=? maxTime then Some t else None.

(** [Date.prototype.toISOString]: a RangeError on an invalid date. *)
Definition toISOString (d : Date) : completion string :=
  match d with
  | Some t => Normal (dateString t ++ "T" ++ timeString t ++ "Z")%string
  | None => Throw "RangeError: Invalid time value"
  end.

(** *** The Date Time String Format *)

Definition isDigit (c : ascii) : bool := inRange 48 57 c.

Definition digitVal (c : ascii) : Z := Z.of_N (code c) - 48.

(** Read exactly [n] decimal digits. *)
Fixpoint digits (n : nat) (acc : Z) (s : string) : option (Z * string) :=
  match n with
  | O => Some (acc, s)
  | S n' =>
      match s with
      | String c r =>
          if isDigit c then digits n' (10 * acc + digitVal c) r else None
      | EmptyString => None
      end
  end.

Definition expect (c : ascii) (s : string) : option string :=
  match s with
  | String c' r => if Ascii.eqb c c' then Some r else None
  | EmptyString => None
  end.

(** The year: [YYYY], or an expanded year [+YYYYYY] / [-YYYYYY]
    ([-000000] is not a year). *)
Definition parseYear (s : string) : option (Z * string) :=
  match s with
  | String "+" r => digits 6 0 r
  | String "-" r =>
      match digits 6 0 r with
      | Some (y, r') => if y =? 0 then None else Some (- y, r')
      | None => None
      end
  | _ => digits 4 0 s
  end.

(** An optional [-NN] field; absent gives the default 1. *)
Definition parseDashField (s : string) : option (Z * string) :=
  match s with
  | String "-" r => digits 2 0 r
  | _ => Some (1, s)
  end.

(** The seconds after [HH:mm], with their fraction: [:ss] or [:ss.sss];
    a fraction is read only after the seconds. *)
Definition parseSeconds (s : string) : option (Z * Z * string) :=
  match digits 2 0 s with
  | Some (se, r) =>
      match expect "." r with
      | Some r' =>
          match digits 3 0 r' with
          | Some (ms, r'') => Some (se, ms, r'')
          | None => None
          end
      | None => Some (se, 0, r)
      end
  | None => None
  end.

(** The time of day after [T]: [HH:mm], [HH:mm:ss] or [HH:mm:ss.sss],
    in milliseconds. *)
Definition parseTime (s : string) : option (Z * string) :=
  match digits 2 0 s with
  | Some (h, r1) =>
      match expect ":" r1 with
      | Some r2 =>
          match digits 2 0 r2 with
          | Some (mi, r3) =>
              let seconds :=
                match expect ":" r3 with
                | Some r4 => parseSeconds r4
                | None => Some (0, 0, r3)
                end in
              match seconds with
              | Some (se, ms, r5) =>
                  if (h <=? 23) && (mi <=? 59) && (se <=? 59)
                     || (h =? 24) && (mi =? 0) && (se =? 0) && (ms =? 0)
                  then Some (h * 3600000 + mi * 60000 + se * 1000 + ms, r5)
                  else None
              | None => None
              end
          | None => None
          end
      | None => None
      end
  | None => None
  end.

(** The UTC offset: [Z] or [+HH:mm] / [-HH:mm], in milliseconds. *)
Definition parseOffset (s : string) : option (Z * string) :=
  match s with
  | String "Z" r => Some (0, r)
  | String c r =>
      if Ascii.eqb c "+" || Ascii.eqb c "-" then
        match digits 2 0 r with
        | Some (h, r1) =>
            match expect ":" r1 with
            | Some r2 =>
                match digits 2 0 r2 with
                | Some (mi, r3) =>
                    if (h <=? 23) && (mi <=? 59) then
                      let off := h * 3600000 + mi * 60000 in
                      Some (if Ascii.eqb c "-" then - off else off, r3)
                    else None
                | None => None
                end
            | None => None
            end
        | None => None
        end
      else None
  | EmptyString => None
  end.

(** [isoParse s] is the time value of [s] when [s] is in the Date Time
    String Format with all fields in range and the time zone fixed by
    the string itself: a date-only form (UTC), or a date-time form with
    an explicit offset.  Every conforming engine agrees on these. *)
Definition isoParse (s : string) : option Z :=
  match parseYear s with
  | Some (y, r1) =>
      match parseDashField r1 with
      | Some (m, r2) =>
          match parseDashField r2 with
          | Some (d, r3) =>
              if (1 <=? m) && (m <=? 12) && (1 <=? d) && (d <=? daysInMonth y m)
              then
                let day := daysFromCivil y m d * msPerDay in
                match r3 with
                | EmptyString => Some day
                | String "T" r4 =>
                    match parseTime r4 with
                    | Some (tm, r5) =>
                        match parseOffset r5 with
                        | Some (off, EmptyString) => Some (day + tm - off)
                        | _ => None
                        end
                    | None => None
                    end
                | _ => None
                end
              else None
          | None => None
          end
      | None => None
      end
  | None => None
  end.

Section Engine.
(** What the engine makes of a string outside the cases [isoParse]
    settles (local-time forms, legacy formats, garbage): a time value
    or NaN. *)
Variable engineParse : string -> option Z.

Definition parse (s : string) : option Z :=
  match isoParse s with
  | Some t => Some t
  | None => engineParse s
  end.

(** [new Date(s)] for a string [s]. *)
Definition newDate (s : string) : Date :=
  match parse s with
  | Some t => timeClip t
  | None => None
  end.
End Engine.

(** The characters of the date part of an ISO string. *)
Definition isDateChar (c : ascii) : bool :=
  isDigit c || Ascii.eqb c "-" || Ascii.eqb c "+".


(** [new Date().toISOString()] at clock reading [now]. *)
Definition timestamp (now : Z) : string :=
  match toISOString (timeClip now) with
  | Normal s => s
  | Throw _ => EmptyString
  end.

(** An engine that knows no format beyond the standard one. *)
Definition strictEngine : string -> option Z := fun _ => None.

End JsDate.

(** ** JSON values, as [response.json()] delivers them *)

Module Json.
Import Js JsDate.

(** A number: a finite number is its value together with its decimal
    text (what [Number::toString] gives, carried along rather than
    computed); a literal too large for a double parses to an infinity. *)
Inductive number : Type :=
| Finite (q : Q) (text : string)
| Infinite (negative : bool).

Definition zero : number := Finite 0%Q "0".

Definition isZero (n : number) : bool :=
  match n with
  | Finite q _ => (Qnum q =? 0)%Z
  | Infinite _ => false
  end.


Definition numberText (n : number) : string :=
  match n with
  | Finite _ text => text
  | Infinite false => "Infinity"
  | Infinite true => "-Infinity"
  end.

#[warnings="-register-all"]
Inductive value : Type :=
| JNull
| JBool (b : bool)
| JNum (n : number)
| JStr (s : string)
| JArr (elements : list value)
| JObj (fields : list (string * value)).

(** [ToBoolean]: [null], [false], zero and the empty string are falsy. *)
Definition toBoolean (v : value) : bool :=
  match v with
  | JNull => false
  | JBool b => b
  | JNum n => negb (isZero n)
  | JStr s => negb (isEmpty s)
  | JArr _ | JObj _ => true
  end.

(** A property that may be [undefined]. *)
Definition toBooleanOpt (v : option value) : bool :=
  match v with
  | Some x => toBoolean x
  | None => false
  end.

(** The member of an object; a key written twice keeps its last value. *)
Fixpoint lookup (key : string) (fields : list (string * value)) : option value :=
  match fields with
  | [] => None
  | (k, v) :: rest =>
      match lookup key rest with
      | Some v' => Some v'
      | None => if (k =? key)%string then Some v else None
      end
  end.

(** [v.key] for the property names the program reads (none of them is an
    index, [length] or a method): [undefined] on everything but an
    object that has the key. *)
Definition get (v : value) (key : string) : option value :=
  match v with
  | JObj fields => lookup key fields
  | _ => None
  end.

(** [v?.key]. *)
Definition getOpt (v : option value) (key : string) : option value :=
  match v with
  | None | Some JNull => None
  | Some x => get x key
  end.

(** [a || b] where [a] may be [undefined]. *)
Definition orValue (a : option value) (b : value) : value :=
  match a with
  | Some x => if toBoolean x then x else b
  | None => b
  end.

(** [a || b] where both may be [undefined]. *)
Definition orUndefined (a b : option value) : option value :=
  if toBooleanOpt a then a else b.

(** [ToString]: an array prints its elements separated by commas, with
    [null] printed as the empty string; an object prints as
    [[object Object]]. *)
Fixpoint toString (v : value) : string :=
  match v with
  | JNull => "null"
  | JBool true => "true"
  | JBool false => "false"
  | JNum n => numberText n
  | JStr s => s
  | JArr elements =>
      concat ","
        ((fix texts (l : list value) : list string :=
            match l with
            | [] => []
            | x :: rest =>
                match x with
                | JNull => EmptyString
                | _ => toString x
                end :: texts rest
            end) elements)
  | JObj _ => "[object Object]"
  end.

(** The text of an element in [Array.prototype.join]. *)
Definition elementText (v : value) : string :=
  match v with
  | JNull => EmptyString
  | _ => toString v
  end.

(** [Array.prototype.join]. *)
Definition joinValues (sep : string) (l : list value) : string :=
  concat sep (map elementText l).

(** [TimeClip] of a number. *)
Definition numberTime (n : number) : Date :=
  match n with
  | Finite q _ =>
      if Qle_bool (inject_Z (- maxTime)) q && Qle_bool q (inject_Z maxTime)
      then Some (Z.quot (Qnum q) (Z.pos (Qden q)))%Z
      else None
  | Infinite _ => None
  end.

Section Engine.
Variable engineParse : string -> option Z.

(** [new Date(v)]: a string is parsed, a number, boolean or [null] is a
    time value, an array or object is parsed as its text. *)
Definition newDateOf (v : value) : Date :=
  match v with
  | JStr s => newDate engineParse s
  | JNum n => numberTime n
  | JBool b => Some (if b then 1 else 0)%Z
  | JNull => Some 0%Z
  | JArr _ | JObj _ => newDate engineParse (toString v)
  end.
End Engine.

(** [typeof v === "object"]: [null], arrays and objects. *)
Definition typeofObject (v : value) : bool :=
  match v with
  | JNull | JArr _ | JObj _ => true
  | _ => false
  end.

(** The elements of an array, none for any other value. *)
Definition elementsOf (v : option value) : list value :=
  match v with
  | Some (JArr elements) => elements
  | _ => []
  end.

Definition isString (v : value) : bool :=
  match v with
  | JStr _ => true
  | _ => false
  end.



(** The texts of the entries of an array, as [join] prints them. *)
Definition textsOf (l : list value) : list string := map elementText l.

(** The entries of an array that are strings. *)
Fixpoint stringsOf (l : list value) : list string :=
  match l with
  | [] => []
  | JStr s :: rest => s :: stringsOf rest
  | _ :: rest => stringsOf rest
  end.

(** The values of declared type among the JSON values. *)
Definition ofStrings (l : list string) : value := JArr (map JStr l).

Definition ofOptString (s : option string) : option value := option_map JStr s.

Definition field (key : string) (v : option string) : list (string * value) :=
  match v with
  | Some s => [(key, JStr s)]
  | None => []
  end.

End Json.

(** ** [src/app/lib/types.ts] *)

Module Types.

Record Contact : Type := {
  organization : option string;
  name : option string;
  country : option string;
  countryCode : option string;
  contactRawText : option string;
  email : option string;
  phone : option string;
  address : option string;
  city : option string;
  state : option string;
  postalCode : option string
}.

(** A contact as a JSON object. *)
Definition ofContact (c : Contact) : Json.value :=
  Json.JObj
    (Json.field "organization" (organization c) ++
     Json.field "name" (name c) ++
     Json.field "country" (country c) ++
     Json.field "countryCode" (countryCode c) ++
     Json.field "rawText" (contactRawText c) ++
     Json.field "email" (email c) ++
     Json.field "phone" (phone c) ++
     Json.field "address" (address c) ++
     Json.field "city" (city c) ++
     Json.field "state" (state c) ++
     Json.field "postalCode" (postalCode c)).

(** The interfaces [WhoisRecord] and [NameServers] describe the record
    the provider is expected to send.  The route reads the parsed body
    as it comes (route.ts:231, 250) and only tests the record for
    truthiness, so at run time a record is any truthy JSON value, and
    each of its properties is any JSON value or [undefined]. *)
Record WhoisRecord : Type := {
  recordValue : Json.value;
  recordTruthy : Json.toBoolean recordValue = true
}.

(** The two projections, as the objects handed to [NextResponse.json]:
    the fields built with [||] hold whatever value came from upstream. *)
Record DomainInformation : Type := {
  di_domainName : Json.value;
  di_registrar : Json.value;
  di_registrationDate : string;
  di_expirationDate : string;
  di_estimatedDomainAge : Json.value;
  di_hostnames : string
}.

Record ContactInformation : Type := {
  ci_registrantName : Json.value;
  ci_technicalContactName : Json.value;
  ci_administrativeContactName : Json.value;
  ci_contactEmail : Json.value
}.

Definition MAX_DOMAIN_LENGTH : nat := 253.
Definition MAX_AI_DESCRIPTION_LENGTH : nat := 1000.
Definition MAX_HOSTNAME_DISPLAY_LENGTH : nat := 25.
Definition DEFAULT_FALLBACK_VALUE : string := "N/A".

End Types.

(** ** [src/app/lib/utils.ts] *)

Module Utils.
Import Js JsDate Types.

Definition getSystemPrompt : string :=
  "You are a helpful assistant that specializes in domains. When the user provides a description, you must return only a list of domain names that match the description. Do not include explanations, commentary, or extra formatting—just the domains themselves, one per line.".

Section Engine.
Variable engineParse : string -> option Z.

Definition formatDate (dateString : option string) : string :=
  if negb (truthy dateString) then "N/A"
  else
    match dateString with
    | Some s =>
        let date := newDate engineParse s in
        match toISOString date with
        | Normal iso => splitHead "T" iso
        | Throw _ => "N/A"
        end
    | None => "N/A"
    end.
End Engine.

Definition formatHostnames (hostnames : option (list string)) : string :=
  match hostnames with
  | None => "N/A"
  | Some l =>
      if (List.length l =? 0)%nat then "N/A"
      else
        let hostnameString := join ", " l in
        if (25 <? length hostnameString)%nat
        then substring 0 22 hostnameString ++ "..."
        else hostnameString
  end.

Definition getRegistrantName (registrant : option Contact) : string :=
  match registrant with
  | None => "N/A"
  | Some c => orElse (orOpt (organization c) (name c)) "N/A"
  end.

Definition getTechnicalContactName (technicalContact : option Contact) : string :=
  match technicalContact with
  | None => "N/A"
  | Some c => orElse (orOpt (organization c) (name c)) "N/A"
  end.

Definition getAdministrativeContactName
    (administrativeContact : option Contact) : string :=
  match administrativeContact with
  | None => "N/A"
  | Some c => orElse (orOpt (organization c) (name c)) "N/A"
  end.

End Utils.

(** ** The documented variant of the helpers ([src/unnamed/part_003]) *)

Module UtilsDocumented.
Import Js JsDate Types.

Definition MAX_HOSTNAME_DISPLAY_LENGTH : nat := 25.
Definition HOSTNAME_TRUNCATION_SUFFIX : string := "...".
Definition DEFAULT_FALLBACK_VALUE : string := "N/A".

(** The test of [/^\d{4}-\d{2}-\d{2}$/]. *)
Definition isDateFormat (s : string) : bool :=
  match s with
  | String y1 (String y2 (String y3 (String y4 (String s1
      (String m1 (String m2 (String s2 (String d1 (String d2 EmptyString))))))))) =>
      isDigit y1 && isDigit y2 && isDigit y3 && isDigit y4 && Ascii.eqb s1 "-" &&
      isDigit m1 && isDigit m2 && Ascii.eqb s2 "-" && isDigit d1 && isDigit d2
  | _ => false
  end.

Section Engine.
Variable engineParse : string -> option Z.

Definition formatDate (dateString : option string) : string :=
  match dateString with
  | None => DEFAULT_FALLBACK_VALUE
  | Some s =>
      if isEmpty s || isEmpty (trim s) then DEFAULT_FALLBACK_VALUE
      else
        let date := newDate engineParse (trim s) in
        match date with
        | None => DEFAULT_FALLBACK_VALUE
        | Some _ =>
            match toISOString date with
            | Normal isoString =>
                let datePart := splitHead "T" isoString in
                if negb (isDateFormat datePart) then DEFAULT_FALLBACK_VALUE
                else datePart
            | Throw _ => DEFAULT_FALLBACK_VALUE
            end
        end
  end.
End Engine.

Definition formatHostnames (hostnames : option (list string)) : string :=
  match hostnames with
  | None => DEFAULT_FALLBACK_VALUE
  | Some l =>
      if (List.length l =? 0)%nat then DEFAULT_FALLBACK_VALUE
      else
        let validHostnames :=
          filter (fun hostname => (0 <? length (trim hostname))%nat) l in
        if (List.length validHostnames =? 0)%nat then DEFAULT_FALLBACK_VALUE
        else
          let hostnameString := join ", " validHostnames in
          if (MAX_HOSTNAME_DISPLAY_LENGTH <? length hostnameString)%nat then
            let truncatedLength :=
              (MAX_HOSTNAME_DISPLAY_LENGTH - length HOSTNAME_TRUNCATION_SUFFIX)%nat in
            substring 0 truncatedLength hostnameString ++ HOSTNAME_TRUNCATION_SUFFIX
          else hostnameString
  end.

(** [v?.trim()] followed by the test that the result is a non-empty
    string. *)
Definition trimmedNonEmpty (v : option string) : option string :=
  match v with
  | Some s => if (0 <? length (trim s))%nat then Some (trim s) else None
  | None => None
  end.

Definition getRegistrantName (registrant : option Contact) : string :=
  match registrant with
  | None => DEFAULT_FALLBACK_VALUE
  | Some c =>
      match trimmedNonEmpty (organization c) with
      | Some organizationName => organizationName
      | None =>
          match trimmedNonEmpty (name c) with
          | Some individualName => individualName
          | None => DEFAULT_FALLBACK_VALUE
          end
      end
  end.

Definition getTechnicalContactName (technicalContact : option Contact) : string :=
  match technicalContact with
  | None => DEFAULT_FALLBACK_VALUE
  | Some c =>
      match trimmedNonEmpty (organization c) with
      | Some organizationName => organizationName
      | None =>
          match trimmedNonEmpty (name c) with
          | Some individualName => individualName
          | None => DEFAULT_FALLBACK_VALUE
          end
      end
  end.

Definition getAdministrativeContactName
    (administrativeContact : option Contact) : string :=
  match administrativeContact with
  | None => DEFAULT_FALLBACK_VALUE
  | Some c =>
      match trimmedNonEmpty (organization c) with
      | Some organizationName => organizationName
      | None =>
          match trimmedNonEmpty (name c) with
          | Some individualName => individualName
          | None => DEFAULT_FALLBACK_VALUE
          end
      end
  end.

End UtilsDocumented.

(** ** The helpers of [src/app/lib/utils.ts] on the values they receive

    The parameter types of the helpers are erased at run time and the
    route passes properties of the parsed body: here each helper is the
    same code, run on any JSON value or [undefined]. *)

Module UtilsJs.
Import Js JsDate Json.

Section Engine.
Variable engineParse : string -> option Z.

Definition formatDate (dateString : option value) : string :=
  if negb (toBooleanOpt dateString) then "N/A"
  else
    match dateString with
    | Some v =>
        let date := newDateOf engineParse v in
        match toISOString date with
        | Normal iso => splitHead "T" iso
        | Throw _ => "N/A"
        end
    | None => "N/A"
    end.
End Engine.

Definition formatHostnames (hostnames : option value) : string :=
  match hostnames with
  | Some (JArr l) =>
      if (List.length l =? 0)%nat then "N/A"
      else
        let hostnameString := joinValues ", " l in
        if (25 <? length hostnameString)%nat
        then substring 0 22 hostnameString ++ "..."
        else hostnameString
  | _ => "N/A"
  end.

Definition getRegistrantName (registrant : option value) : value :=
  match registrant with
  | None => JStr "N/A"
  | Some c =>
      if negb (toBoolean c) then JStr "N/A"
      else orValue (orUndefined (get c "organization") (get c "name")) (JStr "N/A")
  end.

Definition getTechnicalContactName (technicalContact : option value) : value :=
  match technicalContact with
  | None => JStr "N/A"
  | Some c =>
      if negb (toBoolean c) then JStr "N/A"
      else orValue (orUndefined (get c "organization") (get c "name")) (JStr "N/A")
  end.

Definition getAdministrativeContactName
    (administrativeContact : option value) : value :=
  match administrativeContact with
  | None => JStr "N/A"
  | Some c =>
      if negb (toBoolean c) then JStr "N/A"
      else orValue (orUndefined (get c "organization") (get c "name")) (JStr "N/A")
  end.

End UtilsJs.

(** ** The documented variant of the helpers on the values they receive *)

Module UtilsDocumentedJs.
Import Js JsDate Json.

Definition DEFAULT_FALLBACK_VALUE : string := UtilsDocumented.DEFAULT_FALLBACK_VALUE.

Section Engine.
Variable engineParse : string -> option Z.

(** Only a string passes the [typeof] test of the guard. *)
Definition formatDate (dateString : option value) : string :=
  match dateString with
  | Some (JStr s) => UtilsDocumented.formatDate engineParse (Some s)
  | _ => DEFAULT_FALLBACK_VALUE
  end.
End Engine.

(** The callback of the [filter]. *)
Definition isValidHostname (hostname : value) : bool :=
  match hostname with
  | JStr s => (0 <? length (trim s))%nat
  | _ => false
  end.

Definition formatHostnames (hostnames : option value) : string :=
  match hostnames with
  | Some (JArr l) =>
      if (List.length l =? 0)%nat then DEFAULT_FALLBACK_VALUE
      else
        let validHostnames := filter isValidHostname l in
        if (List.length validHostnames =? 0)%nat then DEFAULT_FALLBACK_VALUE
        else
          let hostnameString := joinValues ", " validHostnames in
          if (UtilsDocumented.MAX_HOSTNAME_DISPLAY_LENGTH <? length hostnameString)%nat
          then
            let truncatedLength :=
              (UtilsDocumented.MAX_HOSTNAME_DISPLAY_LENGTH
               - length UtilsDocumented.HOSTNAME_TRUNCATION_SUFFIX)%nat in
            substring 0 truncatedLength hostnameString
            ++ UtilsDocumented.HOSTNAME_TRUNCATION_SUFFIX
          else hostnameString
  | _ => DEFAULT_FALLBACK_VALUE
  end.

(** [v?.trim()]: [undefined] on a nullish value, the trimmed string on a
    string, a TypeError (no such method) on any other value. *)
Definition trimOpt (v : option value) : completion (option string) :=
  match v with
  | None | Some JNull => Normal None
  | Some (JStr s) => Normal (Some (trim s))
  | Some _ => Throw "TypeError: trim is not a function"
  end.

(** [x && x.length > 0] for [x] a string or [undefined]. *)
Definition nonEmpty (x : option string) : bool :=
  match x with
  | Some s => negb (isEmpty s) && (0 <? length s)%nat
  | None => false
  end.

(** The body shared by the three resolvers. *)
Definition resolve (contact : option value) : string :=
  match contact with
  | None => DEFAULT_FALLBACK_VALUE
  | Some c =>
      if negb (toBoolean c) || negb (typeofObject c) then DEFAULT_FALLBACK_VALUE
      else
        match trimOpt (get c "organization") with
        | Throw _ => DEFAULT_FALLBACK_VALUE
        | Normal organizationName =>
            if nonEmpty organizationName
            then match organizationName with Some o => o | None => EmptyString end
            else
              match trimOpt (get c "name") with
              | Throw _ => DEFAULT_FALLBACK_VALUE
              | Normal individualName =>
                  if nonEmpty individualName
                  then match individualName with Some n => n | None => EmptyString end
                  else DEFAULT_FALLBACK_VALUE
              end
        end
  end.

Definition getRegistrantName (registrant : option value) : string :=
  resolve registrant.

Definition getTechnicalContactName (technicalContact : option value) : string :=
  resolve technicalContact.

Definition getAdministrativeContactName
    (administrativeContact : option value) : string :=
  resolve administrativeContact.

End UtilsDocumentedJs.

(** ** Responses of a route handler ([NextResponse.json]) *)

Module Next.
Import Types.

Inductive ResponseBody : Type :=
| ErrorBody (error : string) (timestamp : option string)
| DomainBody (domainInformation : DomainInformation) (timestamp : string)
| ContactBody (contactInformation : ContactInformation) (timestamp : string)
| AiBody (response : string) (timestamp : string).

Record NextResponse : Type := {
  status : Z;
  body : ResponseBody
}.

(** [NextResponse.json({ error }, { status })]. *)
Definition jsonError (error : string) (st : Z) : NextResponse :=
  {| status := st; body := ErrorBody error None |}.

(** [NextResponse.json(body)]: the status defaults to 200. *)
Definition jsonOk (b : ResponseBody) : NextResponse :=
  {| status := 200; body := b |}.

(** A handler body runs statement by statement; each statement either
    returns the response or lets control continue. *)
Inductive flow (A : Type) : Type :=
| Return (r : NextResponse)
| Continue (a : A).
Arguments Return {A} r.
Arguments Continue {A} a.

Definition bind {A B : Type} (m : flow A) (k : A -> flow B) : flow B :=
  match m with
  | Return r => Return r
  | Continue a => k a
  end.

(** [if (cond) return r;]. *)
Definition returnIf (cond : bool) (r : NextResponse) : flow unit :=
  if cond then Return r else Continue tt.

Declare Scope flow_scope.
Delimit Scope flow_scope with flow.
Notation "x <- m ;; k" := (bind m (fun x => k))
  (at level 61, m at next level, right associativity) : flow_scope.
Notation "m ;; k" := (bind m (fun _ => k))
  (at level 61, right associativity) : flow_scope.

End Next.

(** ** [src/app/api/domain-lookup/route.ts] *)

Module DomainLookup.
Import Js JsDate Types Next.
Local Open Scope Z_scope.
Local Open Scope flow_scope.

Definition WHOIS_BASE_URL : string :=
  "https://www.whoisxmlapi.com/whoisserver/WhoisService".

Definition REQUEST_TIMEOUT : Z := 30000.

(** The helpers imported from [@/app/lib/utils], on the values the
    handler passes them. *)
Record Helpers : Type := {
  formatDate : option Json.value -> string;
  formatHostnames : option Json.value -> string;
  getRegistrantName : option Json.value -> Json.value;
  getTechnicalContactName : option Json.value -> Json.value;
  getAdministrativeContactName : option Json.value -> Json.value
}.

Definition libUtils (engineParse : string -> option Z) : Helpers := {|
  formatDate := UtilsJs.formatDate engineParse;
  formatHostnames := UtilsJs.formatHostnames;
  getRegistrantName := UtilsJs.getRegistrantName;
  getTechnicalContactName := UtilsJs.getTechnicalContactName;
  getAdministrativeContactName := UtilsJs.getAdministrativeContactName
|}.

Definition documentedUtils (engineParse : string -> option Z) : Helpers := {|
  formatDate := UtilsDocumentedJs.formatDate engineParse;
  formatHostnames := UtilsDocumentedJs.formatHostnames;
  getRegistrantName := fun c => Json.JStr (UtilsDocumentedJs.getRegistrantName c);
  getTechnicalContactName :=
    fun c => Json.JStr (UtilsDocumentedJs.getTechnicalContactName c);
  getAdministrativeContactName :=
    fun c => Json.JStr (UtilsDocumentedJs.getAdministrativeContactName c)
|}.

(** The query parameters, as [searchParams.get] returns them. *)
Record Request : Type := {
  domain : option string;
  type : option string
}.

Record RequestBody : Type := {
  rb_domainName : string;
  rb_apiKey : string;
  rb_outputFormat : string
}.

(** What [fetch] rejects with. *)
Record FetchError : Type := {
  fe_name : option string;
  fe_code : option string
}.

(** What [response.json()] gives: a rejection, a value that is falsy or
    not of type object, or an object (or array) with its [WhoisRecord]
    and [ErrorMessage] properties. *)
Inductive JsonResult : Type :=
| JsonThrows
| JsonNotObject
| JsonObject (WhoisRecord : option WhoisRecord) (ErrorMessage : option string).

Record HttpResponse : Type := {
  r_status : Z;
  r_statusText : string;
  r_json : JsonResult
}.

(** [response.ok]: the status is in the range 200-299. *)
Definition ok (r : HttpResponse) : bool :=
  (200 <=? r_status r) && (r_status r <=? 299).

Inductive FetchResult : Type :=
| FetchRejects (e : FetchError)
| FetchResolves (r : HttpResponse).

(** The environment of one request: the configured key, the upstream
    service (with the abort timer folded into the rejection), and the
    clock. *)
Record World : Type := {
  WHOIS_API_KEY : option string;
  fetch : string -> RequestBody -> FetchResult;
  now : Z
}.

(** Lines 46-68: the [domain] parameter. *)
Definition checkDomainParam (domain : option string) : flow string :=
  match domain with
  | None => Return (jsonError "Domain parameter is required" 400)
  | Some d =>
      returnIf (isEmpty d) (jsonError "Domain parameter is required" 400) ;;
      returnIf (length (trim d) =? 0)%nat
        (jsonError "Domain parameter must be a non-empty string" 400) ;;
      returnIf (253 <? length d)%nat
        (jsonError "Domain name is too long (maximum 253 characters)" 400) ;;
      Continue d
  end.

(** Lines 70-85: the [type] parameter. *)
Definition checkTypeParam (type : option string) : flow string :=
  match type with
  | None => Return (jsonError "Type parameter is required" 400)
  | Some t =>
      returnIf (isEmpty t) (jsonError "Type parameter is required" 400) ;;
      returnIf (negb ((t =? "domain") || (t =? "contact"))%string)
        (jsonError "Type parameter must be 'domain' or 'contact'" 400) ;;
      Continue t
  end.

(** [.replace(/^https?:\/\//, empty)]: a leading [http://] or [https://]
    is removed; the pattern has no [i] flag. *)
Definition stripScheme (s : string) : string :=
  match dropPrefix "http" s with
  | Some r =>
      let r' := match r with String "s" r1 => r1 | _ => r end in
      match dropPrefix "://" r' with
      | Some rest => rest
      | None => s
      end
  | None => s
  end.

Definition isDomainChar (c : ascii) : bool :=
  inRange 97 122 c || inRange 48 57 c || (code c =? 46)%N || (code c =? 45)%N.

(** The test of [/^[a-z0-9.-]+$/]. *)
Definition domainRegex (s : string) : bool :=
  negb (isEmpty s) && all isDomainChar s.

Definition cleanDomainOf (domain : string) : string :=
  trim (toLowerCase (splitHead "/" (stripScheme domain))).

(** Lines 89-115: the body of the inner [try]. *)
Definition cleanAndCheck (domain : string) : completion string :=
  let cleanDomain := cleanDomainOf domain in
  if isEmpty cleanDomain || (length cleanDomain =? 0)%nat then
    Throw "Invalid domain format"
  else if negb (includes "." cleanDomain) || startsWith "." cleanDomain
          || endsWith "." cleanDomain then
    Throw "Invalid domain format"
  else if negb (domainRegex cleanDomain) then
    Throw "Domain contains invalid characters"
  else Normal cleanDomain.

(** Lines 87-122: the inner [try] with its [catch]. *)
Definition cleanDomainStep (domain : string) : flow string :=
  match cleanAndCheck domain with
  | Normal cleanDomain => Continue cleanDomain
  | Throw _ => Return (jsonError "Invalid domain format" 400)
  end.

(** The domain-validation steps of the handler taken together. *)
Definition validateDomain (domain : option string) : flow string :=
  d <- checkDomainParam domain ;;
  cleanDomainStep d.

(** Lines 151-179: the [catch] of the [fetch] call. *)
Definition fetchFailure (e : FetchError) : NextResponse :=
  if match fe_name e with Some n => (n =? "AbortError")%string | None => false end
  then jsonError "Request timeout - WHOIS service took too long to respond" 504
  else if match fe_code e with
          | Some c => (c =? "ENOTFOUND")%string || (c =? "ECONNREFUSED")%string
          | None => false
          end
  then jsonError "WHOIS service is currently unavailable" 503
  else jsonError "Failed to connect to WHOIS service" 503.

(** Lines 188-225: the [switch] on the upstream status. *)
Definition httpFailure (r : HttpResponse) : NextResponse :=
  let s := r_status r in
  if s =? 400 then jsonError "Invalid domain name or request format" 400
  else if s =? 401 then jsonError "WHOIS API authentication failed" 500
  else if s =? 403 then jsonError "WHOIS API access forbidden" 500
  else if s =? 429 then
    jsonError "WHOIS API rate limit exceeded. Please try again later." 429
  else if (s =? 500) || (s =? 502) || (s =? 503) then
    jsonError "WHOIS service is temporarily unavailable" 503
  else jsonError ("WHOIS service error: " ++ r_statusText r) 500.

Section Handler.
Variable utils : Helpers.
Variable w : World.

(** Lines 267-283. *)
Definition domainInfo (whoisRecord : WhoisRecord) (cleanDomain : string)
  : DomainInformation :=
  let whoisRecord := recordValue whoisRecord in {|
  di_domainName :=
    Json.orValue (Json.get whoisRecord "domainName") (Json.JStr cleanDomain);
  di_registrar :=
    Json.orValue (Json.get whoisRecord "registrarName") (Json.JStr "N/A");
  di_registrationDate := formatDate utils (Json.get whoisRecord "createdDate");
  di_expirationDate := formatDate utils (Json.get whoisRecord "expiresDate");
  di_estimatedDomainAge :=
    Json.orValue (Json.get whoisRecord "estimatedDomainAge") (Json.JNum Json.zero);
  di_hostnames :=
    formatHostnames utils
      (Some (Json.orValue
               (Json.getOpt (Json.get whoisRecord "nameServers") "hostNames")
               (Json.JArr [])))
|}.

(** Lines 297-313. *)
Definition contactInfo (whoisRecord : WhoisRecord) : ContactInformation :=
  let whoisRecord := recordValue whoisRecord in {|
  ci_registrantName := getRegistrantName utils (Json.get whoisRecord "registrant");
  ci_technicalContactName :=
    getTechnicalContactName utils (Json.get whoisRecord "technicalContact");
  ci_administrativeContactName :=
    getAdministrativeContactName utils
      (Json.get whoisRecord "administrativeContact");
  ci_contactEmail :=
    Json.orValue (Json.get whoisRecord "contactEmail") (Json.JStr "N/A")
|}.

(** Lines 228-264: the body of a 2xx response. *)
Definition recordStep (r : HttpResponse) : flow WhoisRecord :=
  match r_json r with
  | JsonThrows =>
      Return (jsonError "Invalid response format from WHOIS service" 500)
  | JsonNotObject =>
      Return (jsonError "Invalid response from WHOIS service" 500)
  | JsonObject None ErrorMessage =>
      if truthy ErrorMessage then
        Return (jsonError ("WHOIS lookup failed: " ++ orElse ErrorMessage EmptyString) 400)
      else Return (jsonError "No WHOIS record found for this domain" 404)
  | JsonObject (Some whoisRecord) _ => Continue whoisRecord
  end.

(** The handler.  [Continue tt] is the fall off the end of the
    function; the [catch] clauses around the two projections and
    around the whole body have nothing to catch here. *)
Definition GET (request : Request) : flow unit :=
  let domain := domain request in
  let type := type request in
  returnIf (negb (truthy (WHOIS_API_KEY w)))
    (jsonError "WHOIS service is not properly configured" 500) ;;
  d <- checkDomainParam domain ;;
  t <- checkTypeParam type ;;
  cleanDomain <- cleanDomainStep d ;;
  let requestBody := {|
    rb_domainName := cleanDomain;
    rb_apiKey := orElse (WHOIS_API_KEY w) EmptyString;
    rb_outputFormat := "JSON"
  |} in
  match fetch w WHOIS_BASE_URL requestBody with
  | FetchRejects fetchError => Return (fetchFailure fetchError)
  | FetchResolves response =>
      returnIf (negb (ok response)) (httpFailure response) ;;
      whoisRecord <- recordStep response ;;
      returnIf (t =? "domain")%string
        (jsonOk (DomainBody (domainInfo whoisRecord cleanDomain)
                            (timestamp (now w)))) ;;
      returnIf (t =? "contact")%string
        (jsonOk (ContactBody (contactInfo whoisRecord) (timestamp (now w)))) ;;
      Continue tt
  end.
End Handler.

(** The request body the handler sends for a clean domain. *)
Definition requestBody (w : World) (cleanDomain : string) : RequestBody := {|
  rb_domainName := cleanDomain;
  rb_apiKey := orElse (WHOIS_API_KEY w) EmptyString;
  rb_outputFormat := "JSON"
|}.

(** The request passes every check made before the upstream call, with
    clean domain [cleanDomain] and type [t]. *)
Definition accepted (w : World) (request : Request) (cleanDomain t : string) : Prop :=
  truthy (WHOIS_API_KEY w) = true /\
  validateDomain (domain request) = Continue cleanDomain /\
  checkTypeParam (type request) = Continue t.

End DomainLookup.

(** ** [src/app/api/ai-lookup/route.ts] *)

Module AiLookup.
Import Js JsDate Types Next.
Local Open Scope Z_scope.
Local Open Scope flow_scope.

(** The values a property of a parsed body or of a provider response can
    hold, as far as the handler tells them apart. *)
Inductive JsValue : Type :=
| VUndefined
| VNull
| VBool (b : bool)
| VNumber (n : Z)
| VString (s : string)
| VObject.

Definition truthyValue (v : JsValue) : bool :=
  match v with
  | VUndefined | VNull => false
  | VBool b => b
  | VNumber n => negb (n =? 0)
  | VString s => negb (isEmpty s)
  | VObject => true
  end.

(** What [request.json()] gives: a rejection, [null] (whose
    destructuring throws), or a value with its [description]. *)
Inductive BodyResult : Type :=
| BodyThrows
| BodyNull
| BodyValue (description : JsValue).

Record Request : Type := {
  contentType : option string;
  json : BodyResult
}.

(** The [text] accessor of a provider response: it throws or yields a
    value. *)
Inductive TextResult : Type :=
| TextThrows
| TextValue (v : JsValue).

(** What [generateContent] gives: a rejection with its [status]
    property, or a response (possibly absent). *)
Inductive GenerateResult : Type :=
| GenerateRejects (status : option Z)
| GenerateResolves (response : option TextResult).

Record World : Type := {
  GEMINI_API_KEY : option string;
  clientThrows : string -> bool;
  generateContent : string -> string -> GenerateResult;
  now : Z
}.

(** Lines 37-67: the [description] field. *)
Definition checkDescription (description : JsValue) : flow string :=
  returnIf (negb (truthyValue description))
    (jsonError "Description field is required" 400) ;;
  match description with
  | VString s =>
      returnIf (length (trim s) =? 0)%nat
        (jsonError "Description cannot be empty" 400) ;;
      returnIf (1000 <? length s)%nat
        (jsonError "Description is too long (maximum 1000 characters)" 400) ;;
      Continue s
  | _ => Return (jsonError "Description must be a string" 400)
  end.

(** Lines 114-146: the [catch] of the generation call. *)
Definition generateFailure (status : option Z) : NextResponse :=
  let eq (n : Z) := match status with Some s => s =? n | None => false end in
  if eq 429 then
    jsonError "AI service is currently busy. Please try again later." 429
  else if eq 401 || eq 403 then jsonError "AI service authentication failed" 500
  else if eq 400 then jsonError "Invalid request to AI service" 400
  else jsonError "AI service is temporarily unavailable" 503.

(** Lines 148-192: validation of the provider response. *)
Definition responseStep (now : Z) (response : option TextResult) : flow unit :=
  match response with
  | None => Return (jsonError "AI service returned no response" 500)
  | Some TextThrows => Return (jsonError "Failed to process AI response" 500)
  | Some (TextValue responseText) =>
      returnIf (negb (truthyValue responseText))
        (jsonError "AI service returned invalid response" 500) ;;
      match responseText with
      | VString s =>
          let responseText := trim s in
          returnIf (length responseText =? 0)%nat
            (jsonError "AI service returned empty response" 500) ;;
          Return (jsonOk (AiBody responseText (timestamp now)))
      | _ => Return (jsonError "AI service returned invalid response" 500)
      end
  end.

(** The response of the outer [catch]. *)
Definition unexpected (now : Z) : NextResponse :=
  {| status := 500;
     body := ErrorBody "An unexpected error occurred while processing your request"
               (Some (timestamp now)) |}.

Section Handler.
Variable w : World.

Definition POST (request : Request) : flow unit :=
  returnIf
    (negb match contentType request with
          | Some ct => includes "application/json" ct
          | None => false
          end)
    (jsonError "Content-Type must be application/json" 400) ;;
  match json request with
  | BodyThrows => Return (jsonError "Invalid JSON format in request body" 400)
  | BodyNull => Return (unexpected (now w))
  | BodyValue description =>
      d <- checkDescription description ;;
      returnIf (negb (truthy (GEMINI_API_KEY w)))
        (jsonError "AI service is not properly configured" 500) ;;
      let API_KEY := orElse (GEMINI_API_KEY w) EmptyString in
      let systemPrompt := Utils.getSystemPrompt in
      returnIf (clientThrows w API_KEY)
        (jsonError "Failed to initialize AI service" 500) ;;
      let fullPrompt := systemPrompt ++ ". User Prompt: " ++ trim d in
      match generateContent w "gemini-2.5-flash" fullPrompt with
      | GenerateRejects status => Return (generateFailure status)
      | GenerateResolves response => responseStep (now w) response
      end
  end.
End Handler.

(** The request reaches the generation call, which resolves with
    [response]. *)
Definition generated (w : World) (request : Request)
    (response : option TextResult) : Prop :=
  exists ct d,
    contentType request = Some ct /\ includes "application/json" ct = true /\
    json request = BodyValue (VString d) /\
    checkDescription (VString d) = Continue d /\
    truthy (GEMINI_API_KEY w) = true /\
    clientThrows w (orElse (GEMINI_API_KEY w) EmptyString) = false /\
    generateContent w "gemini-2.5-flash"
      (Utils.getSystemPrompt ++ ". User Prompt: " ++ trim d) =
    GenerateResolves response.

End AiLookup.


(** ** The specification's own definitions, for comparison with the code *)

Module Reference.
Import Js Types.

(** The error taxonomy and the HTTP status of each category. *)
Inductive Category : Type :=
| validation
| upstream_auth
| upstream_rate_limited
| upstream_unavailable
| timeout
| malformed_response
| internal.

Definition categoryStatus (c : Category) : Z :=
  match c with
  | validation => 400
  | upstream_auth => 500
  | upstream_rate_limited => 429
  | upstream_unavailable => 503
  | timeout => 504
  | malformed_response => 500
  | internal => 500
  end.

Definition fallbackToken : string := "N/A".

(** A blank string is empty or consists of white space only. *)
Definition isBlank (s : string) : bool := isEmpty (trim s).

(** formatHostnames: drop the blank entries; the fallback token when
    nothing is left; otherwise join with comma and space and truncate to
    22 characters plus the ellipsis when the joined string is longer than
    25. *)
Definition formatHostnames_reference (list : option (list string)) : string :=
  match list with
  | None => fallbackToken
  | Some l =>
      match filter (fun h => negb (isBlank h)) l with
      | [] => fallbackToken
      | kept =>
          let joined := join ", " kept in
          if (25 <? length joined)%nat then substring 0 22 joined ++ "..."
          else joined
      end
  end.

(** A field that is present and not blank. *)
Definition nonBlank (v : option string) : option string :=
  match v with
  | Some s => if isBlank s then None else Some s
  | None => None
  end.

(** resolveContactName: the organization if non-blank, else the name if
    non-blank, else the fallback token. *)
Definition resolveContactName (contact : option Contact) : string :=
  match contact with
  | None => fallbackToken
  | Some c =>
      match nonBlank (organization c), nonBlank (name c) with
      | Some o, _ => o
      | None, Some n => n
      | None, None => fallbackToken
      end
  end.

(** A string that is empty, or not blank. *)
Definition emptyOrVisible (v : option string) : bool :=
  match v with
  | Some s => isEmpty s || negb (isBlank s)
  | None => true
  end.

(** A projected field with a fallback: [result] is the upstream value
    when that is present and truthy, and the fallback otherwise. *)
Definition orFallback (upstream : option Json.value) (fallback result : Json.value)
  : Prop :=
  (forall v, upstream = Some v -> Json.toBoolean v = true -> result = v) /\
  (Json.toBooleanOpt upstream = false -> result = fallback).

(** A projected contact name: the fallback token when there is no
    contact; else the organization of the contact when that is truthy,
    else its name when that is truthy, else the fallback token. *)
Definition contactNameOf (contact : option Json.value) (result : Json.value) : Prop :=
  (Json.toBooleanOpt contact = false -> result = Json.JStr fallbackToken) /\
  (forall c, contact = Some c -> Json.toBoolean c = true ->
     (forall o, Json.get c "organization" = Some o -> Json.toBoolean o = true ->
                result = o) /\
     (Json.toBooleanOpt (Json.get c "organization") = false ->
      orFallback (Json.get c "name") (Json.JStr fallbackToken) result)).

End Reference.

(** ** Sample inputs *)

Module Samples.
Import Js JsDate Types.

Definition noContact : Contact := {|
  organization := None; name := None; country := None; countryCode := None;
  contactRawText := None; email := None; phone := None; address := None;
  city := None; state := None; postalCode := None
|}.

(** A contact whose organization is white space only. *)
Definition blankOrganization : Contact := {|
  organization := Some "   "; name := Some "Y"; country := None;
  countryCode := None; contactRawText := None; email := None; phone := None;
  address := None; city := None; state := None; postalCode := None
|}.

(** The empty object. *)
Definition noFields : WhoisRecord :=
  {| recordValue := Json.JObj []; recordTruthy := eq_refl |}.


(** A record as the provider documents it. *)
Definition registered : WhoisRecord :=
  {| recordValue :=
       Json.JObj
         [("domainName", Json.JStr "example.com");
          ("registrarName", Json.JStr "Example Registrar, Inc.");
          ("createdDate", Json.JStr "1995-08-14T04:00:00Z");
          ("expiresDate", Json.JStr "2030-08-13T04:00:00Z");
          ("estimatedDomainAge", Json.JNum (Json.Finite 11000 "11000"));
          ("nameServers",
           Json.JObj
             [("hostNames",
               Json.JArr [Json.JStr "a.iana-servers.net";
                          Json.JStr "b.iana-servers.net"])]);
          ("registrant",
           Json.JObj [("organization", Json.JStr "Example Org");
                      ("name", Json.JStr "J. Doe")]);
          ("technicalContact", Json.JObj [("name", Json.JStr "T. Roe")]);
          ("contactEmail", Json.JStr "admin@example.com")];
     recordTruthy := eq_refl |}.

(** A record that departs from the declared types: a numeric registrar
    and organization, a [null] among the host names, a date that is a
    number. *)
Definition untyped : WhoisRecord :=
  {| recordValue :=
       Json.JObj
         [("registrarName", Json.JNum (Json.Finite 123 "123"));
          ("createdDate", Json.JNum (Json.Finite 86400000 "86400000"));
          ("expiresDate", Json.JArr []);
          ("nameServers",
           Json.JObj [("hostNames",
                       Json.JArr [Json.JNull; Json.JStr "ns1.example.com"])]);
          ("registrant",
           Json.JObj [("organization", Json.JNum (Json.Finite 5 "5"));
                      ("name", Json.JStr "J. Doe")]);
          ("technicalContact", Json.JStr "T. Roe");
          ("contactEmail", Json.JBool true)];
     recordTruthy := eq_refl |}.


Definition domainRequest : DomainLookup.Request :=
  {| DomainLookup.domain := Some "example.com"; DomainLookup.type := Some "domain" |}.

(** A request for a domain with an underscore. *)
Definition underscoreRequest : DomainLookup.Request :=
  {| DomainLookup.domain := Some "exa_mple.com"; DomainLookup.type := Some "domain" |}.

(** A request with no domain and a wrong type. *)
Definition badRequest : DomainLookup.Request :=
  {| DomainLookup.domain := None; DomainLookup.type := Some "everything" |}.

(** A configured server whose upstream answers every call with [r]. *)
Definition answering (r : DomainLookup.HttpResponse) : DomainLookup.World := {|
  DomainLookup.WHOIS_API_KEY := Some "key";
  DomainLookup.fetch := fun _ _ => DomainLookup.FetchResolves r;
  DomainLookup.now := 0
|}.

(** A configured server whose upstream call fails with [e]. *)
Definition failing (e : DomainLookup.FetchError) : DomainLookup.World := {|
  DomainLookup.WHOIS_API_KEY := Some "key";
  DomainLookup.fetch := fun _ _ => DomainLookup.FetchRejects e;
  DomainLookup.now := 0
|}.

Definition abortedLookup : DomainLookup.FetchError :=
  {| DomainLookup.fe_name := Some "AbortError";
     DomainLookup.fe_code := Some "ENOTFOUND" |}.

Definition contactRequest : DomainLookup.Request :=
  {| DomainLookup.domain := Some "example.com"; DomainLookup.type := Some "contact" |}.

Definition okWith (j : DomainLookup.JsonResult) : DomainLookup.HttpResponse :=
  {| DomainLookup.r_status := 200; DomainLookup.r_statusText := "OK";
     DomainLookup.r_json := j |}.

Definition tooManyRequests (j : DomainLookup.JsonResult) : DomainLookup.HttpResponse :=
  {| DomainLookup.r_status := 429; DomainLookup.r_statusText := "Too Many Requests";
     DomainLookup.r_json := j |}.

Definition teapot : DomainLookup.HttpResponse :=
  {| DomainLookup.r_status := 418; DomainLookup.r_statusText := "I'm a teapot";
     DomainLookup.r_json := DomainLookup.JsonThrows |}.

(** A server without the WHOIS key. *)
Definition unconfigured : DomainLookup.World := {|
  DomainLookup.WHOIS_API_KEY := None;
  DomainLookup.fetch := fun _ _ => DomainLookup.FetchResolves (okWith DomainLookup.JsonThrows);
  DomainLookup.now := 0
|}.

Definition describing (text : string) : AiLookup.Request :=
  {| AiLookup.contentType := Some "application/json";
     AiLookup.json := AiLookup.BodyValue (AiLookup.VString text) |}.

(** A configured server whose generation call answers with [r]. *)
Definition generating (r : AiLookup.GenerateResult) : AiLookup.World := {|
  AiLookup.GEMINI_API_KEY := Some "key";
  AiLookup.clientThrows := fun _ => false;
  AiLookup.generateContent := fun _ _ => r;
  AiLookup.now := 0
|}.

End Samples.

(** ** Regular expressions ([RegExp.prototype.test]) *)

Module JsRegExp.
Import Js.

(** The patterns the program uses: character classes, sequence,
    alternative and repetition; every pattern of the program is anchored
    at both ends, so [test] asks for a match of the whole string. *)
Inductive regex : Type :=
| Void
| Eps
| Chars (p : ascii -> bool)
| Cat (r1 r2 : regex)
| Alt (r1 r2 : regex)
| Star (r : regex).

(** [r{2,}]. *)
Definition atLeastTwo (r : regex) : regex := Cat r (Cat r (Star r)).

(** [r+]. *)
Definition plus (r : regex) : regex := Cat r (Star r).

Fixpoint nullable (r : regex) : bool :=
  match r with
  | Void => false
  | Eps => true
  | Chars _ => false
  | Cat r1 r2 => nullable r1 && nullable r2
  | Alt r1 r2 => nullable r1 || nullable r2
  | Star _ => true
  end.

(** What is left of [r] after reading [c]. *)
Fixpoint deriv (c : ascii) (r : regex) : regex :=
  match r with
  | Void => Void
  | Eps => Void
  | Chars p => if p c then Eps else Void
  | Cat r1 r2 =>
      if nullable r1 then Alt (Cat (deriv c r1) r2) (deriv c r2)
      else Cat (deriv c r1) r2
  | Alt r1 r2 => Alt (deriv c r1) (deriv c r2)
  | Star r1 => Cat (deriv c r1) (Star r1)
  end.

Fixpoint test (r : regex) (s : string) : bool :=
  match s with
  | EmptyString => nullable r
  | String c s' => test (deriv c r) s'
  end.

(** The strings a pattern matches. *)
Inductive matches : regex -> string -> Prop :=
| MEps : matches Eps EmptyString
| MChars p c : p c = true -> matches (Chars p) (String c EmptyString)
| MCat r1 r2 s1 s2 : matches r1 s1 -> matches r2 s2 -> matches (Cat r1 r2) (s1 ++ s2)
| MAltL r1 r2 s : matches r1 s -> matches (Alt r1 r2) s
| MAltR r1 r2 s : matches r2 s -> matches (Alt r1 r2) s
| MStarNil r : matches (Star r) EmptyString
| MStarCons r s1 s2 :
    matches r s1 -> matches (Star r) s2 -> matches (Star r) (s1 ++ s2).

End JsRegExp.

(** ** [src/app/page.tsx]: the validators of the form and the requests it
    sends *)

Module Page.
Import Js JsRegExp.

Definition MAX_DOMAIN_LENGTH : nat := 253.
Definition MAX_AI_DESCRIPTION_LENGTH : nat := 1000.
Definition REQUEST_TIMEOUT : Z := 30000.

Record Validation : Type := {
  isValid : bool;
  error : string
}.

Definition isAlpha (c : ascii) : bool := inRange 97 122 c || inRange 65 90 c.

Definition isAlnum (c : ascii) : bool := isAlpha c || inRange 48 57 c.

Definition isAlnumDash (c : ascii) : bool := isAlnum c || (code c =? 45)%N.

Definition isDot (c : ascii) : bool := (code c =? 46)%N.

(** [/^[a-zA-Z0-9][a-zA-Z0-9-]*[a-zA-Z0-9]*\.([a-zA-Z]{2,}|[a-zA-Z]{2,}\.[a-zA-Z]{2,})$/]. *)
Definition domainRegex : regex :=
  Cat (Chars isAlnum)
    (Cat (Star (Chars isAlnumDash))
       (Cat (Star (Chars isAlnum))
          (Cat (Chars isDot)
             (Alt (atLeastTwo (Chars isAlpha))
                  (Cat (atLeastTwo (Chars isAlpha))
                     (Cat (Chars isDot) (atLeastTwo (Chars isAlpha)))))))).

Definition validateDomain (domainName : string) : Validation :=
  let trimmedDomain := trim domainName in
  if isEmpty trimmedDomain then
    {| isValid := false; error := "Please enter a domain name" |}
  else if (MAX_DOMAIN_LENGTH <? length trimmedDomain)%nat then
    {| isValid := false;
       error := "Domain name is too long (maximum 253 characters)" |}
  else if negb (test domainRegex trimmedDomain) then
    {| isValid := false;
       error := "Please enter a valid domain name (e.g., example.com)" |}
  else {| isValid := true; error := EmptyString |}.

Definition validateAiDescription (description : string) : Validation :=
  let trimmedDescription := trim description in
  if isEmpty trimmedDescription then
    {| isValid := false; error := "Please enter a domain description" |}
  else if (MAX_AI_DESCRIPTION_LENGTH <? length trimmedDescription)%nat then
    {| isValid := false;
       error := "Description is too long (maximum 1000 characters)" |}
  else {| isValid := true; error := EmptyString |}.

Inductive InfoType : Type := domainType | contactType.

Definition infoTypeString (t : InfoType) : string :=
  match t with
  | domainType => "domain"
  | contactType => "contact"
  end.

(** The request [handleSubmit] sends, if any: the query string carries
    the trimmed domain and the type, and the handler reads them back with
    [searchParams.get]. *)
Definition lookupRequest (domain : string) (infoType : InfoType)
  : option DomainLookup.Request :=
  if negb (isValid (validateDomain domain)) then None
  else Some {| DomainLookup.domain := Some (trim domain);
               DomainLookup.type := Some (infoTypeString infoType) |}.

(** The request [handleAiLookup] sends, if any: a JSON body with the
    trimmed description. *)
Definition suggestionRequest (aiDescription : string) : option AiLookup.Request :=
  if negb (isValid (validateAiDescription aiDescription)) then None
  else Some {| AiLookup.contentType := Some "application/json";
               AiLookup.json := AiLookup.BodyValue
                                  (AiLookup.VString (trim aiDescription)) |}.

End Page.

(** ** What a handler lets through to its upstream service *)

Module Upstream.
Import Js DomainLookup.

(** A domain name the WHOIS handler sends upstream. *)
Definition cleanShape (c : string) : bool :=
  negb (isEmpty c) && (length c <=? 253)%nat && all isDomainChar c &&
  includes "." c && negb (startsWith "." c) && negb (endsWith "." c).

(** A request body the WHOIS handler sends upstream. *)
Definition wellFormedBody (key : string) (b : RequestBody) : bool :=
  cleanShape (rb_domainName b) && (rb_apiKey b =? key)%string &&
  (rb_outputFormat b =? "JSON")%string.

(** A user text the suggestion handler puts into its prompt. *)
Definition promptText (t : string) : bool :=
  negb (isEmpty t) && (trim t =? t)%string && (length t <=? 1000)%nat.

(** The request passes every check the suggestion handler makes before
    the generation call, with description [d]. *)
Definition ready (w : AiLookup.World) (request : AiLookup.Request) (d : string) : Prop :=
  (exists ct, AiLookup.contentType request = Some ct /\
              includes "application/json" ct = true) /\
  AiLookup.json request = AiLookup.BodyValue (AiLookup.VString d) /\
  AiLookup.checkDescription (AiLookup.VString d) = Next.Continue d /\
  truthy (AiLookup.GEMINI_API_KEY w) = true /\
  AiLookup.clientThrows w (orElse (AiLookup.GEMINI_API_KEY w) EmptyString) = false.

(** The prompt built from a description. *)
Definition fullPrompt (d : string) : string :=
  Utils.getSystemPrompt ++ ". User Prompt: " ++ trim d.

End Upstream.

(** ** Facts about the runtime model *)

Module JsFacts.
Import Js.

Lemma isEmpty_true (s : string) : isEmpty s = true <-> s = EmptyString.
Proof. destruct s; simpl; split; congruence. Qed.

Lemma isEmpty_false (s : string) : isEmpty s = false <-> s <> EmptyString.
Proof. destruct s; simpl; split; congruence. Qed.

Lemma length_zero (s : string) : (length s =? 0)%nat = isEmpty s.
Proof. destruct s; reflexivity. Qed.

Lemma length_pos (s : string) : (0 <? length s)%nat = negb (isEmpty s).
Proof. destruct s; reflexivity. Qed.

Lemma length_append (a b : string) : length (a ++ b) = length a + length b.
Proof. induction a as [|c a IH]; simpl; [reflexivity | now rewrite IH]. Qed.

Lemma length_substring0 (n : nat) (s : string) :
  n <= length s -> length (substring 0 n s) = n.
Proof.
  revert s; induction n as [|n IH]; intros s H.
  - destruct s; reflexivity.
  - destruct s as [|c s]; simpl in *; [lia |].
    rewrite IH; [reflexivity | lia].
Qed.

Lemma splitHead_append (sep : ascii) (a b : string) :
  all (fun c => negb (Ascii.eqb c sep)) a = true ->
  splitHead sep (a ++ String sep b) = a.
Proof.
  induction a as [|c a IH]; simpl; intros H.
  - now rewrite Ascii.eqb_refl.
  - apply andb_prop in H as [Hc Ha].
    apply negb_true_iff in Hc. rewrite Hc, IH; auto.
Qed.

Lemma all_append (p : ascii -> bool) (a b : string) :
  all p (a ++ b) = all p a && all p b.
Proof.
  induction a as [|c a IH]; simpl; [reflexivity |].
  now rewrite IH, andb_assoc.
Qed.

Lemma all_impl (p q : ascii -> bool) (s : string) :
  (forall c, p c = true -> q c = true) -> all p s = true -> all q s = true.
Proof.
  intros Hpq; induction s as [|c s IH]; simpl; [reflexivity |].
  intros H. apply andb_prop in H as [Hc Hs].
  now rewrite (Hpq _ Hc), IH.
Qed.

Lemma append_nonempty_l (a b : string) : a <> EmptyString -> a ++ b <> EmptyString.
Proof. destruct a; simpl; congruence. Qed.

Lemma orElse_nonempty (a : option string) (b : string) :
  b <> EmptyString -> orElse a b <> EmptyString.
Proof.
  intros Hb. destruct a as [s|]; simpl; [|exact Hb].
  destruct s; simpl; [exact Hb | congruence].
Qed.

End JsFacts.

(** ** Facts about dates *)

Module JsDateFacts.
Import Js JsDate JsFacts.

Lemma digit_cases (n : Z) :
  In (digit n) ["0"; "1"; "2"; "3"; "4"; "5"; "6"; "7"; "8"; "9"]%char.
Proof.
  unfold digit.
  pose proof (Z.mod_pos_bound n 10 ltac:(lia)) as H.
  assert (Hk : (n mod 10 = 0 \/ n mod 10 = 1 \/ n mod 10 = 2 \/ n mod 10 = 3 \/
                n mod 10 = 4 \/ n mod 10 = 5 \/ n mod 10 = 6 \/ n mod 10 = 7 \/
                n mod 10 = 8 \/ n mod 10 = 9)%Z) by lia.
  repeat destruct Hk as [Hk | Hk]; rewrite Hk; simpl; tauto.
Qed.

Lemma isDigit_digit (n : Z) : isDigit (digit n) = true.
Proof.
  pose proof (digit_cases n) as H. simpl in H.
  repeat destruct H as [H | H]; try (rewrite <- H; reflexivity).
  contradiction.
Qed.

Lemma pad_digits (w : nat) (n : Z) : all isDigit (pad w n) = true.
Proof.
  revert n; induction w as [|w IH]; intros n; simpl; [reflexivity |].
  rewrite all_append, IH. simpl. now rewrite isDigit_digit.
Qed.


Lemma isDigit_dateChar (c : ascii) : isDigit c = true -> isDateChar c = true.
Proof. unfold isDateChar. now intros ->. Qed.

Lemma dateChar_not_T (c : ascii) :
  isDateChar c = true -> negb (Ascii.eqb c "T") = true.
Proof.
  intros H. destruct (Ascii.eqb_spec c "T") as [-> | _]; [discriminate H | reflexivity].
Qed.

Lemma yearString_chars (y : Z) : all isDateChar (yearString y) = true.
Proof.
  unfold yearString.
  destruct (_ && _).
  - apply (all_impl isDigit); [apply isDigit_dateChar | apply pad_digits].
  - rewrite all_append.
    rewrite (all_impl isDigit isDateChar (pad 6 _) isDigit_dateChar (pad_digits _ _)).
    now destruct (y <? 0)%Z.
Qed.

Lemma dateString_chars (t : Z) : all isDateChar (dateString t) = true.
Proof.
  unfold dateString. destruct (civilFromDays _) as [[y m] d].
  rewrite !all_append, yearString_chars.
  rewrite !(all_impl isDigit isDateChar (pad 2 _) isDigit_dateChar (pad_digits _ _)).
  reflexivity.
Qed.

Lemma dateString_nonempty (t : Z) : dateString t <> EmptyString.
Proof.
  intros H. apply (f_equal length) in H. revert H.
  unfold dateString. destruct (civilFromDays _) as [[y m] d].
  rewrite !length_append. simpl. lia.
Qed.

(** The date part of the ISO string is what precedes its [T]. *)
Lemma toISOString_datePart (t : Z) :
  exists rest, toISOString (Some t) = Normal (dateString t ++ String "T" rest) /\
               splitHead "T" (dateString t ++ String "T" rest) = dateString t.
Proof.
  eexists. split; [reflexivity |].
  apply splitHead_append.
  apply (all_impl isDateChar); [apply dateChar_not_T | apply dateString_chars].
Qed.

Lemma timeClip_some (t t' : Z) : timeClip t = Some t' -> t' = t.
Proof. unfold timeClip. destruct (_ <=? _)%Z; congruence. Qed.



End JsDateFacts.

(** ** The field helpers *)

Module UtilsFacts.
Import Js JsDate Types JsFacts JsDateFacts Reference.

(** *** formatDate *)

Lemma parse_iso (engineParse : string -> option Z) (s : string) (t : Z) :
  isoParse s = Some t -> parse engineParse s = Some t.
Proof. unfold parse. now intros ->. Qed.

Lemma formatDate_valid (engineParse : string -> option Z) (s : string) (t : Z) :
  s <> EmptyString -> newDate engineParse s = Some t ->
  Utils.formatDate engineParse (Some s) = dateString t.
Proof.
  intros Hs Hd. unfold Utils.formatDate. simpl truthy.
  apply isEmpty_false in Hs. rewrite Hs. simpl negb. cbv iota.
  rewrite Hd.
  destruct (toISOString_datePart t) as [rest [-> Hsplit]].
  exact Hsplit.
Qed.

Lemma formatDate_invalid (engineParse : string -> option Z) (s : string) :
  newDate engineParse s = None ->
  Utils.formatDate engineParse (Some s) = "N/A".
Proof.
  intros Hd. unfold Utils.formatDate. rewrite Hd.
  now destruct (negb _).
Qed.

Lemma formatDate_nonempty (engineParse : string -> option Z) (d : option string) :
  Utils.formatDate engineParse d <> EmptyString.
Proof.
  destruct d as [s|]; [| discriminate].
  destruct (newDate engineParse s) as [t|] eqn:Hd.
  - destruct s as [|c s]; [discriminate |].
    rewrite (formatDate_valid _ _ t); [apply dateString_nonempty | discriminate | exact Hd].
  - now rewrite formatDate_invalid.
Qed.




(** *** formatHostnames *)

Lemma filter_all {A : Type} (p : A -> bool) (l : list A) :
  forallb p l = true -> filter p l = l.
Proof.
  induction l as [|a l IH]; simpl; [reflexivity |].
  intros H. apply andb_prop in H as [Ha Hl]. now rewrite Ha, IH.
Qed.

(** The documented variant is the reference definition. *)
Lemma documented_formatHostnames_reference (list : option (list string)) :
  UtilsDocumented.formatHostnames list = formatHostnames_reference list.
Proof.
  destruct list as [l|]; [| reflexivity].
  unfold UtilsDocumented.formatHostnames, formatHostnames_reference.
  assert (E : filter (fun hostname => (0 <? length (trim hostname))%nat) l =
              filter (fun h => negb (isBlank h)) l).
  { apply filter_ext. intros h. unfold isBlank. apply length_pos. }
  rewrite E.
  destruct l as [|h l]; [reflexivity |].
  change (List.length (h :: l) =? 0)%nat with false. cbv iota.
  generalize (filter (fun h0 => negb (isBlank h0)) (h :: l)).
  intros [|k kept]; reflexivity.
Qed.

(** [utils.ts] agrees with the reference definition on the lists without
    a blank entry. *)
Lemma formatHostnames_reference_no_blank (l : list string) :
  forallb (fun h => negb (isBlank h)) l = true ->
  Utils.formatHostnames (Some l) = formatHostnames_reference (Some l).
Proof.
  intros H. unfold Utils.formatHostnames, formatHostnames_reference.
  rewrite (filter_all _ _ H).
  destruct l; reflexivity.
Qed.

(** When the truncation applies the result has 25 characters and ends
    with the ellipsis. *)
Lemma truncation_length (joined : string) :
  25 < length joined ->
  length (substring 0 22 joined ++ "...") = 25 /\
  endsWith "..." (substring 0 22 joined ++ "...") = true.
Proof.
  intros H.
  assert (L : length (substring 0 22 joined) = 22) by (apply length_substring0; lia).
  split.
  - rewrite length_append, L. reflexivity.
  - remember (substring 0 22 joined) as p eqn:Ep. clear Ep H.
    do 22 (destruct p as [|? p]; [discriminate L |]).
    destruct p; [| discriminate L].
    reflexivity.
Qed.

(** C1: at a list with an empty entry [formatHostnames] of [utils.ts]
    keeps the entry, where the reference definition drops it; the
    documented variant of the function is the reference definition on
    every input. *)
Theorem formatHostnames_keeps_blank_entries :
  Utils.formatHostnames (Some [EmptyString]) = EmptyString /\
  formatHostnames_reference (Some [EmptyString]) = "N/A" /\
  Utils.formatHostnames (Some ["ns1.example.com"; " "]) = "ns1.example.com,  " /\
  formatHostnames_reference (Some ["ns1.example.com"; " "]) = "ns1.example.com" /\
  (forall list : option (list string),
     UtilsDocumented.formatHostnames list = formatHostnames_reference list).
Proof.
  repeat match goal with |- _ /\ _ => split end; try reflexivity.
  apply documented_formatHostnames_reference.
Qed.

(** *** Contact names *)

Lemma resolvers_agree (contact : option Contact) :
  Utils.getTechnicalContactName contact = Utils.getRegistrantName contact /\
  Utils.getAdministrativeContactName contact = Utils.getRegistrantName contact.
Proof. split; reflexivity. Qed.

Lemma documented_resolvers_agree (contact : option Contact) :
  UtilsDocumented.getTechnicalContactName contact =
    UtilsDocumented.getRegistrantName contact /\
  UtilsDocumented.getAdministrativeContactName contact =
    UtilsDocumented.getRegistrantName contact.
Proof. split; reflexivity. Qed.

(** [utils.ts] follows the reference rule whenever neither field is a
    non-empty run of white space. *)
Lemma getRegistrantName_reference (c : Contact) :
  emptyOrVisible (organization c) = true ->
  emptyOrVisible (name c) = true ->
  Utils.getRegistrantName (Some c) = resolveContactName (Some c).
Proof.
  unfold Utils.getRegistrantName, resolveContactName, nonBlank, emptyOrVisible.
  destruct (organization c) as [[|a o]|], (name c) as [[|b n]|];
    cbn -[isBlank]; intros Ho Hn;
    apply negb_true_iff in Ho || clear Ho;
    apply negb_true_iff in Hn || clear Hn;
    rewrite ?Ho, ?Hn; reflexivity.
Qed.

(** C9: at a contact whose organization is white space only the
    resolvers of [utils.ts] return that white space, where the rule (and
    the documented variant) moves on to the name; the three resolvers
    agree with one another on every contact. *)
Theorem blank_organization_returned :
  Utils.getRegistrantName (Some Samples.blankOrganization) = "   " /\
  Utils.getTechnicalContactName (Some Samples.blankOrganization) = "   " /\
  Utils.getAdministrativeContactName (Some Samples.blankOrganization) = "   " /\
  resolveContactName (Some Samples.blankOrganization) = "Y" /\
  UtilsDocumented.getRegistrantName (Some Samples.blankOrganization) = "Y" /\
  (forall contact,
     Utils.getTechnicalContactName contact = Utils.getRegistrantName contact /\
     Utils.getAdministrativeContactName contact = Utils.getRegistrantName contact).
Proof.
  repeat match goal with |- _ /\ _ => split end; try reflexivity.
  intros contact. apply resolvers_agree.
Qed.

End UtilsFacts.

(** ** The domain-lookup handler *)

Module DomainLookupFacts.
Import Js JsDate Types Next DomainLookup JsFacts JsDateFacts UtilsFacts Reference.
Local Open Scope Z_scope.

Lemma checkDomainParam_cases (dom : option string) :
  (exists msg, checkDomainParam dom = Return (jsonError msg 400)) \/
  (exists d, dom = Some d /\ checkDomainParam dom = Continue d).
Proof.
  destruct dom as [d|]; [| left; eexists; reflexivity].
  unfold checkDomainParam, returnIf, bind.
  destruct (isEmpty d); [left; eexists; reflexivity |].
  destruct (length (trim d) =? 0)%nat; [left; eexists; reflexivity |].
  destruct (253 <? length d)%nat; [left; eexists; reflexivity |].
  right. now exists d.
Qed.

Lemma checkTypeParam_cases (ty : option string) :
  (exists msg, checkTypeParam ty = Return (jsonError msg 400)) \/
  (checkTypeParam ty = Continue "domain" /\ ty = Some "domain") \/
  (checkTypeParam ty = Continue "contact" /\ ty = Some "contact").
Proof.
  destruct ty as [t|]; [| left; eexists; reflexivity].
  unfold checkTypeParam, returnIf, bind.
  destruct (isEmpty t); [left; eexists; reflexivity |].
  destruct (String.eqb_spec t "domain") as [-> | _]; [right; left; now split |].
  destruct (String.eqb_spec t "contact") as [-> | _]; [right; right; now split |].
  left; eexists; reflexivity.
Qed.

Lemma cleanDomainStep_cases (d : string) :
  cleanDomainStep d = Return (jsonError "Invalid domain format" 400) \/
  (cleanDomainStep d = Continue (cleanDomainOf d) /\
   cleanAndCheck d = Normal (cleanDomainOf d)).
Proof.
  unfold cleanDomainStep, cleanAndCheck.
  destruct (_ || _); [now left |].
  destruct (_ || _); [now left |].
  destruct (negb _); [now left | now right].
Qed.

(** What an accepted domain looks like. *)
Lemma cleanAndCheck_normal (d c : string) :
  cleanAndCheck d = Normal c ->
  c = cleanDomainOf d /\ c <> EmptyString /\
  includes "." c = true /\ startsWith "." c = false /\ endsWith "." c = false /\
  all isDomainChar c = true.
Proof.
  unfold cleanAndCheck.
  destruct (isEmpty (cleanDomainOf d)) eqn:He; [discriminate |].
  rewrite length_zero, He. simpl orb.
  destruct (includes "." (cleanDomainOf d)) eqn:Hi; [| discriminate].
  destruct (startsWith "." (cleanDomainOf d)) eqn:Hs; [discriminate |].
  destruct (endsWith "." (cleanDomainOf d)) eqn:Hf; [discriminate |].
  simpl. unfold domainRegex. rewrite He. simpl.
  destruct (all isDomainChar (cleanDomainOf d)) eqn:Ha; [| discriminate].
  intros [= <-]. split; [reflexivity |]. split; [now apply isEmpty_false |].
  now rewrite Hi, Hs, Hf, Ha.
Qed.

Lemma validateDomain_continue (dom : option string) (c : string) :
  validateDomain dom = Continue c ->
  exists d, dom = Some d /\ checkDomainParam dom = Continue d /\
            cleanDomainStep d = Continue c /\ cleanAndCheck d = Normal c.
Proof.
  unfold validateDomain, bind.
  destruct (checkDomainParam_cases dom) as [[msg ->] | [d [-> Hd]]]; [discriminate |].
  rewrite Hd. intros Hc. exists d. repeat split; try assumption.
  destruct (cleanDomainStep_cases d) as [E | [E1 E2]]; congruence.
Qed.

(** On success the clean domain is the input with a leading lower-case
    scheme removed, cut at the first slash, lower-cased and trimmed. *)
Lemma validateDomain_success (d c : string) :
  validateDomain (Some d) = Continue c ->
  c = trim (toLowerCase (splitHead "/" (stripScheme d))) /\
  c <> EmptyString /\ all isDomainChar c = true.
Proof.
  intros H. apply validateDomain_continue in H as [d' [[= <-] [_ [_ H]]]].
  apply cleanAndCheck_normal in H. tauto.
Qed.

(** After the checks the handler is its upstream call and what follows. *)
Lemma GET_accepted (utils : Helpers) (w : World) (request : Request)
    (cleanDomain t : string) :
  accepted w request cleanDomain t ->
  GET utils w request =
  match fetch w WHOIS_BASE_URL (requestBody w cleanDomain) with
  | FetchRejects e => Return (fetchFailure e)
  | FetchResolves r =>
      if negb (ok r) then Return (httpFailure r)
      else
        match recordStep r with
        | Return resp => Return resp
        | Continue whoisRecord =>
            if (t =? "domain")%string then
              Return (jsonOk (DomainBody (domainInfo utils whoisRecord cleanDomain)
                                         (timestamp (now w))))
            else if (t =? "contact")%string then
              Return (jsonOk (ContactBody (contactInfo utils whoisRecord)
                                          (timestamp (now w))))
            else Continue tt
        end
  end.
Proof.
  intros [Hk [Hv Ht]].
  apply validateDomain_continue in Hv as [d [_ [Hd [Hc _]]]].
  unfold GET. rewrite Hk, Hd, Ht. simpl. rewrite Hc. simpl.
  fold (requestBody w cleanDomain).
  destruct (fetch w WHOIS_BASE_URL (requestBody w cleanDomain)) as [e | r];
    [reflexivity |].
  destruct (ok r); simpl; [| reflexivity].
  destruct (recordStep r); simpl; [reflexivity |].
  destruct (t =? "domain")%string; simpl; [reflexivity |].
  destruct (t =? "contact")%string; reflexivity.
Qed.

(** A request is rejected before the upstream call, or accepted. *)
Lemma GET_rejected_or_accepted (utils : Helpers) (w : World) (request : Request) :
  (exists msg st, GET utils w request = Return (jsonError msg st)) \/
  (exists cleanDomain t, accepted w request cleanDomain t /\
     (t = "domain" \/ t = "contact")%string).
Proof.
  destruct (truthy (WHOIS_API_KEY w)) eqn:Hk.
  2:{ left. unfold GET. rewrite Hk. simpl. eauto. }
  destruct (checkDomainParam_cases (domain request)) as [[msg Hd] | [d [Hdom Hd]]].
  { left. unfold GET. rewrite Hk, Hd. simpl. eauto. }
  destruct (checkTypeParam_cases (type request)) as [[msg Ht] | Ht].
  { left. unfold GET. rewrite Hk, Hd. simpl. rewrite Ht. simpl. eauto. }
  destruct (cleanDomainStep_cases d) as [Hc | [Hc _]].
  { left. unfold GET. rewrite Hk, Hd. simpl.
    destruct Ht as [[-> _] | [-> _]]; simpl; rewrite Hc; simpl; eauto. }
  right. exists (cleanDomainOf d).
  assert (Hv : validateDomain (domain request) = Continue (cleanDomainOf d)).
  { unfold validateDomain. rewrite Hd. simpl. exact Hc. }
  destruct Ht as [[Ht _] | [Ht _]]; eexists; (split; [split; [exact Hk | split; [exact Hv | exact Ht]] |]);
    tauto.
Qed.

(** The handler answers every request: the end of the function body is
    never reached. *)
Lemma GET_returns (utils : Helpers) (w : World) (request : Request) :
  exists r, GET utils w request = Return r.
Proof.
  destruct (GET_rejected_or_accepted utils w request)
    as [[msg [st E]] | [cleanDomain [t [Hacc Ht]]]]; [eauto |].
  rewrite (GET_accepted _ _ _ _ _ Hacc).
  destruct (fetch w _ _) as [e | r]; [eauto |].
  destruct (negb (ok r)); [eauto |].
  destruct (recordStep r); [eauto |].
  destruct Ht as [-> | ->]; simpl; eauto.
Qed.

(** *** Validation of the domain *)

(** C2, counterexample: [Example.COM] has characters outside the class
    and is accepted. *)
Lemma uppercase_domain_accepted :
  all isDomainChar "Example.COM" = false /\
  validateDomain (Some "Example.COM") = Continue "example.com".
Proof. split; reflexivity. Qed.

(** C2, amended: an input whose cleaned form (scheme removed, cut at the
    first slash, lower-cased, trimmed) has a character outside
    [a-z0-9.-] fails validation with status 400, in [validateDomain] and
    in the handler of a configured server. *)
Theorem invalid_clean_character_rejected
    (utils : Helpers) (w : World) (request : Request) (d : string)
    (Hbad : all isDomainChar (cleanDomainOf d) = false) :
  (exists msg, validateDomain (Some d) = Return (jsonError msg (categoryStatus validation))) /\
  (truthy (WHOIS_API_KEY w) = true -> domain request = Some d ->
   exists msg, GET utils w request = Return (jsonError msg (categoryStatus validation))).
Proof.
  assert (Hc : cleanDomainStep d = Return (jsonError "Invalid domain format" 400)).
  { destruct (cleanDomainStep_cases d) as [E | [_ E]]; [exact E |].
    apply cleanAndCheck_normal in E. destruct E as [_ [_ [_ [_ [_ E]]]]]. congruence. }
  split.
  - unfold validateDomain.
    destruct (checkDomainParam_cases (Some d)) as [[msg ->] | [d' [[= <-] ->]]]; simpl.
    + now exists msg.
    + rewrite Hc. eauto.
  - intros Hk Hdom. unfold GET. rewrite Hk, Hdom. cbn [negb returnIf bind].
    destruct (checkDomainParam_cases (Some d)) as [[msg ->] | [d' [[= <-] ->]]]; simpl.
    + now exists msg.
    + destruct (checkTypeParam_cases (type request)) as [[msg ->] | [[-> _] | [-> _]]];
        simpl; try rewrite Hc; simpl; eauto.
Qed.

Lemma invalid_clean_character_rejected_witness :
  all isDomainChar (cleanDomainOf "exa_mple.com") = false /\
  (exists msg, validateDomain (Some "exa_mple.com") = Return (jsonError msg 400)) /\
  (exists msg,
     GET (libUtils strictEngine) (Samples.answering (Samples.okWith JsonThrows))
         Samples.underscoreRequest = Return (jsonError msg 400)).
Proof.
  split; [reflexivity |].
  pose proof (invalid_clean_character_rejected
                (libUtils strictEngine) (Samples.answering (Samples.okWith JsonThrows))
                Samples.underscoreRequest "exa_mple.com" eq_refl) as [Hv Hg].
  split; [exact Hv | exact (Hg eq_refl eq_refl)].
Defined.

(** C3: the scheme of [HTTPS://Example.COM/path] is not removed, since
    the pattern is matched before the lower-casing; the cut at the first
    slash leaves [https:], which has no dot, and the input is rejected.
    With the scheme in lower case the same input cleans to
    [example.com]. *)
Theorem uppercase_scheme_rejected :
  stripScheme "HTTPS://Example.COM/path" = "HTTPS://Example.COM/path" /\
  cleanDomainOf "HTTPS://Example.COM/path" = "https:" /\
  validateDomain (Some "HTTPS://Example.COM/path") =
    Return (jsonError "Invalid domain format" 400) /\
  validateDomain (Some "https://Example.COM/path") = Continue "example.com".
Proof. repeat split. Qed.

(** *** The configuration check *)

(** C10: without the WHOIS key the handler answers every request with
    the configuration error, status 500, whatever the parameters. *)
Theorem missing_key_precedes_validation
    (utils : Helpers) (w : World) (request : Request)
    (Hkey : WHOIS_API_KEY w = None \/ WHOIS_API_KEY w = Some EmptyString) :
  GET utils w request =
  Return (jsonError "WHOIS service is not properly configured" (categoryStatus internal)).
Proof.
  unfold GET. destruct Hkey as [-> | ->]; reflexivity.
Qed.

Lemma missing_key_precedes_validation_witness :
  GET (libUtils strictEngine) Samples.unconfigured Samples.badRequest =
  Return (jsonError "WHOIS service is not properly configured" 500).
Proof.
  apply (missing_key_precedes_validation (libUtils strictEngine)
           Samples.unconfigured Samples.badRequest).
  left. reflexivity.
Defined.

(** *** Upstream failures *)

(** C6: for a non-2xx upstream answer the response is fixed by the
    upstream status (and, in the default case, the status text): 400 to
    validation, 401 and 403 to upstream-auth, 429 to upstream-rate-limited,
    500, 502 and 503 to upstream-unavailable, anything else to internal with
    the status text; the body plays no part, so two servers whose answers
    differ in the body only respond alike. *)
Theorem upstream_status_mapping
    (utils : Helpers) (w : World) (request : Request) (cleanDomain t : string)
    (r : HttpResponse)
    (Hacc : accepted w request cleanDomain t)
    (Hfetch : fetch w WHOIS_BASE_URL (requestBody w cleanDomain) = FetchResolves r)
    (Hnok : ok r = false) :
  let s := r_status r in
  let answer := GET utils w request in
  (s = 400 -> answer = Return (jsonError "Invalid domain name or request format"
                                 (categoryStatus validation))) /\
  (s = 401 -> answer = Return (jsonError "WHOIS API authentication failed"
                                 (categoryStatus upstream_auth))) /\
  (s = 403 -> answer = Return (jsonError "WHOIS API access forbidden"
                                 (categoryStatus upstream_auth))) /\
  (s = 429 -> answer =
     Return (jsonError "WHOIS API rate limit exceeded. Please try again later."
               (categoryStatus upstream_rate_limited))) /\
  (s = 500 \/ s = 502 \/ s = 503 ->
     answer = Return (jsonError "WHOIS service is temporarily unavailable"
                        (categoryStatus upstream_unavailable))) /\
  (s <> 400 -> s <> 401 -> s <> 403 -> s <> 429 -> s <> 500 -> s <> 502 -> s <> 503 ->
     answer = Return (jsonError ("WHOIS service error: " ++ r_statusText r)
                        (categoryStatus internal))) /\
  (forall (w' : World) (r' : HttpResponse),
     accepted w' request cleanDomain t ->
     fetch w' WHOIS_BASE_URL (requestBody w' cleanDomain) = FetchResolves r' ->
     r_status r' = r_status r -> r_statusText r' = r_statusText r ->
     GET utils w' request = answer).
Proof.
  intros s answer.
  assert (Ha : answer = Return (httpFailure r)).
  { unfold answer. rewrite (GET_accepted _ _ _ _ _ Hacc), Hfetch, Hnok. reflexivity. }
  rewrite Ha. unfold httpFailure. fold s.
  repeat match goal with |- _ /\ _ => split end.
  - now intros ->.
  - now intros ->.
  - now intros ->.
  - now intros ->.
  - now intros [-> | [-> | ->]].
  - intros H1 H2 H3 H4 H5 H6 H7.
    repeat match goal with
           | H : s <> ?n |- _ => apply Z.eqb_neq in H; rewrite H; clear H
           end.
    reflexivity.
  - intros w' r' Hacc' Hfetch' Hs Ht.
    assert (Hnok' : ok r' = false) by (unfold ok in *; now rewrite Hs).
    rewrite (GET_accepted _ _ _ _ _ Hacc'), Hfetch', Hnok'. simpl.
    unfold httpFailure. now rewrite Hs, Ht.
Qed.

Lemma upstream_status_mapping_witness :
  accepted (Samples.answering (Samples.tooManyRequests JsonThrows))
           Samples.domainRequest "example.com" "domain" /\
  GET (libUtils strictEngine)
      (Samples.answering (Samples.tooManyRequests JsonThrows)) Samples.domainRequest =
  Return (jsonError "WHOIS API rate limit exceeded. Please try again later." 429).
Proof.
  assert (Hacc : accepted (Samples.answering (Samples.tooManyRequests JsonThrows))
                          Samples.domainRequest "example.com" "domain")
    by (repeat split).
  split; [exact Hacc |].
  pose proof (upstream_status_mapping (libUtils strictEngine)
                (Samples.answering (Samples.tooManyRequests JsonThrows))
                Samples.domainRequest "example.com" "domain"
                (Samples.tooManyRequests JsonThrows) Hacc eq_refl eq_refl) as H.
  cbv zeta in H. destruct H as (_ & _ & _ & H & _).
  exact (H eq_refl).
Defined.

(** *** A body without a record *)




(** *** The domain projection *)

Lemma append_ellipsis_nonempty (s : string) : s ++ "..." <> EmptyString.
Proof. destruct s; discriminate. Qed.

Lemma join_nonempty (h : string) (l : list string) :
  h <> EmptyString -> join ", " (h :: l) <> EmptyString.
Proof.
  intros Hh. destruct l; simpl; [exact Hh |].
  now apply append_nonempty_l.
Qed.


Lemma trim_nonempty (s : string) : isEmpty (trim s) = false -> s <> EmptyString.
Proof. intros H ->. discriminate H. Qed.

(** The documented variant: the host names are never empty. *)
Lemma documented_formatHostnames_nonempty (list : option (list string)) :
  UtilsDocumented.formatHostnames list <> EmptyString.
Proof.
  rewrite documented_formatHostnames_reference.
  destruct list as [l|]; [| discriminate].
  unfold formatHostnames_reference.
  destruct (filter _ l) as [|h kept] eqn:E; [discriminate |].
  assert (Hh : h <> EmptyString).
  { assert (Hin : In h (filter (fun h => negb (isBlank h)) l)) by (rewrite E; now left).
    apply filter_In in Hin as [_ Hb].
    apply negb_true_iff in Hb. now apply trim_nonempty. }
  destruct (25 <? _)%nat.
  - apply append_ellipsis_nonempty.
  - now apply join_nonempty.
Qed.

(** A successful domain lookup, taken apart. *)
Lemma GET_domain_success (utils : Helpers) (w : World) (request : Request)
    (di : DomainInformation) (ts : string) :
  GET utils w request = Return (jsonOk (DomainBody di ts)) ->
  exists cleanDomain r whoisRecord ErrorMessage,
    accepted w request cleanDomain "domain" /\
    cleanDomain <> EmptyString /\
    fetch w WHOIS_BASE_URL (requestBody w cleanDomain) = FetchResolves r /\
    r_json r = JsonObject (Some whoisRecord) ErrorMessage /\
    di = domainInfo utils whoisRecord cleanDomain.
Proof.
  intros H.
  destruct (GET_rejected_or_accepted utils w request)
    as [[msg [st E]] | [cleanDomain [t [Hacc Ht]]]].
  { rewrite E in H. discriminate H. }
  rewrite (GET_accepted _ _ _ _ _ Hacc) in H.
  destruct (fetch w WHOIS_BASE_URL (requestBody w cleanDomain)) as [e | r] eqn:Hf.
  { unfold fetchFailure in H.
    destruct (match fe_name e with Some _ => _ | None => _ end); [discriminate H |].
    destruct (match fe_code e with Some _ => _ | None => _ end); discriminate H. }
  destruct (ok r).
  2:{ simpl in H. unfold httpFailure in H.
      repeat match type of H with
             | context [if ?b then _ else _] => destruct b
             end; discriminate H. }
  simpl in H. unfold recordStep in H.
  destruct (r_json r) as [| | [whoisRecord|] em] eqn:Hj; try discriminate H.
  2:{ destruct (truthy em); discriminate H. }
  assert (Hclean : cleanDomain <> EmptyString).
  { destruct Hacc as [_ [Hv _]].
    apply validateDomain_continue in Hv as [d [_ [_ [_ Hc]]]].
    apply cleanAndCheck_normal in Hc. tauto. }
  destruct Ht as [-> | ->]; simpl in H; [| discriminate H].
  injection H as <- _.
  exists cleanDomain, r, whoisRecord, em. repeat split; try assumption; apply Hacc.
Qed.

End DomainLookupFacts.

(** ** The suggestion handler *)

Module AiLookupFacts.
Import Js JsDate Types Next AiLookup JsFacts Reference.
Local Open Scope Z_scope.

Lemma checkDescription_cases (description : JsValue) :
  (exists msg, checkDescription description = Return (jsonError msg 400)) \/
  (exists d, description = VString d /\ checkDescription description = Continue d).
Proof.
  unfold checkDescription, returnIf, bind.
  destruct (truthyValue description); simpl; [| left; eexists; reflexivity].
  destruct description as [| | b | n | d |]; try (left; eexists; reflexivity).
  destruct (length (trim d) =? 0)%nat; [left; eexists; reflexivity |].
  destruct (1000 <? length d)%nat; [left; eexists; reflexivity |].
  right. now exists d.
Qed.

(** What the validation of the provider response answers. *)
Lemma responseStep_cases (now : Z) (response : option TextResult) :
  match response with
  | Some (TextValue (VString s)) =>
      if isBlank s then
        exists msg, responseStep now response =
                    Return (jsonError msg (categoryStatus malformed_response))
      else responseStep now response =
           Return (jsonOk (AiBody (trim s) (timestamp now)))
  | _ => exists msg, responseStep now response =
                     Return (jsonError msg (categoryStatus malformed_response))
  end.
Proof.
  destruct response as [[| v]|]; try (eexists; reflexivity).
  destruct v as [| | b | n | s |]; try (eexists; reflexivity).
  - unfold responseStep, returnIf, bind. simpl. destruct b; eexists; reflexivity.
  - unfold responseStep, returnIf, bind. simpl. destruct (n =? 0); eexists; reflexivity.
  - unfold responseStep, returnIf, bind, isBlank.
    destruct s as [|c s]; [simpl; eexists; reflexivity |].
    simpl truthyValue. simpl negb. cbv iota.
    rewrite length_zero.
    destruct (isEmpty (trim (String c s))); [eexists |]; reflexivity.
Qed.

Lemma responseStep_success (now : Z) (response : option TextResult) (r : NextResponse) :
  responseStep now response = Return r -> status r = 200 ->
  exists s, response = Some (TextValue (VString s)) /\
            body r = AiBody (trim s) (timestamp now) /\ trim s <> EmptyString.
Proof.
  intros H Hst.
  pose proof (responseStep_cases now response) as Hc.
  destruct response as [[| v]|];
    try (destruct Hc as [msg Hc]; rewrite Hc in H; injection H as <-; discriminate Hst).
  destruct v as [| | b | n | s |];
    try (destruct Hc as [msg Hc]; rewrite Hc in H; injection H as <-; discriminate Hst).
  unfold isBlank in Hc. destruct (isEmpty (trim s)) eqn:He.
  - destruct Hc as [msg Hc]; rewrite Hc in H; injection H as <-; discriminate Hst.
  - rewrite Hc in H. injection H as <-. exists s. repeat split.
    now apply isEmpty_false.
Qed.

(** The handler answers with a response in every case. *)
Lemma POST_returns (w : World) (request : Request) :
  exists r, POST w request = Return r.
Proof.
  unfold POST, returnIf, bind.
  destruct (negb _); [eexists; reflexivity |].
  destruct (json request) as [| | description]; try (eexists; reflexivity).
  destruct (checkDescription_cases description) as [[msg ->] | [d [_ ->]]];
    [eexists; reflexivity |].
  destruct (negb _); [eexists; reflexivity |].
  destruct (clientThrows w _); [eexists; reflexivity |].
  destruct (generateContent w _ _) as [st | response]; [eexists; reflexivity |].
  pose proof (responseStep_cases (now w) response) as Hc.
  destruct response as [[| [| | | | s |]]|]; try (destruct Hc as [msg ->]; eauto).
  destruct (isBlank s); [destruct Hc as [msg ->] | rewrite Hc]; eauto.
Qed.

(** A success of the handler comes from the validation of a provider
    response. *)
Lemma POST_success (w : World) (request : Request) (r : NextResponse) :
  POST w request = Return r -> status r = 200 ->
  exists response, responseStep (now w) response = Return r.
Proof.
  unfold POST, returnIf, bind. intros H Hst.
  destruct (negb _); [injection H as <-; discriminate Hst |].
  destruct (json request) as [| | description];
    try (injection H as <-; discriminate Hst).
  destruct (checkDescription_cases description) as [[msg E] | [d [_ E]]];
    rewrite E in H; [injection H as <-; discriminate Hst |].
  destruct (negb _); [injection H as <-; discriminate Hst |].
  destruct (clientThrows w _); [injection H as <-; discriminate Hst |].
  destruct (generateContent w _ _) as [st | response].
  - injection H as <-. unfold generateFailure in Hst.
    repeat match type of Hst with
           | context [if ?b then _ else _] => destruct b
           end; discriminate Hst.
  - now exists response.
Qed.

(** C7: when the generation call resolves, a missing response, a text
    that throws, is absent, is not a string, or trims to the empty string
    gives malformed-response (status 500), and any other text gives
    status 200 with exactly the trimmed text as one string; and in no
    case at all does the handler answer 200 with an empty text. *)
Theorem suggestion_text_validated (w : World) (request : Request) :
  (forall response, generated w request response ->
     match response with
     | Some (TextValue (VString s)) =>
         if isBlank s then
           exists msg, POST w request =
                       Return (jsonError msg (categoryStatus malformed_response))
         else POST w request = Return (jsonOk (AiBody (trim s) (timestamp (now w))))
     | _ => exists msg, POST w request =
                        Return (jsonError msg (categoryStatus malformed_response))
     end) /\
  (forall r, POST w request = Return r -> status r = 200 ->
     exists s, body r = AiBody (trim s) (timestamp (now w)) /\
               trim s <> EmptyString) /\
  (exists r, POST w request = Return r).
Proof.
  split; [| split].
  - intros response (ct & d & Hct & Hinc & Hj & Hd & Hk & Hcl & Hg).
    assert (E : POST w request = responseStep (now w) response).
    { unfold POST. rewrite Hct, Hinc, Hj. cbn [negb returnIf bind].
      rewrite Hd. cbn [bind]. rewrite Hk. cbn [negb returnIf bind].
      rewrite Hcl. cbn [returnIf bind]. now rewrite Hg. }
    rewrite E. apply responseStep_cases.
  - intros r H Hst.
    destruct (POST_success w request r H Hst) as [response Hr].
    destruct (responseStep_success _ _ _ Hr Hst) as [s [_ [Hb Hne]]].
    now exists s.
  - apply POST_returns.
Qed.

Lemma suggestion_text_validated_witness :
  POST (Samples.generating (GenerateResolves (Some (TextValue (VString "  a.com  ")))))
       (Samples.describing "shop") =
  Return (jsonOk (AiBody "a.com" "1970-01-01T00:00:00.000Z")).
Proof.
  assert (Hg : generated
                 (Samples.generating
                    (GenerateResolves (Some (TextValue (VString "  a.com  ")))))
                 (Samples.describing "shop")
                 (Some (TextValue (VString "  a.com  ")))).
  { exists "application/json", "shop". repeat split. }
  exact (proj1 (suggestion_text_validated
                  (Samples.generating
                     (GenerateResolves (Some (TextValue (VString "  a.com  ")))))
                  (Samples.describing "shop")) _ Hg).
Defined.

End AiLookupFacts.

(** ** More facts about strings *)

Module JsStringFacts.
Import Js JsFacts.

Lemma trimStart_length (s : string) : length (trimStart s) <= length s.
Proof.
  induction s as [|c s IH]; simpl; [lia |].
  destruct (isWhiteSpace c); simpl; lia.
Qed.

Lemma trimEnd_length (s : string) : length (trimEnd s) <= length s.
Proof.
  induction s as [|c s IH]; simpl; [lia |].
  destruct (trimEnd s); [destruct (isWhiteSpace c) |]; simpl in *; lia.
Qed.

Lemma trim_length (s : string) : length (trim s) <= length s.
Proof.
  unfold trim. pose proof (trimEnd_length (trimStart s)).
  pose proof (trimStart_length s). lia.
Qed.

Lemma toLowerCase_length (s : string) : length (toLowerCase s) = length s.
Proof. induction s as [|c s IH]; simpl; [reflexivity | now rewrite IH]. Qed.

Lemma splitHead_length (sep : ascii) (s : string) :
  length (splitHead sep s) <= length s.
Proof.
  induction s as [|c s IH]; simpl; [lia |].
  destruct (Ascii.eqb c sep); simpl; lia.
Qed.

Lemma dropPrefix_some (p s r : string) : dropPrefix p s = Some r -> s = p ++ r.
Proof.
  revert s; induction p as [|a p IH]; intros s; simpl.
  - now intros [= ->].
  - destruct s as [|b s]; [discriminate |].
    destruct (Ascii.eqb_spec a b) as [-> | _]; [| discriminate].
    intros H. now rewrite (IH _ H).
Qed.

Lemma trimStart_head (s : string) :
  trimStart s = EmptyString \/
  exists c r, trimStart s = String c r /\ isWhiteSpace c = false.
Proof.
  induction s as [|c s IH]; simpl; [now left |].
  destruct (isWhiteSpace c) eqn:E; [exact IH |].
  right. now exists c, s.
Qed.

Lemma trimEnd_head (c : ascii) (r : string) :
  trimEnd (String c r) = EmptyString \/ exists r', trimEnd (String c r) = String c r'.
Proof.
  simpl. destruct (trimEnd r); [destruct (isWhiteSpace c) |]; eauto.
Qed.

Lemma trimEnd_idempotent (s : string) : trimEnd (trimEnd s) = trimEnd s.
Proof.
  induction s as [|c s IH]; [reflexivity |].
  simpl. destruct (trimEnd s) as [|c' r'] eqn:E.
  - destruct (isWhiteSpace c) eqn:W; [reflexivity |].
    simpl. now rewrite W.
  - change (trimEnd (String c (String c' r')))
      with (match trimEnd (String c' r') with
            | EmptyString => if isWhiteSpace c then EmptyString else String c EmptyString
            | r0 => String c r0
            end).
    now rewrite IH.
Qed.

(** [trim] is idempotent. *)
Lemma trim_idempotent (s : string) : trim (trim s) = trim s.
Proof.
  unfold trim.
  assert (H : trimStart (trimEnd (trimStart s)) = trimEnd (trimStart s)).
  { destruct (trimStart_head s) as [-> | [c [r [-> W]]]]; [reflexivity |].
    destruct (trimEnd_head c r) as [-> | [r' ->]]; [reflexivity |].
    simpl. now rewrite W. }
  rewrite H. apply trimEnd_idempotent.
Qed.

Lemma trimStart_clean (s : string) :
  all (fun c => negb (isWhiteSpace c)) s = true -> trimStart s = s.
Proof.
  destruct s as [|c s]; simpl; [reflexivity |].
  intros H. apply andb_prop in H as [H _].
  apply negb_true_iff in H. now rewrite H.
Qed.

Lemma trimEnd_clean (s : string) :
  all (fun c => negb (isWhiteSpace c)) s = true -> trimEnd s = s.
Proof.
  induction s as [|c s IH]; simpl; [reflexivity |].
  intros H. apply andb_prop in H as [Hc Hs].
  apply negb_true_iff in Hc. rewrite (IH Hs), Hc.
  now destruct s.
Qed.

Lemma trim_clean (s : string) :
  all (fun c => negb (isWhiteSpace c)) s = true -> trim s = s.
Proof.
  intros H. unfold trim. rewrite (trimStart_clean _ H). now apply trimEnd_clean.
Qed.

Lemma toLowerCase_clean (s : string) :
  all (fun c => negb (isUpper c)) s = true -> toLowerCase s = s.
Proof.
  induction s as [|c s IH]; simpl; [reflexivity |].
  intros H. apply andb_prop in H as [Hc Hs].
  apply negb_true_iff in Hc. unfold lowerChar. now rewrite Hc, (IH Hs).
Qed.

Lemma splitHead_clean (sep : ascii) (s : string) :
  all (fun c => negb (Ascii.eqb c sep)) s = true -> splitHead sep s = s.
Proof.
  induction s as [|c s IH]; simpl; [reflexivity |].
  intros H. apply andb_prop in H as [Hc Hs].
  apply negb_true_iff in Hc. now rewrite Hc, (IH Hs).
Qed.

Lemma all_true_in (p : ascii -> bool) (a b : string) (c : ascii) :
  all p (a ++ String c b) = true -> p c = true.
Proof.
  rewrite all_append. simpl. intros H.
  apply andb_prop in H as [_ H]. now apply andb_prop in H as [H _].
Qed.

End JsStringFacts.

(** ** The pattern matcher *)

Module JsRegExpFacts.
Import Js JsRegExp JsFacts.

Lemma append_empty (a b : string) :
  a ++ b = EmptyString -> a = EmptyString /\ b = EmptyString.
Proof. destruct a; simpl; [tauto | discriminate]. Qed.

Lemma nullable_matches (r : regex) : nullable r = true <-> matches r EmptyString.
Proof.
  split.
  - induction r; simpl; intros H; try discriminate.
    + constructor.
    + apply andb_prop in H as [H1 H2].
      change EmptyString with (EmptyString ++ EmptyString). constructor; auto.
    + apply orb_prop in H as [H | H]; [apply MAltL | apply MAltR]; auto.
    + constructor.
  - intros H. remember EmptyString as e eqn:E.
    induction H; simpl; try reflexivity; try discriminate.
    + apply append_empty in E as [-> ->]. now rewrite IHmatches1, IHmatches2.
    + now rewrite IHmatches.
    + rewrite IHmatches by assumption. apply orb_true_r.
Qed.

Lemma deriv_sound (c : ascii) (r : regex) (s : string) :
  matches (deriv c r) s -> matches r (String c s).
Proof.
  revert s; induction r; simpl; intros s H.
  - inversion H.
  - inversion H.
  - destruct (p c) eqn:E; inversion H; subst. now constructor.
  - destruct (nullable r1) eqn:N.
    + inversion H as [| | | ? ? ? H1 | ? ? ? H2 | |]; subst.
      * inversion H1 as [| | ? ? s1 s2 Ha Hb | | | |]; subst.
        change (String c (s1 ++ s2)) with (String c s1 ++ s2).
        constructor; auto.
      * change (String c s) with (EmptyString ++ String c s).
        constructor; [now apply nullable_matches | auto].
    + inversion H as [| | ? ? s1 s2 Ha Hb | | | |]; subst.
      change (String c (s1 ++ s2)) with (String c s1 ++ s2).
      constructor; auto.
  - inversion H; subst; [apply MAltL | apply MAltR]; auto.
  - inversion H as [| | ? ? s1 s2 Ha Hb | | | |]; subst.
    change (String c (s1 ++ s2)) with (String c s1 ++ s2).
    constructor; auto.
Qed.

Lemma deriv_complete (c : ascii) (r : regex) (s : string) :
  matches r (String c s) -> matches (deriv c r) s.
Proof.
  intros H. remember (String c s) as cs eqn:E. revert c s E.
  induction H; intros c0 s0 E; simpl; try discriminate.
  - injection E as -> <-. rewrite H. constructor.
  - destruct s1 as [|c1 s1]; simpl in E.
    + subst s2. assert (N : nullable r1 = true) by now apply nullable_matches.
      rewrite N. apply MAltR. now apply IHmatches2.
    + injection E as -> <-.
      destruct (nullable r1); [apply MAltL |]; constructor; auto.
  - apply MAltL. now apply IHmatches.
  - apply MAltR. now apply IHmatches.
  - destruct s1 as [|c1 s1]; simpl in E.
    + now apply IHmatches2.
    + injection E as -> <-. constructor; auto.
Qed.

(** [test] decides the match of the whole string. *)
Lemma test_matches (r : regex) (s : string) : test r s = true <-> matches r s.
Proof.
  revert r; induction s as [|c s IH]; intros r; simpl.
  - apply nullable_matches.
  - rewrite IH. split; [apply deriv_sound | apply deriv_complete].
Qed.

Lemma matches_chars (p : ascii -> bool) (s : string) :
  matches (Chars p) s -> exists c, s = String c EmptyString /\ p c = true.
Proof. intros H. inversion H; subst. eauto. Qed.

Lemma matches_cat (r1 r2 : regex) (s : string) :
  matches (Cat r1 r2) s -> exists s1 s2, s = s1 ++ s2 /\ matches r1 s1 /\ matches r2 s2.
Proof. intros H. inversion H; subst. eauto. Qed.

Lemma matches_star_chars (p : ascii -> bool) (s : string) :
  matches (Star (Chars p)) s -> all p s = true.
Proof.
  intros H. remember (Star (Chars p)) as r eqn:E.
  induction H; try discriminate; [reflexivity |].
  injection E as ->.
  apply matches_chars in H as [c [-> Hc]].
  simpl. now rewrite Hc, IHmatches2.
Qed.

Lemma matches_atLeastTwo_chars (p : ascii -> bool) (s : string) :
  matches (atLeastTwo (Chars p)) s -> all p s = true /\ s <> EmptyString.
Proof.
  intros H. unfold atLeastTwo in H.
  apply matches_cat in H as (s1 & s' & -> & H1 & H).
  apply matches_cat in H as (s2 & s3 & -> & H2 & H3).
  apply matches_chars in H1 as [c1 [-> Hc1]].
  apply matches_chars in H2 as [c2 [-> Hc2]].
  apply matches_star_chars in H3.
  simpl. rewrite Hc1, Hc2, H3. split; [reflexivity | discriminate].
Qed.

End JsRegExpFacts.

(** ** Clean domains *)

Module CleanDomainFacts.
Import Js Next DomainLookup JsFacts JsStringFacts DomainLookupFacts Upstream.

Ltac by_code_units :=
  let c := fresh "c" in
  intros c; destruct c as [[] [] [] [] [] [] [] []]; vm_compute; intros; congruence.

Lemma domainChar_not_space :
  forall c, isDomainChar c = true -> negb (isWhiteSpace c) = true.
Proof. by_code_units. Qed.

Lemma domainChar_not_upper :
  forall c, isDomainChar c = true -> negb (isUpper c) = true.
Proof. by_code_units. Qed.

Lemma domainChar_not_slash :
  forall c, isDomainChar c = true -> negb (Ascii.eqb c "/") = true.
Proof. by_code_units. Qed.

Lemma domainChar_not_colon :
  forall c, isDomainChar c = true -> negb (Ascii.eqb c ":") = true.
Proof. by_code_units. Qed.

(** The rest of a string after an optional [s]. *)
Lemma optional_s_all (p : ascii -> bool) (r : string) :
  all p r = true ->
  all p (match r with String "s" r1 => r1 | _ => r end) = true.
Proof.
  destruct r as [|a r]; [auto |].
  intros H. pose proof H as H'. simpl in H'. apply andb_prop in H' as [_ Hr].
  destruct a as [[] [] [] [] [] [] [] []]; assumption.
Qed.

Lemma optional_s_length (r : string) :
  length (match r with String "s" r1 => r1 | _ => r end) <= length r.
Proof.
  destruct r as [|a r]; [simpl; lia |].
  destruct a as [[] [] [] [] [] [] [] []]; simpl; lia.
Qed.

Lemma stripScheme_length (s : string) : length (stripScheme s) <= length s.
Proof.
  unfold stripScheme.
  destruct (dropPrefix "http" s) as [r|] eqn:E; [| lia].
  apply dropPrefix_some in E. subst s.
  destruct (dropPrefix "://" _) as [rest|] eqn:E2; [| lia].
  apply dropPrefix_some in E2.
  pose proof (optional_s_length r) as L. rewrite E2 in L.
  rewrite !length_append in *. simpl in *. lia.
Qed.

(** Without a colon there is no scheme to remove. *)
Lemma stripScheme_no_colon (s : string) :
  all (fun c => negb (Ascii.eqb c ":")) s = true -> stripScheme s = s.
Proof.
  intros H. unfold stripScheme.
  destruct (dropPrefix "http" s) as [r|] eqn:E; [| reflexivity].
  apply dropPrefix_some in E. subst s.
  rewrite all_append in H. apply andb_prop in H as [_ Hr].
  apply (optional_s_all _ r) in Hr.
  destruct (dropPrefix "://" _) as [rest|] eqn:E2; [| reflexivity].
  apply dropPrefix_some in E2. rewrite E2 in Hr. discriminate Hr.
Qed.

Lemma cleanDomainOf_length (d : string) : length (cleanDomainOf d) <= length d.
Proof.
  unfold cleanDomainOf.
  pose proof (trim_length (toLowerCase (splitHead "/" (stripScheme d)))).
  rewrite toLowerCase_length in H.
  pose proof (splitHead_length "/" (stripScheme d)).
  pose proof (stripScheme_length d). lia.
Qed.

(** Cleaning leaves a string of domain characters as it is. *)
Lemma cleanDomainOf_clean (c : string) :
  all isDomainChar c = true -> cleanDomainOf c = c.
Proof.
  intros H. unfold cleanDomainOf.
  rewrite stripScheme_no_colon
    by (apply (all_impl isDomainChar); [apply domainChar_not_colon | exact H]).
  rewrite splitHead_clean
    by (apply (all_impl isDomainChar); [apply domainChar_not_slash | exact H]).
  rewrite toLowerCase_clean
    by (apply (all_impl isDomainChar); [apply domainChar_not_upper | exact H]).
  apply trim_clean.
  apply (all_impl isDomainChar); [apply domainChar_not_space | exact H].
Qed.

Lemma checkDomainParam_continue (dom : option string) (d : string) :
  checkDomainParam dom = Continue d ->
  dom = Some d /\ isEmpty d = false /\ isEmpty (trim d) = false /\ length d <= 253.
Proof.
  destruct dom as [d'|]; [| discriminate].
  unfold checkDomainParam, returnIf, bind.
  destruct (isEmpty d') eqn:E1; [discriminate |].
  rewrite length_zero.
  destruct (isEmpty (trim d')) eqn:E2; [discriminate |].
  destruct (253 <? length d')%nat eqn:E3; [discriminate |].
  intros [= <-]. apply Nat.ltb_ge in E3. auto.
Qed.

Lemma checkDomainParam_accepts (d : string) :
  isEmpty (trim d) = false -> length d <= 253 ->
  checkDomainParam (Some d) = Continue d.
Proof.
  intros E2 L. unfold checkDomainParam, returnIf, bind.
  assert (E1 : isEmpty d = false) by (destruct d; [discriminate E2 | reflexivity]).
  rewrite E1, length_zero, E2.
  apply Nat.ltb_ge in L. now rewrite L.
Qed.

(** What the checks establish about the clean domain. *)
Lemma validated_cleanShape (domain : option string) (c : string) :
  validateDomain domain = Continue c -> cleanShape c = true.
Proof.
  intros Hv.
  apply validateDomain_continue in Hv as [d [_ [Hd [_ Hc]]]].
  apply checkDomainParam_continue in Hd as [_ [_ [_ L]]].
  apply cleanAndCheck_normal in Hc as [-> [Hne [Hi [Hs [He Ha]]]]].
  pose proof (cleanDomainOf_length d) as L'.
  assert (Hl : (length (cleanDomainOf d) <=? 253)%nat = true)
    by (apply Nat.leb_le; lia).
  unfold cleanShape. apply isEmpty_false in Hne.
  now rewrite Hne, Hl, Hi, Hs, He, Ha.
Qed.

Lemma accepted_cleanShape (w : World) (request : Request) (c t : string) :
  accepted w request c t -> cleanShape c = true.
Proof. intros [_ [Hv _]]. now apply validated_cleanShape in Hv. Qed.

(** A domain of the clean shape passes validation unchanged. *)
Lemma cleanShape_validates (c : string) :
  cleanShape c = true -> validateDomain (Some c) = Continue c.
Proof.
  unfold cleanShape. intros H.
  repeat (apply andb_prop in H as [H ?]).
  apply negb_true_iff in H, H0, H1. apply Nat.leb_le in H4.
  pose proof (cleanDomainOf_clean c H3) as Hc.
  assert (Ht : trim c = c).
  { apply trim_clean.
    apply (all_impl isDomainChar); [apply domainChar_not_space | exact H3]. }
  unfold validateDomain.
  rewrite checkDomainParam_accepts by (rewrite ?Ht; assumption).
  simpl. unfold cleanDomainStep, cleanAndCheck. rewrite Hc.
  rewrite H, length_zero, H, H2, H1, H0. simpl.
  unfold domainRegex. now rewrite H, H3.
Qed.

(** X22: validation is idempotent: the clean domain of an accepted input is of
    the clean shape (non-empty, at most 253 characters of [a-z0-9.-], with
    a dot that is neither first nor last), and validating it again
    returns it unchanged. *)
Theorem validateDomain_idempotent (domain : option string) (c : string)
    (Hvalid : validateDomain domain = Continue c) :
  cleanShape c = true /\ validateDomain (Some c) = Continue c.
Proof.
  pose proof (validated_cleanShape _ _ Hvalid) as H.
  split; [exact H | now apply cleanShape_validates].
Qed.

Lemma validateDomain_idempotent_witness :
  validateDomain (Some "https://Example.COM/path") = Continue "example.com" /\
  validateDomain (Some "example.com") = Continue "example.com".
Proof.
  split; [reflexivity |].
  exact (proj2 (validateDomain_idempotent
                  (Some "https://Example.COM/path") "example.com" eq_refl)).
Defined.

End CleanDomainFacts.

(** ** More about the domain-lookup handler *)

Module GetFacts.
Import Js JsDate Types Next DomainLookup JsFacts JsStringFacts UtilsFacts
       DomainLookupFacts CleanDomainFacts Reference Upstream.
Local Open Scope Z_scope.

Ltac rejected msg st :=
  left; exists msg, st; repeat split; try discriminate; auto.

(** Before the upstream call the handler rejects with 500 (no key) or 400
    (parameters) and a message, or accepts. *)
Lemma GET_rejection_detail (utils : Helpers) (w : World) (request : Request) :
  (exists msg st, msg <> EmptyString /\ (st = 400 \/ st = 500) /\
     forall utils' w', WHOIS_API_KEY w' = WHOIS_API_KEY w ->
       GET utils' w' request = Return (jsonError msg st)) \/
  (exists cleanDomain t, accepted w request cleanDomain t /\
     type request = Some t /\ (t = "domain" \/ t = "contact")%string).
Proof.
  destruct (truthy (WHOIS_API_KEY w)) eqn:Hk.
  2:{ rejected "WHOIS service is not properly configured" 500.
      intros utils' w' E. unfold GET. now rewrite E, Hk. }
  destruct (domain request) as [d|] eqn:Hdom.
  2:{ rejected "Domain parameter is required" 400.
      intros utils' w' E. unfold GET. now rewrite E, Hk, Hdom. }
  destruct (isEmpty d) eqn:E1.
  { rejected "Domain parameter is required" 400.
    intros utils' w' E. unfold GET. rewrite E, Hk, Hdom. simpl. now rewrite E1. }
  destruct (isEmpty (trim d)) eqn:E2.
  { rejected "Domain parameter must be a non-empty string" 400.
    intros utils' w' E. unfold GET. rewrite E, Hk, Hdom. simpl.
    now rewrite E1, length_zero, E2. }
  destruct (253 <? length d)%nat eqn:E3.
  { rejected "Domain name is too long (maximum 253 characters)" 400.
    intros utils' w' E. unfold GET. rewrite E, Hk, Hdom. simpl.
    now rewrite E1, length_zero, E2, E3. }
  assert (Hd : checkDomainParam (Some d) = Continue d).
  { apply checkDomainParam_accepts; [exact E2 | now apply Nat.ltb_ge]. }
  destruct (type request) as [t|] eqn:Hty.
  2:{ rejected "Type parameter is required" 400.
      intros utils' w' E. unfold GET. now rewrite E, Hk, Hdom, Hd, Hty. }
  destruct (isEmpty t) eqn:T1.
  { rejected "Type parameter is required" 400.
    intros utils' w' E. unfold GET. rewrite E, Hk, Hdom, Hd, Hty. simpl.
    now rewrite T1. }
  destruct ((t =? "domain") || (t =? "contact"))%string eqn:T2.
  2:{ rejected "Type parameter must be 'domain' or 'contact'" 400.
      intros utils' w' E. unfold GET. rewrite E, Hk, Hdom, Hd, Hty. simpl.
      now rewrite T1, T2. }
  assert (Ht : checkTypeParam (Some t) = Continue t).
  { unfold checkTypeParam. now rewrite T1, T2. }
  destruct (cleanDomainStep_cases d) as [Hc | [Hc _]].
  { rejected "Invalid domain format" 400.
    intros utils' w' E. unfold GET. rewrite E, Hk, Hdom, Hd, Hty.
    cbn [negb returnIf bind]. rewrite Ht. cbn [bind]. now rewrite Hc. }
  right. exists (cleanDomainOf d), t.
  split; [| split; [reflexivity |]].
  - split; [exact Hk | split].
    + unfold validateDomain. rewrite Hdom, Hd. exact Hc.
    + now rewrite Hty.
  - apply orb_prop in T2 as [T | T]; apply String.eqb_eq in T; auto.
Qed.

(** A 200 answer, taken apart. *)
Lemma GET_ok_inversion (utils : Helpers) (w : World) (request : Request)
    (b : ResponseBody) :
  GET utils w request = Return (jsonOk b) ->
  exists cleanDomain t r whoisRecord ErrorMessage,
    accepted w request cleanDomain t /\
    fetch w WHOIS_BASE_URL (requestBody w cleanDomain) = FetchResolves r /\
    ok r = true /\
    r_json r = JsonObject (Some whoisRecord) ErrorMessage /\
    ((t = "domain"%string /\
      b = DomainBody (domainInfo utils whoisRecord cleanDomain) (timestamp (now w))) \/
     (t = "contact"%string /\
      b = ContactBody (contactInfo utils whoisRecord) (timestamp (now w)))).
Proof.
  intros H.
  destruct (GET_rejection_detail utils w request)
    as [(msg & st & _ & Hst & E) | (c & t & Hacc & _ & Ht)].
  { rewrite (E utils w eq_refl) in H. injection H as H _.
    destruct Hst as [-> | ->]; discriminate H. }
  rewrite (GET_accepted _ _ _ _ _ Hacc) in H.
  destruct (fetch w WHOIS_BASE_URL (requestBody w c)) as [e | r] eqn:Hf.
  { unfold fetchFailure in H.
    destruct (match fe_name e with Some _ => _ | None => _ end); [discriminate H |].
    destruct (match fe_code e with Some _ => _ | None => _ end); discriminate H. }
  destruct (ok r) eqn:Hok.
  2:{ simpl in H. unfold httpFailure in H.
      repeat match type of H with
             | context [if ?b then _ else _] => destruct b
             end; discriminate H. }
  simpl in H. unfold recordStep in H.
  destruct (r_json r) as [| | [whoisRecord|] em] eqn:Hj; try discriminate H.
  2:{ destruct (truthy em); discriminate H. }
  exists c, t, r, whoisRecord, em.
  repeat split; try assumption; try apply Hacc.
  destruct Ht as [-> | ->]; simpl in H; injection H as <-; auto.
Qed.

Lemma checkDomainParam_total (dom : option string) :
  (exists msg, msg <> EmptyString /\
     checkDomainParam dom = Return (jsonError msg 400)) \/
  (exists d, checkDomainParam dom = Continue d).
Proof.
  destruct dom as [d|]; [| left; eexists; split; [| reflexivity]; discriminate].
  unfold checkDomainParam, returnIf, bind.
  destruct (isEmpty d); [left; eexists; split; [| reflexivity]; discriminate |].
  destruct (length (trim d) =? 0)%nat;
    [left; eexists; split; [| reflexivity]; discriminate |].
  destruct (253 <? length d)%nat;
    [left; eexists; split; [| reflexivity]; discriminate |].
  right. now exists d.
Qed.

Lemma checkTypeParam_rejects (ty : option string) :
  (forall t, ty = Some t -> t <> "domain" /\ t <> "contact")%string ->
  exists msg, msg <> EmptyString /\ checkTypeParam ty = Return (jsonError msg 400).
Proof.
  intros H. destruct ty as [t|]; [| eexists; split; [| reflexivity]; discriminate].
  destruct (H t eq_refl) as [H1 H2].
  unfold checkTypeParam, returnIf, bind.
  destruct (isEmpty t); [eexists; split; [| reflexivity]; discriminate |].
  apply String.eqb_neq in H1, H2. rewrite H1, H2. simpl.
  eexists; split; [| reflexivity]; discriminate.
Qed.

(** X1: on a configured server a request whose domain is absent, blank or
    longer than 253 characters, or whose type is neither [domain] nor
    [contact], is answered 400 with a message that the request alone
    fixes: the upstream service is not consulted. *)
Theorem malformed_parameters_rejected (request : Request)
    (Hbad : domain request = None \/
            (exists d, domain request = Some d /\
                       (isBlank d = true \/ 253 < length d)%nat) \/
            (forall t, type request = Some t -> t <> "domain" /\ t <> "contact")%string) :
  exists msg, msg <> EmptyString /\
    forall (utils : Helpers) (w : World),
      truthy (WHOIS_API_KEY w) = true ->
      GET utils w request = Return (jsonError msg (categoryStatus validation)).
Proof.
  destruct (checkDomainParam_total (domain request)) as [[msg [Hm E]] | [d E]].
  { exists msg. split; [exact Hm |]. intros utils w Hk.
    unfold GET. now rewrite Hk, E. }
  pose proof (checkDomainParam_continue _ _ E) as (Hdom & _ & Hb & Hl).
  destruct Hbad as [Hbad | [(d' & Hd' & Hbad) | Hbad]].
  - congruence.
  - exfalso. rewrite Hdom in Hd'. injection Hd' as <-.
    unfold isBlank in Hbad. destruct Hbad as [Hbad | Hbad]; [congruence | lia].
  - destruct (checkTypeParam_rejects _ Hbad) as [msg [Hm Et]].
    exists msg. split; [exact Hm |]. intros utils w Hk.
    unfold GET. rewrite Hk, E. cbn [negb returnIf bind]. now rewrite Et.
Qed.

Lemma malformed_parameters_rejected_witness :
  exists msg, msg <> EmptyString /\
    forall (utils : Helpers) (w : World),
      truthy (WHOIS_API_KEY w) = true ->
      GET utils w Samples.badRequest = Return (jsonError msg 400).
Proof.
  apply (malformed_parameters_rejected Samples.badRequest).
  left. reflexivity.
Defined.




(** X3: the handler consults the upstream service at most once, at the
    WHOIS URL, with a body whose domain has the clean shape, whose key is
    the configured one and whose output format is JSON: two servers with
    the same key and clock whose upstream services agree on these calls
    answer every request alike. *)
Theorem upstream_call_discipline (utils : Helpers) (w w' : World) (request : Request)
    (Hkey : WHOIS_API_KEY w' = WHOIS_API_KEY w)
    (Hclock : now w' = now w)
    (Hagree : forall b,
        wellFormedBody (orElse (WHOIS_API_KEY w) EmptyString) b = true ->
        fetch w' WHOIS_BASE_URL b = fetch w WHOIS_BASE_URL b) :
  GET utils w' request = GET utils w request.
Proof.
  destruct (GET_rejection_detail utils w request)
    as [(msg & st & _ & _ & E) | (c & t & Hacc & _ & _)].
  { now rewrite (E utils w' Hkey), (E utils w eq_refl). }
  assert (Hacc' : accepted w' request c t).
  { destruct Hacc as [Hk Hv]. split; [now rewrite Hkey | exact Hv]. }
  rewrite (GET_accepted _ _ _ _ _ Hacc), (GET_accepted _ _ _ _ _ Hacc').
  assert (Hb : requestBody w' c = requestBody w c)
    by (unfold requestBody; now rewrite Hkey).
  rewrite Hb, Hagree, Hclock; [reflexivity |].
  unfold wellFormedBody, requestBody. simpl.
  now rewrite (accepted_cleanShape _ _ _ _ Hacc), !String.eqb_refl.
Qed.

Lemma upstream_call_discipline_witness :
  GET (libUtils strictEngine)
      {| WHOIS_API_KEY := Some "key";
         fetch := fun url b =>
                    if (url =? WHOIS_BASE_URL)%string && wellFormedBody "key" b
                    then FetchResolves (Samples.okWith (JsonObject (Some Samples.noFields) None))
                    else FetchRejects {| fe_name := None; fe_code := None |};
         now := 0 |}
      Samples.domainRequest =
  GET (libUtils strictEngine)
      (Samples.answering (Samples.okWith (JsonObject (Some Samples.noFields) None)))
      Samples.domainRequest.
Proof.
  apply upstream_call_discipline; [reflexivity | reflexivity |].
  intros b Hb. simpl in *. now rewrite Hb.
Defined.

(** X4: when the upstream call fails, an abort (the 30 s timer) is
    answered 504 and any other failure 503; the abort takes precedence
    over the error code. *)
Theorem fetch_failure_mapping
    (utils : Helpers) (w : World) (request : Request) (cleanDomain t : string)
    (e : FetchError)
    (Hacc : accepted w request cleanDomain t)
    (Hfetch : fetch w WHOIS_BASE_URL (requestBody w cleanDomain) = FetchRejects e) :
  (fe_name e = Some "AbortError" ->
   GET utils w request =
   Return (jsonError "Request timeout - WHOIS service took too long to respond"
             (categoryStatus timeout))) /\
  (fe_name e <> Some "AbortError" ->
   (fe_code e = Some "ENOTFOUND" \/ fe_code e = Some "ECONNREFUSED" ->
    GET utils w request =
    Return (jsonError "WHOIS service is currently unavailable"
              (categoryStatus upstream_unavailable))) /\
   (fe_code e <> Some "ENOTFOUND" -> fe_code e <> Some "ECONNREFUSED" ->
    GET utils w request =
    Return (jsonError "Failed to connect to WHOIS service"
              (categoryStatus upstream_unavailable)))).
Proof.
  rewrite (GET_accepted _ _ _ _ _ Hacc), Hfetch. unfold fetchFailure.
  split.
  - now intros ->.
  - intros Hn.
    assert (En : match fe_name e with
                 | Some n => (n =? "AbortError")%string
                 | None => false
                 end = false).
    { destruct (fe_name e) as [n|]; [| reflexivity].
      apply String.eqb_neq. congruence. }
    rewrite En. split.
    + now intros [-> | ->].
    + intros H1 H2.
      destruct (fe_code e) as [c|]; [| reflexivity].
      assert (E1 : (c =? "ENOTFOUND")%string = false)
        by (apply String.eqb_neq; congruence).
      assert (E2 : (c =? "ECONNREFUSED")%string = false)
        by (apply String.eqb_neq; congruence).
      now rewrite E1, E2.
Qed.

Lemma fetch_failure_mapping_witness :
  GET (libUtils strictEngine) (Samples.failing Samples.abortedLookup)
      Samples.domainRequest =
  Return (jsonError "Request timeout - WHOIS service took too long to respond" 504).
Proof.
  assert (Hacc : accepted (Samples.failing Samples.abortedLookup)
                          Samples.domainRequest "example.com" "domain")
    by (repeat split).
  exact (proj1 (fetch_failure_mapping (libUtils strictEngine)
                  (Samples.failing Samples.abortedLookup) Samples.domainRequest
                  "example.com" "domain" Samples.abortedLookup Hacc eq_refl) eq_refl).
Defined.

(** X5: a 2xx upstream answer whose body does not parse, or parses to
    something that is not an object, is answered 500. *)
Theorem unreadable_body_is_500
    (utils : Helpers) (w : World) (request : Request) (cleanDomain t : string)
    (r : HttpResponse)
    (Hacc : accepted w request cleanDomain t)
    (Hfetch : fetch w WHOIS_BASE_URL (requestBody w cleanDomain) = FetchResolves r)
    (Hok : ok r = true) :
  (r_json r = JsonThrows ->
   GET utils w request =
   Return (jsonError "Invalid response format from WHOIS service"
             (categoryStatus malformed_response))) /\
  (r_json r = JsonNotObject ->
   GET utils w request =
   Return (jsonError "Invalid response from WHOIS service"
             (categoryStatus malformed_response))).
Proof.
  rewrite (GET_accepted _ _ _ _ _ Hacc), Hfetch, Hok. simpl. unfold recordStep.
  split; now intros ->.
Qed.

Lemma unreadable_body_is_500_witness :
  GET (libUtils strictEngine) (Samples.answering (Samples.okWith JsonThrows))
      Samples.domainRequest =
  Return (jsonError "Invalid response format from WHOIS service" 500).
Proof.
  assert (Hacc : accepted (Samples.answering (Samples.okWith JsonThrows))
                          Samples.domainRequest "example.com" "domain")
    by (repeat split).
  exact (proj1 (unreadable_body_is_500 (libUtils strictEngine)
                  (Samples.answering (Samples.okWith JsonThrows)) Samples.domainRequest
                  "example.com" "domain" (Samples.okWith JsonThrows)
                  Hacc eq_refl eq_refl) eq_refl).
Defined.



End GetFacts.

(** ** More about the field helpers *)

Module HelperFacts.
Import Js JsDate Types JsFacts JsStringFacts JsDateFacts UtilsFacts
       DomainLookupFacts Reference.

Lemma prefix_substring0 (n : nat) (s : string) : prefix (substring 0 n s) s = true.
Proof.
  revert s; induction n as [|n IH]; intros s.
  - destruct s; reflexivity.
  - destruct s as [|c s]; [reflexivity |].
    simpl. rewrite IH. now destruct (ascii_dec c c).
Qed.

(** What [formatHostnames] of [utils.ts] returns for a non-empty list. *)
Lemma formatHostnames_joined (l : list string) :
  l <> [] ->
  Utils.formatHostnames (Some l) =
  if (25 <? length (join ", " l))%nat
  then substring 0 22 (join ", " l) ++ "..."
  else join ", " l.
Proof. destruct l; [congruence | reflexivity]. Qed.

Lemma formatHostnames_length (hostnames : option (list string)) :
  length (Utils.formatHostnames hostnames) <= 25.
Proof.
  destruct hostnames as [[|h l]|]; try (simpl; lia).
  rewrite formatHostnames_joined by discriminate.
  destruct (25 <? _)%nat eqn:E.
  - apply Nat.ltb_lt in E. destruct (truncation_length _ E) as [-> _]. lia.
  - now apply Nat.ltb_ge in E.
Qed.

(** X8: the host-name string never has more than 25 characters; a list
    whose joined form fits is shown in full, and a longer one is shown as
    its first 22 characters followed by the ellipsis, 25 characters in
    all. *)
Theorem formatHostnames_bounded (hostnames : option (list string)) :
  length (Utils.formatHostnames hostnames) <= 25 /\
  forall l, hostnames = Some l -> l <> [] ->
    (length (join ", " l) <= 25 ->
     Utils.formatHostnames hostnames = join ", " l) /\
    (25 < length (join ", " l) ->
     Utils.formatHostnames hostnames = substring 0 22 (join ", " l) ++ "..." /\
     prefix (substring 0 22 (join ", " l)) (join ", " l) = true /\
     length (substring 0 22 (join ", " l)) = 22 /\
     length (Utils.formatHostnames hostnames) = 25).
Proof.
  split; [apply formatHostnames_length |].
  intros l -> Hl. rewrite (formatHostnames_joined _ Hl). split; intros H.
  - apply Nat.ltb_ge in H. now rewrite H.
  - pose proof H as H'. apply Nat.ltb_lt in H'. rewrite H'.
    split; [reflexivity |]. split; [apply prefix_substring0 |].
    split; [apply length_substring0; lia | apply (truncation_length _ H)].
Qed.

Lemma formatHostnames_bounded_witness :
  Utils.formatHostnames (Some ["ns1.example.com"; "ns2.example.com"]) =
  "ns1.example.com, ns2.e...".
Proof.
  destruct (formatHostnames_bounded (Some ["ns1.example.com"; "ns2.example.com"]))
    as [_ H].
  destruct (H ["ns1.example.com"; "ns2.example.com"] eq_refl ltac:(discriminate))
    as [_ H'].
  destruct H' as [E _]; [simpl; lia |].
  exact E.
Defined.

(** X9: the documented [formatHostnames] is [formatHostnames] of
    [utils.ts] after the blank entries are dropped; its result is never
    empty and never longer than 25 characters. *)
Theorem documented_formatHostnames_filters (l : list string) :
  UtilsDocumented.formatHostnames (Some l) =
    Utils.formatHostnames (Some (filter (fun h => negb (isBlank h)) l)) /\
  UtilsDocumented.formatHostnames (Some l) <> EmptyString /\
  length (UtilsDocumented.formatHostnames (Some l)) <= 25.
Proof.
  assert (E : UtilsDocumented.formatHostnames (Some l) =
              Utils.formatHostnames (Some (filter (fun h => negb (isBlank h)) l))).
  { rewrite documented_formatHostnames_reference.
    unfold formatHostnames_reference, Utils.formatHostnames.
    destruct (filter _ l); reflexivity. }
  split; [exact E |].
  split; [apply documented_formatHostnames_nonempty |].
  rewrite E. apply formatHostnames_length.
Qed.

Lemma isDateFormat_fallback : UtilsDocumented.isDateFormat "N/A" = false.
Proof. reflexivity. Qed.

Lemma documented_formatDate_equation
    (engineParse : string -> option Z) (raw : option string) :
  UtilsDocumented.formatDate engineParse raw =
  match raw with
  | Some s =>
      let r := Utils.formatDate engineParse (Some (trim s)) in
      if UtilsDocumented.isDateFormat r then r else "N/A"
  | None => "N/A"
  end.
Proof.
  destruct raw as [s|]; [| reflexivity].
  unfold UtilsDocumented.formatDate. cbv zeta.
  destruct (isEmpty s) eqn:E1.
  { apply isEmpty_true in E1. subst s. reflexivity. }
  destruct (isEmpty (trim s)) eqn:E2.
  { apply isEmpty_true in E2. rewrite E2. reflexivity. }
  simpl orb. cbv iota.
  destruct (newDate engineParse (trim s)) as [t|] eqn:Hd.
  - rewrite (formatDate_valid _ _ t); [| now apply isEmpty_false | exact Hd].
    destruct (toISOString_datePart t) as [rest [-> ->]].
    now destruct (UtilsDocumented.isDateFormat (dateString t)).
  - now rewrite (formatDate_invalid _ _ Hd).
Qed.

(** X10: the documented [formatDate] returns the fallback token or a
    string of the form YYYY-MM-DD; it is [formatDate] of [utils.ts] on the
    trimmed input, with every result that is not of that form replaced by
    the fallback token. *)
Theorem documented_formatDate_filters
    (engineParse : string -> option Z) (raw : option string) :
  (UtilsDocumented.formatDate engineParse raw = "N/A" \/
   UtilsDocumented.isDateFormat (UtilsDocumented.formatDate engineParse raw) = true) /\
  UtilsDocumented.formatDate engineParse raw =
    match raw with
    | Some s =>
        let r := Utils.formatDate engineParse (Some (trim s)) in
        if UtilsDocumented.isDateFormat r then r else "N/A"
    | None => "N/A"
    end.
Proof.
  split; [| apply documented_formatDate_equation].
  rewrite documented_formatDate_equation.
  destruct raw as [s|]; [| now left]. cbv zeta.
  destruct (UtilsDocumented.isDateFormat _) eqn:F; [now right | now left].
Qed.

(** X20: the resolvers of [utils.ts] and the documented ones agree on
    every contact whose organization and name carry no surrounding white
    space. *)
Theorem resolvers_agree_on_trimmed (contact : option Contact)
    (Htrimmed : forall c, contact = Some c ->
        (forall o, organization c = Some o -> trim o = o) /\
        (forall n, name c = Some n -> trim n = n)) :
  UtilsDocumented.getRegistrantName contact = Utils.getRegistrantName contact /\
  UtilsDocumented.getTechnicalContactName contact =
    Utils.getTechnicalContactName contact /\
  UtilsDocumented.getAdministrativeContactName contact =
    Utils.getAdministrativeContactName contact.
Proof.
  assert (E : UtilsDocumented.getRegistrantName contact =
              Utils.getRegistrantName contact).
  { destruct contact as [c|]; [| reflexivity].
    destruct (Htrimmed c eq_refl) as [Ho Hn].
    unfold UtilsDocumented.getRegistrantName, Utils.getRegistrantName,
      UtilsDocumented.trimmedNonEmpty, orOpt, orElse, truthy.
    destruct (organization c) as [o|].
    - rewrite (Ho o eq_refl), length_pos.
      destruct o as [|a o]; simpl; [| reflexivity].
      destruct (name c) as [n|]; [| reflexivity].
      rewrite (Hn n eq_refl), length_pos. now destruct n.
    - destruct (name c) as [n|]; [| reflexivity].
      rewrite (Hn n eq_refl), length_pos. now destruct n. }
  split; [exact E | split; exact E].
Qed.

Lemma resolvers_agree_on_trimmed_witness :
  UtilsDocumented.getRegistrantName
    (Some {| organization := Some EmptyString; name := Some "Jane Doe";
             country := None; countryCode := None; contactRawText := None;
             email := None; phone := None; address := None; city := None;
             state := None; postalCode := None |}) =
  Utils.getRegistrantName
    (Some {| organization := Some EmptyString; name := Some "Jane Doe";
             country := None; countryCode := None; contactRawText := None;
             email := None; phone := None; address := None; city := None;
             state := None; postalCode := None |}).
Proof.
  refine (proj1 (resolvers_agree_on_trimmed _ _)).
  intros c [= <-]. split; intros x [= <-]; reflexivity.
Defined.

(** X11: each documented resolver returns the result of the reference
    rule with its surrounding white space removed: never an empty string,
    never a string with leading or trailing white space; the three
    resolvers agree. *)
Theorem documented_resolver_trims (contact : option Contact) :
  let r := UtilsDocumented.getRegistrantName contact in
  r = trim (resolveContactName contact) /\
  r <> EmptyString /\
  trim r = r /\
  UtilsDocumented.getTechnicalContactName contact = r /\
  UtilsDocumented.getAdministrativeContactName contact = r.
Proof.
  cbv zeta.
  assert (E : UtilsDocumented.getRegistrantName contact =
              trim (resolveContactName contact)).
  { destruct contact as [c|]; [| reflexivity].
    unfold UtilsDocumented.getRegistrantName, resolveContactName,
      UtilsDocumented.trimmedNonEmpty, nonBlank, isBlank.
    destruct (organization c) as [o|].
    - rewrite length_pos. destruct (isEmpty (trim o)); simpl; [| reflexivity].
      destruct (name c) as [n|]; [| reflexivity].
      rewrite length_pos. now destruct (isEmpty (trim n)).
    - destruct (name c) as [n|]; [| reflexivity].
      rewrite length_pos. now destruct (isEmpty (trim n)). }
  split; [exact E |].
  split; [| split; [| split; reflexivity]].
  - destruct contact as [c|]; [| discriminate].
    unfold UtilsDocumented.getRegistrantName, UtilsDocumented.trimmedNonEmpty.
    destruct (organization c) as [o|].
    + rewrite length_pos. destruct (isEmpty (trim o)) eqn:Eo; simpl.
      * destruct (name c) as [n|]; [| discriminate].
        rewrite length_pos. destruct (isEmpty (trim n)) eqn:En; simpl;
          [discriminate | now apply isEmpty_false].
      * now apply isEmpty_false.
    + destruct (name c) as [n|]; [| discriminate].
      rewrite length_pos. destruct (isEmpty (trim n)) eqn:En; simpl;
        [discriminate | now apply isEmpty_false].
  - rewrite E. apply trim_idempotent.
Qed.

End HelperFacts.

(** ** More about the suggestion handler *)

Module PostFacts.
Import Js JsDate Types Next AiLookup JsFacts JsStringFacts AiLookupFacts
       Reference Upstream.
Local Open Scope Z_scope.

Lemma checkDescription_continue (v : JsValue) (d : string) :
  checkDescription v = Continue d ->
  v = VString d /\ isEmpty (trim d) = false /\ (length d <= 1000)%nat.
Proof.
  unfold checkDescription, returnIf, bind.
  destruct (truthyValue v); simpl; [| discriminate].
  destruct v as [| | b | n | s |]; try discriminate.
  rewrite length_zero.
  destruct (isEmpty (trim s)) eqn:E; [discriminate |].
  destruct (1000 <? length s)%nat eqn:L; [discriminate |].
  intros [= <-]. apply Nat.ltb_ge in L. auto.
Qed.

Lemma checkDescription_total (v : JsValue) :
  (exists msg, msg <> EmptyString /\
     checkDescription v = Return (jsonError msg 400)) \/
  (exists d, checkDescription v = Continue d).
Proof.
  unfold checkDescription, returnIf, bind.
  destruct (truthyValue v); simpl;
    [| left; eexists; split; [| reflexivity]; discriminate].
  destruct v as [| | b | n | s |];
    try (left; eexists; split; [| reflexivity]; discriminate).
  destruct (length (trim s) =? 0)%nat;
    [left; eexists; split; [| reflexivity]; discriminate |].
  destruct (1000 <? length s)%nat;
    [left; eexists; split; [| reflexivity]; discriminate |].
  right. now exists s.
Qed.

(** After the checks the handler is its generation call and what
    follows. *)
Lemma POST_ready (w : World) (request : Request) (d : string) :
  ready w request d ->
  POST w request =
  match generateContent w "gemini-2.5-flash" (fullPrompt d) with
  | GenerateRejects st => Return (generateFailure st)
  | GenerateResolves response => responseStep (now w) response
  end.
Proof.
  intros ((ct & Hct & Hinc) & Hj & Hd & Hk & Hcl).
  unfold POST. rewrite Hct, Hinc, Hj. cbn [negb returnIf bind].
  rewrite Hd. cbn [bind]. rewrite Hk. cbn [negb returnIf bind].
  rewrite Hcl. cbn [returnIf bind]. reflexivity.
Qed.

(** Before the generation call the handler rejects with 400 or 500 and a
    message, or is ready. *)
Lemma POST_rejection_detail (w : World) (request : Request) :
  (exists r msg ts, r = {| Next.status := Next.status r; body := ErrorBody msg ts |} /\
     msg <> EmptyString /\ (Next.status r = 400 \/ Next.status r = 500) /\
     forall w', GEMINI_API_KEY w' = GEMINI_API_KEY w ->
                clientThrows w' = clientThrows w -> now w' = now w ->
                POST w' request = Return r) \/
  (exists d, ready w request d).
Proof.
  destruct (match contentType request with
            | Some ct => includes "application/json" ct
            | None => false
            end) eqn:Hct.
  2:{ left. exists (jsonError "Content-Type must be application/json" 400).
      eexists; eexists. split; [reflexivity |]. split; [discriminate |].
      split; [now left |]. intros w' _ _ _. unfold POST. now rewrite Hct. }
  destruct (json request) as [| | v] eqn:Hj.
  { left. exists (jsonError "Invalid JSON format in request body" 400).
    eexists; eexists. split; [reflexivity |]. split; [discriminate |].
    split; [now left |]. intros w' _ _ _. unfold POST. now rewrite Hct, Hj. }
  { left. exists (unexpected (now w)).
    eexists; eexists. split; [reflexivity |]. split; [discriminate |].
    split; [now right |]. intros w' _ _ E. unfold POST. now rewrite Hct, Hj, E. }
  destruct (checkDescription_total v) as [[msg [Hm E]] | [d E]].
  { left. exists (jsonError msg 400).
    eexists; eexists. split; [reflexivity |]. split; [exact Hm |].
    split; [now left |]. intros w' _ _ _. unfold POST. now rewrite Hct, Hj, E. }
  destruct (truthy (GEMINI_API_KEY w)) eqn:Hk.
  2:{ left. exists (jsonError "AI service is not properly configured" 500).
      eexists; eexists. split; [reflexivity |]. split; [discriminate |].
      split; [now right |]. intros w' Ek _ _. unfold POST.
      rewrite Hct, Hj, E, Ek. cbn [negb returnIf bind]. now rewrite Hk. }
  destruct (clientThrows w (orElse (GEMINI_API_KEY w) EmptyString)) eqn:Hcl.
  { left. exists (jsonError "Failed to initialize AI service" 500).
    eexists; eexists. split; [reflexivity |]. split; [discriminate |].
    split; [now right |]. intros w' Ek Ec _. unfold POST.
    rewrite Hct, Hj, E, Ek, Ec. cbn [negb returnIf bind]. rewrite Hk.
    cbn [negb returnIf bind]. now rewrite Hcl. }
  right. exists d.
  pose proof (checkDescription_continue _ _ E) as [-> _].
  destruct (contentType request) as [ct|] eqn:Ect; [| discriminate].
  split; [exists ct; split; [exact Ect | exact Hct] |].
  repeat split; assumption.
Qed.

(** X12: a request whose content type is not JSON, whose body does not
    parse, or whose description is missing, not a string, blank or longer
    than 1000 characters is answered 400 with a message that the request
    alone fixes, on every server, configured or not: the request checks
    come before the key check. *)
Theorem invalid_suggestion_request_rejected (request : Request)
    (Hbad : (forall ct, contentType request = Some ct ->
                        includes "application/json" ct = false) \/
            json request = BodyThrows \/
            (exists v, json request = BodyValue v /\
               forall s, v = VString s -> isBlank s = true \/ (1000 < length s)%nat)) :
  exists msg, msg <> EmptyString /\
    forall w : World,
      POST w request = Return (jsonError msg (categoryStatus validation)).
Proof.
  destruct (match contentType request with
            | Some ct => includes "application/json" ct
            | None => false
            end) eqn:Hct.
  2:{ eexists. split; [| intros w; unfold POST; rewrite Hct; reflexivity].
      discriminate. }
  destruct Hbad as [Hbad | [Hbad | (v & Hj & Hbad)]].
  - destruct (contentType request) as [ct|]; [| discriminate].
    rewrite (Hbad ct eq_refl) in Hct. discriminate.
  - eexists. split; [| intros w; unfold POST; rewrite Hct, Hbad; reflexivity].
    discriminate.
  - destruct (checkDescription_total v) as [[msg [Hm E]] | [d E]].
    + exists msg. split; [exact Hm |].
      intros w. unfold POST. now rewrite Hct, Hj, E.
    + exfalso. apply checkDescription_continue in E as (-> & Hb & Hl).
      unfold isBlank in Hbad. destruct (Hbad d eq_refl); [congruence | lia].
Qed.

Lemma invalid_suggestion_request_rejected_witness :
  exists msg, msg <> EmptyString /\
    forall w : World,
      POST w (Samples.describing "   ") = Return (jsonError msg 400).
Proof.
  apply (invalid_suggestion_request_rejected (Samples.describing "   ")).
  right. right. eexists. split; [reflexivity |].
  intros s [= <-]. left. reflexivity.
Defined.

(** X13: a well-formed request is answered 500 when the key is missing or
    the client cannot be built, before any generation call; a body that
    is the JSON value null is answered 500 by the outer handler. *)
Theorem suggestion_service_unavailable (w : World) (request : Request) :
  (forall ct d,
     contentType request = Some ct -> includes "application/json" ct = true ->
     json request = BodyValue (VString d) ->
     checkDescription (VString d) = Continue d ->
     (truthy (GEMINI_API_KEY w) = false ->
      POST w request =
      Return (jsonError "AI service is not properly configured"
                (categoryStatus internal))) /\
     (truthy (GEMINI_API_KEY w) = true ->
      clientThrows w (orElse (GEMINI_API_KEY w) EmptyString) = true ->
      POST w request =
      Return (jsonError "Failed to initialize AI service" (categoryStatus internal)))) /\
  (forall ct,
     contentType request = Some ct -> includes "application/json" ct = true ->
     json request = BodyNull ->
     POST w request = Return (unexpected (now w))).
Proof.
  split.
  - intros ct d Hct Hinc Hj Hd. split.
    + intros Hk. unfold POST. rewrite Hct, Hinc, Hj. cbn [negb returnIf bind].
      rewrite Hd. cbn [bind]. now rewrite Hk.
    + intros Hk Hcl. unfold POST. rewrite Hct, Hinc, Hj. cbn [negb returnIf bind].
      rewrite Hd. cbn [bind]. rewrite Hk. cbn [negb returnIf bind]. now rewrite Hcl.
  - intros ct Hct Hinc Hj. unfold POST. now rewrite Hct, Hinc, Hj.
Qed.

Lemma suggestion_service_unavailable_witness :
  POST {| GEMINI_API_KEY := None; clientThrows := fun _ => false;
          generateContent := fun _ _ => GenerateResolves None; now := 0 |}
       (Samples.describing "shop") =
  Return (jsonError "AI service is not properly configured" 500).
Proof.
  refine (proj1 (proj1 (suggestion_service_unavailable
                          {| GEMINI_API_KEY := None; clientThrows := fun _ => false;
                             generateContent := fun _ _ => GenerateResolves None;
                             now := 0 |}
                          (Samples.describing "shop"))
                   "application/json" "shop" eq_refl eq_refl eq_refl eq_refl) eq_refl).
Defined.

(** X14: a failed generation call is answered by the status of the
    failure: 429 as 429, 401 and 403 as 500, 400 as 400, and anything else,
    a failure without status included, as 503. *)
Theorem generation_failure_mapping (w : World) (request : Request) (d : string)
    (st : option Z)
    (Hready : ready w request d)
    (Hcall : generateContent w "gemini-2.5-flash" (fullPrompt d) = GenerateRejects st) :
  (st = Some 429 ->
   POST w request =
   Return (jsonError "AI service is currently busy. Please try again later."
             (categoryStatus upstream_rate_limited))) /\
  (st = Some 401 \/ st = Some 403 ->
   POST w request =
   Return (jsonError "AI service authentication failed" (categoryStatus upstream_auth))) /\
  (st = Some 400 ->
   POST w request =
   Return (jsonError "Invalid request to AI service" (categoryStatus validation))) /\
  (st <> Some 429 -> st <> Some 401 -> st <> Some 403 -> st <> Some 400 ->
   POST w request =
   Return (jsonError "AI service is temporarily unavailable"
             (categoryStatus upstream_unavailable))).
Proof.
  rewrite (POST_ready _ _ _ Hready), Hcall. unfold generateFailure.
  repeat match goal with |- _ /\ _ => split end.
  - now intros ->.
  - now intros [-> | ->].
  - now intros ->.
  - intros H1 H2 H3 H4. destruct st as [n|]; [| reflexivity].
    assert (E1 : (n =? 429) = false) by (apply Z.eqb_neq; congruence).
    assert (E2 : (n =? 401) = false) by (apply Z.eqb_neq; congruence).
    assert (E3 : (n =? 403) = false) by (apply Z.eqb_neq; congruence).
    assert (E4 : (n =? 400) = false) by (apply Z.eqb_neq; congruence).
    now rewrite E1, E2, E3, E4.
Qed.

Lemma generation_failure_mapping_witness :
  POST (Samples.generating (GenerateRejects None)) (Samples.describing "shop") =
  Return (jsonError "AI service is temporarily unavailable" 503).
Proof.
  assert (Hr : ready (Samples.generating (GenerateRejects None))
                     (Samples.describing "shop") "shop").
  { split; [exists "application/json"; split; reflexivity |]. repeat split. }
  refine (proj2 (proj2 (proj2 (generation_failure_mapping
                                 (Samples.generating (GenerateRejects None))
                                 (Samples.describing "shop") "shop" None Hr eq_refl)))
            _ _ _ _); discriminate.
Defined.

Lemma responseStep_answers (now : Z) (response : option TextResult) :
  (exists msg, msg <> EmptyString /\
     responseStep now response = Return (jsonError msg 500)) \/
  (exists s, isEmpty (trim s) = false /\
     responseStep now response = Return (jsonOk (AiBody (trim s) (timestamp now)))).
Proof.
  unfold responseStep, returnIf, bind.
  destruct response as [[| [| | b | n | s |]]|];
    try (left; eexists; split; [| reflexivity]; discriminate).
  - destruct b; simpl; left; eexists; (split; [| reflexivity]); discriminate.
  - simpl. destruct (n =? 0); simpl; left; eexists; (split; [| reflexivity]);
      discriminate.
  - destruct s as [|c s]; simpl truthyValue; simpl negb; cbv iota;
      [left; eexists; split; [| reflexivity]; discriminate |].
    rewrite length_zero. destruct (isEmpty (trim (String c s))) eqn:E.
    + left; eexists; split; [| reflexivity]; discriminate.
    + right. exists (String c s). split; [exact E | reflexivity].
Qed.

(** Every answer of the suggestion handler, by kind. *)
Lemma POST_answers (w : World) (request : Request) (r : NextResponse) :
  POST w request = Return r ->
  (exists msg ts, r = {| Next.status := Next.status r; body := ErrorBody msg ts |} /\
                  msg <> EmptyString /\ In (Next.status r) [400; 429; 500; 503]) \/
  (exists s, r = jsonOk (AiBody (trim s) (timestamp (now w))) /\
             trim s <> EmptyString).
Proof.
  intros H.
  destruct (POST_rejection_detail w request)
    as [(r' & msg & ts & Er & Hm & Hst & E) | [d Hr]].
  { rewrite (E w eq_refl eq_refl eq_refl) in H. injection H as <-.
    left. exists msg, ts. split; [exact Er | split; [exact Hm |]].
    destruct Hst as [-> | ->]; simpl; tauto. }
  rewrite (POST_ready _ _ _ Hr) in H.
  destruct (generateContent w _ _) as [st | response].
  { injection H as <-. left. unfold generateFailure.
    repeat match goal with
           | |- context [if ?b then _ else _] => destruct b
           end;
      eexists; eexists; (split; [reflexivity | split; [discriminate | simpl; tauto]]). }
  destruct (responseStep_answers (now w) response) as [(msg & Hm & E) | (s & Hs & E)];
    rewrite E in H; injection H as <-.
  - left. exists msg, None. split; [reflexivity | split; [exact Hm | simpl; tauto]].
  - right. exists s. split; [reflexivity | now apply isEmpty_false].
Qed.

(** X15: every answer of the suggestion handler has one of the statuses
    200, 400, 429, 500, 503; an answer other than 200 carries a non-empty
    error message, and a 200 answer carries a non-empty text without
    surrounding white space, with the time stamp of the clock. *)
Theorem POST_response_shape (w : World) (request : Request) (r : NextResponse)
    (Hanswer : POST w request = Return r) :
  In (Next.status r) [200; 400; 429; 500; 503] /\
  match body r with
  | ErrorBody msg _ => Next.status r <> 200 /\ msg <> EmptyString
  | AiBody text ts =>
      Next.status r = 200 /\ text <> EmptyString /\ trim text = text /\
      ts = timestamp (now w)
  | _ => False
  end.
Proof.
  destruct (POST_answers _ _ _ Hanswer) as [(msg & ts & -> & Hm & Hst) | (s & -> & Hs)].
  - simpl in *. split; [tauto |]. split; [| exact Hm].
    intros E. rewrite E in Hst. repeat destruct Hst as [Hst | Hst]; try discriminate; auto.
  - simpl. split; [tauto |]. repeat split; try assumption. apply trim_idempotent.
Qed.

Lemma POST_response_shape_witness :
  In (Next.status (jsonOk (AiBody "a.com" "1970-01-01T00:00:00.000Z")))
     [200; 400; 429; 500; 503].
Proof.
  exact (proj1 (POST_response_shape
                  (Samples.generating
                     (GenerateResolves (Some (TextValue (VString "  a.com  ")))))
                  (Samples.describing "shop")
                  (jsonOk (AiBody "a.com" "1970-01-01T00:00:00.000Z")) eq_refl)).
Defined.

Lemma ready_promptText (w : World) (request : Request) (d : string) :
  ready w request d -> promptText (trim d) = true.
Proof.
  intros (_ & _ & Hd & _).
  apply checkDescription_continue in Hd as (_ & Hb & Hl).
  unfold promptText. rewrite Hb, trim_idempotent, String.eqb_refl. simpl.
  apply Nat.leb_le. pose proof (trim_length d). lia.
Qed.

(** X16: the handler consults the generation service at most once, with
    the model [gemini-2.5-flash] and the system prompt followed by a user
    text that is non-empty, trimmed and at most 1000 characters long: two
    servers with the same key, client and clock whose generation services
    agree on these calls answer every request alike. *)
Theorem generation_call_discipline (w w' : World) (request : Request)
    (Hkey : GEMINI_API_KEY w' = GEMINI_API_KEY w)
    (Hclient : clientThrows w' = clientThrows w)
    (Hclock : now w' = now w)
    (Hagree : forall t,
        promptText t = true ->
        generateContent w' "gemini-2.5-flash"
          (Utils.getSystemPrompt ++ ". User Prompt: " ++ t) =
        generateContent w "gemini-2.5-flash"
          (Utils.getSystemPrompt ++ ". User Prompt: " ++ t)) :
  POST w' request = POST w request.
Proof.
  destruct (POST_rejection_detail w request)
    as [(r' & msg & ts & _ & _ & _ & E) | [d Hr]].
  { now rewrite (E w' Hkey Hclient Hclock), (E w eq_refl eq_refl eq_refl). }
  assert (Hr' : ready w' request d).
  { destruct Hr as (H1 & H2 & H3 & H4 & H5).
    repeat split; try assumption; rewrite Hkey, ?Hclient; assumption. }
  rewrite (POST_ready _ _ _ Hr), (POST_ready _ _ _ Hr').
  unfold fullPrompt. rewrite (Hagree _ (ready_promptText _ _ _ Hr)), Hclock.
  reflexivity.
Qed.

Lemma generation_call_discipline_witness :
  POST {| GEMINI_API_KEY := Some "key"; clientThrows := fun _ => false;
          generateContent := fun model _ =>
            if (model =? "gemini-2.5-flash")%string
            then GenerateResolves (Some (TextValue (VString "shop.com")))
            else GenerateRejects None;
          now := 0 |}
       (Samples.describing "  shop ") =
  POST (Samples.generating (GenerateResolves (Some (TextValue (VString "shop.com")))))
       (Samples.describing "  shop ").
Proof.
  apply generation_call_discipline; try reflexivity.
Defined.

End PostFacts.

(** ** The form and the handlers together *)

Module PageFacts.
Import Js JsRegExp Next JsFacts JsStringFacts JsRegExpFacts DomainLookupFacts
       CleanDomainFacts Upstream.

Ltac by_code_units :=
  let c := fresh "c" in
  intros c; destruct c as [[] [] [] [] [] [] [] []]; vm_compute; intros; congruence.

Lemma formChar_lower_domainChar :
  forall c, Page.isAlnumDash c || Page.isDot c = true ->
            DomainLookup.isDomainChar (lowerChar c) = true.
Proof. by_code_units. Qed.

Lemma formChar_not_colon :
  forall c, Page.isAlnumDash c || Page.isDot c = true -> negb (Ascii.eqb c ":") = true.
Proof. by_code_units. Qed.

Lemma formChar_not_slash :
  forall c, Page.isAlnumDash c || Page.isDot c = true -> negb (Ascii.eqb c "/") = true.
Proof. by_code_units. Qed.

Lemma alnum_formChar :
  forall c, Page.isAlnum c = true -> Page.isAlnumDash c || Page.isDot c = true.
Proof. by_code_units. Qed.

Lemma alnumDash_formChar :
  forall c, Page.isAlnumDash c = true -> Page.isAlnumDash c || Page.isDot c = true.
Proof. by_code_units. Qed.

Lemma alpha_formChar :
  forall c, Page.isAlpha c = true -> Page.isAlnumDash c || Page.isDot c = true.
Proof. by_code_units. Qed.

Lemma dot_formChar :
  forall c, Page.isDot c = true -> Page.isAlnumDash c || Page.isDot c = true.
Proof. by_code_units. Qed.

Lemma isDot_eq : forall c, Page.isDot c = true -> c = "."%char.
Proof. by_code_units. Qed.

Lemma alnum_lower_not_dot :
  forall c, Page.isAlnum c = true -> Ascii.eqb (lowerChar c) "." = false.
Proof. by_code_units. Qed.

Lemma alpha_lower_not_dot :
  forall c, Page.isAlpha c = true -> negb (Ascii.eqb (lowerChar c) ".") = true.
Proof. by_code_units. Qed.

Lemma append_assoc (a b c : string) : (a ++ b) ++ c = a ++ b ++ c.
Proof. induction a as [|x a IH]; simpl; [reflexivity | now rewrite IH]. Qed.

Lemma toLowerCase_append (a b : string) :
  toLowerCase (a ++ b) = toLowerCase a ++ toLowerCase b.
Proof. induction a as [|c a IH]; simpl; [reflexivity | now rewrite IH]. Qed.

Lemma all_toLowerCase (p : ascii -> bool) (s : string) :
  all p (toLowerCase s) = all (fun c => p (lowerChar c)) s.
Proof. induction s as [|c s IH]; simpl; [reflexivity | now rewrite IH]. Qed.

Lemma includes_dot (a b : string) : includes "." (a ++ String "." b) = true.
Proof.
  induction a as [|c a IH].
  - simpl. destruct (ascii_dec "." "."); [| congruence]. now destruct b.
  - change (String c a ++ String "." b) with (String c (a ++ String "." b)).
    cbn [includes]. rewrite IH. apply orb_true_r.
Qed.

Lemma endsWith_dot_cons (c : ascii) (s : string) :
  endsWith "." (String c s) =
  match s with
  | EmptyString => Ascii.eqb c "."
  | _ => endsWith "." s
  end.
Proof.
  unfold endsWith. destruct s as [|c' s]; simpl.
  - destruct (Ascii.eqb_spec c "."); [subst; reflexivity |].
    destruct (String.eqb_spec (String c EmptyString) "."); congruence.
  - now rewrite Nat.sub_0_r.
Qed.

Lemma endsWith_dot_letters (v : string) :
  v <> EmptyString -> all (fun c => negb (Ascii.eqb c ".")) v = true ->
  endsWith "." v = false.
Proof.
  induction v as [|c v IH]; [congruence |].
  intros _ H. simpl in H. apply andb_prop in H as [Hc Hv].
  rewrite endsWith_dot_cons. destruct v as [|c' v].
  - now apply negb_true_iff.
  - apply IH; [discriminate | exact Hv].
Qed.

Lemma endsWith_dot_append (u v : string) :
  v <> EmptyString -> endsWith "." (u ++ v) = endsWith "." v.
Proof.
  intros Hv. induction u as [|c u IH]; [reflexivity |].
  change (String c u ++ v) with (String c (u ++ v)).
  rewrite endsWith_dot_cons.
  destruct (u ++ v) eqn:E; [| exact IH].
  apply append_empty in E as [_ E]. congruence.
Qed.

(** What a string matched by the pattern of the form looks like. *)
Lemma domainRegex_structure (s : string) :
  matches Page.domainRegex s ->
  all (fun c => Page.isAlnumDash c || Page.isDot c) s = true /\
  (exists a r, s = String a r /\ Page.isAlnum a = true) /\
  (exists u v, s = u ++ String "." v) /\
  (exists u v, s = u ++ v /\ v <> EmptyString /\ all Page.isAlpha v = true).
Proof.
  unfold Page.domainRegex. intros H.
  apply matches_cat in H as (s1 & x1 & -> & H1 & H).
  apply matches_cat in H as (s2 & x2 & -> & H2 & H).
  apply matches_cat in H as (s3 & x3 & -> & H3 & H).
  apply matches_cat in H as (s4 & s5 & -> & H4 & H5).
  apply matches_chars in H1 as [a [-> Ha]].
  apply matches_star_chars in H2, H3.
  apply matches_chars in H4 as [d [-> Hd]].
  pose proof (isDot_eq _ Hd) as ->.
  assert (T : exists u v, s5 = u ++ v /\ v <> EmptyString /\ all Page.isAlpha v = true /\
                          all (fun c => Page.isAlnumDash c || Page.isDot c) s5 = true).
  { inversion H5 as [| | | ? ? ? Ht | ? ? ? Ht | |]; subst.
    - apply matches_atLeastTwo_chars in Ht as [Ht Hne].
      exists EmptyString, s5. repeat split; try assumption.
      apply (all_impl Page.isAlpha); [apply alpha_formChar | exact Ht].
    - apply matches_cat in Ht as (t1 & y1 & -> & Ht1 & Ht).
      apply matches_cat in Ht as (t2 & t3 & -> & Ht2 & Ht3).
      apply matches_atLeastTwo_chars in Ht1 as [Ht1 _].
      apply matches_atLeastTwo_chars in Ht3 as [Ht3 Hne].
      apply matches_chars in Ht2 as [d' [-> Hd']].
      exists (t1 ++ String d' EmptyString), t3.
      split; [now rewrite append_assoc |].
      repeat split; try assumption.
      rewrite !all_append. simpl.
      rewrite (all_impl _ _ _ alpha_formChar Ht1), (all_impl _ _ _ alpha_formChar Ht3).
      now rewrite (dot_formChar _ Hd'). }
  destruct T as (u & v & -> & Hne & Hv & Hall).
  repeat split.
  - rewrite !all_append. simpl.
    rewrite (alnum_formChar _ Ha).
    rewrite (all_impl _ _ _ alnumDash_formChar H2).
    rewrite (all_impl _ _ _ alnum_formChar H3).
    rewrite all_append in Hall. now rewrite Hall.
  - simpl. eauto.
  - exists (String a EmptyString ++ s2 ++ s3), (u ++ v).
    now rewrite !append_assoc.
  - exists (String a EmptyString ++ s2 ++ s3 ++ String "." EmptyString ++ u), v.
    repeat split; try assumption.
    now rewrite !append_assoc.
Qed.

Lemma startsWith_dot_cons (x : ascii) (y : string) :
  x <> "."%char -> startsWith "." (String x y) = false.
Proof.
  intros H. unfold startsWith. cbn [prefix].
  destruct (ascii_dec "." x); [congruence | reflexivity].
Qed.

(** The handler's view of a domain that the form has matched. *)
Lemma matched_domain_clean (t : string) :
  matches Page.domainRegex t ->
  DomainLookup.cleanAndCheck t = Normal (toLowerCase t).
Proof.
  intros H. apply domainRegex_structure in H
    as (Hall & (a & r & Ea & Ha) & (u & v & Ed) & (u' & v' & Ev & Hne & Hv)).
  assert (Hdom : all DomainLookup.isDomainChar (toLowerCase t) = true).
  { rewrite all_toLowerCase.
    apply (all_impl (fun c => Page.isAlnumDash c || Page.isDot c));
      [apply formChar_lower_domainChar | exact Hall]. }
  assert (Hclean : DomainLookup.cleanDomainOf t = toLowerCase t).
  { unfold DomainLookup.cleanDomainOf.
    rewrite stripScheme_no_colon
      by (apply (all_impl (fun c => Page.isAlnumDash c || Page.isDot c));
          [apply formChar_not_colon | exact Hall]).
    rewrite splitHead_clean
      by (apply (all_impl (fun c => Page.isAlnumDash c || Page.isDot c));
          [apply formChar_not_slash | exact Hall]).
    apply trim_clean.
    apply (all_impl DomainLookup.isDomainChar);
      [apply domainChar_not_space | exact Hdom]. }
  assert (Hempty : isEmpty (toLowerCase t) = false) by (rewrite Ea; reflexivity).
  assert (Hinc : includes "." (toLowerCase t) = true).
  { rewrite Ed, toLowerCase_append.
    change (toLowerCase (String "." v)) with (String "." (toLowerCase v)).
    apply includes_dot. }
  assert (Hstart : startsWith "." (toLowerCase t) = false).
  { rewrite Ea. apply startsWith_dot_cons.
    intros E. pose proof (alnum_lower_not_dot _ Ha) as N.
    rewrite E in N. discriminate N. }
  assert (Hend : endsWith "." (toLowerCase t) = false).
  { rewrite Ev, toLowerCase_append.
    assert (Hne' : toLowerCase v' <> EmptyString)
      by (destruct v'; [congruence | discriminate]).
    rewrite (endsWith_dot_append _ _ Hne').
    apply endsWith_dot_letters; [exact Hne' |].
    rewrite all_toLowerCase.
    apply (all_impl Page.isAlpha); [apply alpha_lower_not_dot | exact Hv]. }
  unfold DomainLookup.cleanAndCheck. rewrite Hclean.
  rewrite Hempty, length_zero, Hempty, Hinc, Hstart, Hend. simpl.
  unfold DomainLookup.domainRegex. now rewrite Hempty, Hdom.
Qed.

Lemma form_valid_domain (domain : string) :
  Page.isValid (Page.validateDomain domain) = true ->
  isEmpty (trim domain) = false /\ length (trim domain) <= 253 /\
  matches Page.domainRegex (trim domain).
Proof.
  unfold Page.validateDomain. cbv zeta.
  destruct (isEmpty (trim domain)); [discriminate |].
  destruct (Page.MAX_DOMAIN_LENGTH <? length (trim domain))%nat eqn:L; [discriminate |].
  destruct (test Page.domainRegex (trim domain)) eqn:T; [| discriminate].
  intros _. apply Nat.ltb_ge in L. apply test_matches in T. auto.
Qed.

(** X17: every domain the form accepts is accepted by the handler of a
    configured server: the request the form sends passes all checks, and
    its clean domain is the trimmed input in lower case (the form admits
    no scheme and no path, so nothing is stripped). *)
Theorem form_domain_accepted
    (domain : string) (infoType : Page.InfoType) (w : DomainLookup.World)
    (Hvalid : Page.isValid (Page.validateDomain domain) = true)
    (Hkey : truthy (DomainLookup.WHOIS_API_KEY w) = true) :
  exists request,
    Page.lookupRequest domain infoType = Some request /\
    DomainLookup.accepted w request (toLowerCase (trim domain))
      (Page.infoTypeString infoType).
Proof.
  pose proof (form_valid_domain _ Hvalid) as (Hne & Hlen & Hm).
  eexists. split.
  - unfold Page.lookupRequest. rewrite Hvalid. reflexivity.
  - split; [exact Hkey |]. simpl. split.
    + unfold DomainLookup.validateDomain.
      rewrite checkDomainParam_accepts
        by (rewrite ?trim_idempotent; assumption).
      simpl. unfold DomainLookup.cleanDomainStep.
      now rewrite (matched_domain_clean _ Hm).
    + now destruct infoType.
Qed.

Lemma form_domain_accepted_witness :
  exists request,
    Page.lookupRequest "  Example.COM " Page.contactType = Some request /\
    DomainLookup.accepted (Samples.answering Samples.teapot) request
      "example.com" "contact".
Proof.
  exact (form_domain_accepted "  Example.COM " Page.contactType
           (Samples.answering Samples.teapot) eq_refl eq_refl).
Defined.

Lemma checkDescription_accepts (d : string) :
  isEmpty (trim d) = false -> length d <= 1000 ->
  AiLookup.checkDescription (AiLookup.VString d) = Continue d.
Proof.
  intros Hne Hlen. unfold AiLookup.checkDescription, returnIf, bind.
  destruct d as [|c r]; [discriminate Hne |].
  simpl AiLookup.truthyValue. simpl negb. cbv iota.
  rewrite length_zero, Hne. apply Nat.ltb_ge in Hlen. now rewrite Hlen.
Qed.

(** X18: every description the form accepts is accepted by the
    suggestion handler of a configured server: the request the form sends
    passes all checks, and the user text of the prompt is the trimmed
    description. *)
Theorem form_description_accepted
    (aiDescription : string) (w : AiLookup.World)
    (Hvalid : Page.isValid (Page.validateAiDescription aiDescription) = true)
    (Hkey : truthy (AiLookup.GEMINI_API_KEY w) = true)
    (Hclient : AiLookup.clientThrows w
                 (orElse (AiLookup.GEMINI_API_KEY w) EmptyString) = false) :
  exists request,
    Page.suggestionRequest aiDescription = Some request /\
    ready w request (trim aiDescription) /\
    fullPrompt (trim aiDescription) =
      Utils.getSystemPrompt ++ ". User Prompt: " ++ trim aiDescription.
Proof.
  assert (H : isEmpty (trim aiDescription) = false /\
              length (trim aiDescription) <= 1000).
  { revert Hvalid. unfold Page.validateAiDescription. cbv zeta.
    destruct (isEmpty (trim aiDescription)); [discriminate |].
    destruct (Page.MAX_AI_DESCRIPTION_LENGTH <? _)%nat eqn:L; [discriminate |].
    intros _. apply Nat.ltb_ge in L. auto. }
  destruct H as [Hne Hlen].
  eexists. split; [| split].
  - unfold Page.suggestionRequest. rewrite Hvalid. reflexivity.
  - split; [exists "application/json"; split; reflexivity |].
    split; [reflexivity |]. split; [| split; assumption].
    apply checkDescription_accepts; [now rewrite trim_idempotent | exact Hlen].
  - unfold fullPrompt. now rewrite trim_idempotent.
Qed.

Lemma form_description_accepted_witness :
  exists request,
    Page.suggestionRequest "  a shop for bikes " = Some request /\
    ready (Samples.generating (AiLookup.GenerateRejects None)) request
      "a shop for bikes".
Proof.
  destruct (form_description_accepted "  a shop for bikes "
              (Samples.generating (AiLookup.GenerateRejects None))
              eq_refl eq_refl eq_refl) as (request & H1 & H2 & _).
  exists request. split; assumption.
Defined.

End PageFacts.

(** ** Dates through [toISOString] and back *)

Module DateRoundTrip.
Import Js JsDate JsFacts JsDateFacts UtilsFacts.
Local Open Scope Z_scope.

Lemma yoe_range (doe : Z) :
  0 <= doe < 146097 ->
  let yoe := (doe - doe / 1460 + doe / 36524 - doe / 146096) / 365 in
  let doy := doe - (365 * yoe + yoe / 4 - yoe / 100) in
  0 <= yoe <= 399 /\ 0 <= doy <= 365.
Proof. intros H. cbv zeta. Z.to_euclidean_division_equations. lia. Qed.

Lemma leap_day (doe : Z) :
  0 <= doe < 146097 ->
  let yoe := (doe - doe / 1460 + doe / 36524 - doe / 146096) / 365 in
  let doy := doe - (365 * yoe + yoe / 4 - yoe / 100) in
  doy = 365 ->
  ((yoe + 1) mod 4 = 0 /\ (yoe + 1) mod 100 <> 0) \/ (yoe + 1) mod 400 = 0.
Proof. intros H. cbv zeta. Z.to_euclidean_division_equations. lia. Qed.

Lemma month_day (doy : Z) :
  0 <= doy <= 365 ->
  let mp := (5 * doy + 2) / 153 in
  let d := doy - (153 * mp + 2) / 5 + 1 in
  0 <= mp <= 11 /\ 1 <= d /\
  (mp = 0 \/ mp = 2 \/ mp = 4 \/ mp = 5 \/ mp = 7 \/ mp = 9 \/ mp = 10 -> d <= 31) /\
  (mp = 1 \/ mp = 3 \/ mp = 6 \/ mp = 8 -> d <= 30) /\
  (mp = 11 -> d <= 29 /\ (doy < 365 -> d <= 28)).
Proof. intros H. cbv zeta. Z.to_euclidean_division_equations. lia. Qed.

Lemma isLeap_shift (a era : Z) :
  ((a mod 4 = 0 /\ a mod 100 <> 0) \/ a mod 400 = 0) ->
  isLeap (a + era * 400) = true.
Proof.
  intros H. unfold isLeap.
  assert (E4 : (a + era * 400) mod 4 = a mod 4)
    by (Z.to_euclidean_division_equations; lia).
  assert (E100 : (a + era * 400) mod 100 = a mod 100)
    by (Z.to_euclidean_division_equations; lia).
  assert (E400 : (a + era * 400) mod 400 = a mod 400)
    by (Z.to_euclidean_division_equations; lia).
  rewrite E4, E100, E400.
  destruct H as [[H4 H100] | H400].
  - apply Z.eqb_eq in H4. apply Z.eqb_neq in H100. now rewrite H4, H100.
  - apply Z.eqb_eq in H400. rewrite H400. apply orb_true_r.
Qed.

(** The civil date of a day number is a date of the calendar, and its day
    number is the one it came from. *)
Lemma civil_round_trip (n : Z) :
  let '(y, m, d) := civilFromDays n in
  1 <= m <= 12 /\ 1 <= d <= daysInMonth y m /\ daysFromCivil y m d = n /\
  (- 100000000 <= n <= 100000000 -> - 275000 <= y <= 276000).
Proof.
  unfold civilFromDays. cbv zeta.
  set (z := n + 719468). set (era := z / 146097). set (doe := z - era * 146097).
  assert (Hdoe : 0 <= doe < 146097)
    by (subst doe era; Z.to_euclidean_division_equations; lia).
  pose proof (yoe_range doe Hdoe) as Hy. pose proof (leap_day doe Hdoe) as Hl.
  cbv zeta in Hy, Hl.
  set (yoe := (doe - doe / 1460 + doe / 36524 - doe / 146096) / 365) in *.
  set (doy := doe - (365 * yoe + yoe / 4 - yoe / 100)) in *.
  destruct Hy as [Hyoe Hdoy].
  pose proof (month_day doy Hdoy) as Hm. cbv zeta in Hm.
  set (mp := (5 * doy + 2) / 153) in *.
  set (d := doy - (153 * mp + 2) / 5 + 1) in *.
  destruct Hm as (Hmp & Hd1 & H31 & H30 & H29).
  assert (Hera : (yoe + era * 400) / 400 = era)
    by (Z.to_euclidean_division_equations; lia).
  assert (Hyear : - 100000000 <= n <= 100000000 -> - 272000 <= era * 400 <= 275600)
    by (subst era z; intros; Z.to_euclidean_division_equations; lia).
  destruct (mp <? 10) eqn:E.
  - apply Z.ltb_lt in E.
    assert (Em : (mp + 3 <=? 2) = false) by (apply Z.leb_gt; lia).
    rewrite Em. rewrite Z.add_0_r.
    split; [lia |]. split; [| split].
    + split; [lia |]. unfold daysInMonth.
      assert (E2 : (mp + 3 =? 2) = false) by (apply Z.eqb_neq; lia).
      rewrite E2.
      destruct (Z.eqb_spec (mp + 3) 4); [simpl; apply H30; lia |].
      destruct (Z.eqb_spec (mp + 3) 6); [simpl; apply H30; lia |].
      destruct (Z.eqb_spec (mp + 3) 9); [simpl; apply H30; lia |].
      destruct (Z.eqb_spec (mp + 3) 11); [simpl; apply H30; lia |].
      simpl. apply H31. lia.
    + unfold daysFromCivil. cbv zeta. rewrite Em, Hera.
      assert (E3 : (2 <? mp + 3) = true) by (apply Z.ltb_lt; lia).
      rewrite E3.
      replace (mp + 3 - 3) with mp by lia.
      replace (yoe + era * 400 - era * 400) with yoe by lia.
      unfold d, doy, doe, z. lia.
    + intros Hn. specialize (Hyear Hn). lia.
  - apply Z.ltb_ge in E.
    assert (Em : (mp - 9 <=? 2) = true) by (apply Z.leb_le; lia).
    rewrite Em.
    split; [lia |]. split; [| split].
    + split; [lia |]. unfold daysInMonth.
      destruct (Z.eqb_spec (mp - 9) 2) as [E2 | E2].
      * assert (mp = 11) by lia.
        destruct (H29 H) as [Hd29 Hd28].
        destruct (isLeap (yoe + era * 400 + 1)) eqn:L; [exact Hd29 |].
        apply Hd28.
        destruct (Z.eq_dec doy 365) as [E365 | N365]; [| lia].
        exfalso. apply Hl in E365.
        apply (isLeap_shift (yoe + 1) era) in E365.
        replace (yoe + 1 + era * 400) with (yoe + era * 400 + 1) in E365 by lia.
        congruence.
      * assert (mp = 10) by lia.
        assert (E4 : (mp - 9 =? 4) = false) by (apply Z.eqb_neq; lia).
        assert (E6 : (mp - 9 =? 6) = false) by (apply Z.eqb_neq; lia).
        assert (E9 : (mp - 9 =? 9) = false) by (apply Z.eqb_neq; lia).
        assert (E11 : (mp - 9 =? 11) = false) by (apply Z.eqb_neq; lia).
        rewrite E4, E6, E9, E11. simpl. apply H31. lia.
    + unfold daysFromCivil. cbv zeta. rewrite Em.
      replace (yoe + era * 400 + 1 - 1) with (yoe + era * 400) by lia.
      rewrite Hera.
      assert (E3 : (2 <? mp - 9) = false) by (apply Z.ltb_ge; lia).
      rewrite E3.
      replace (mp - 9 + 9) with mp by lia.
      replace (yoe + era * 400 - era * 400) with yoe by lia.
      unfold d, doy, doe, z. lia.
    + intros Hn. specialize (Hyear Hn). lia.
Qed.

Lemma digitVal_digit (n : Z) : digitVal (digit n) = n mod 10.
Proof.
  unfold digit.
  pose proof (Z.mod_pos_bound n 10 ltac:(lia)) as H.
  assert (Hk : n mod 10 = 0 \/ n mod 10 = 1 \/ n mod 10 = 2 \/ n mod 10 = 3 \/
               n mod 10 = 4 \/ n mod 10 = 5 \/ n mod 10 = 6 \/ n mod 10 = 7 \/
               n mod 10 = 8 \/ n mod 10 = 9) by lia.
  repeat destruct Hk as [Hk | Hk]; rewrite Hk; reflexivity.
Qed.

Ltac read_digits :=
  repeat (cbn [digits pad append]; rewrite ?isDigit_digit);
  rewrite ?digitVal_digit.

Lemma digits2_pad (n : Z) (rest : string) :
  0 <= n <= 99 -> digits 2 0 (pad 2 n ++ rest)%string = Some (n, rest).
Proof.
  intros H. read_digits. f_equal. f_equal.
  Z.to_euclidean_division_equations. lia.
Qed.

Lemma digits4_pad (n : Z) (rest : string) :
  0 <= n <= 9999 -> digits 4 0 (pad 4 n ++ rest)%string = Some (n, rest).
Proof.
  intros H. read_digits. f_equal. f_equal.
  Z.to_euclidean_division_equations. lia.
Qed.

Lemma digits6_pad (n : Z) (rest : string) :
  0 <= n <= 999999 -> digits 6 0 (pad 6 n ++ rest)%string = Some (n, rest).
Proof.
  intros H. read_digits. f_equal. f_equal.
  Z.to_euclidean_division_equations. lia.
Qed.

Lemma parseYear_digit :
  forall (c : ascii) (r : string),
    isDigit c = true -> parseYear (String c r) = digits 4 0 (String c r).
Proof.
  intros c r. destruct c as [[] [] [] [] [] [] [] []]; intros H;
    try discriminate H; reflexivity.
Qed.

Lemma parseYear_yearString (y : Z) (rest : string) :
  - 999999 <= y <= 999999 ->
  parseYear (yearString y ++ rest)%string = Some (y, rest).
Proof.
  intros H. unfold yearString.
  destruct ((0 <=? y) && (y <=? 9999)) eqn:E.
  - apply andb_prop in E as [E1 E2]. apply Z.leb_le in E1, E2.
    rewrite <- (digits4_pad y rest) by lia.
    cbn [pad append]. apply parseYear_digit, isDigit_digit.
  - destruct (y <? 0) eqn:N.
    + apply Z.ltb_lt in N. cbn [append parseYear].
      rewrite digits6_pad by lia.
      assert (Z : (Z.abs y =? 0) = false) by (apply Z.eqb_neq; lia).
      rewrite Z. f_equal. f_equal. lia.
    + apply Z.ltb_ge in N. cbn [append parseYear].
      rewrite digits6_pad by lia. f_equal. f_equal. lia.
Qed.

Lemma append_nil_r (s : string) : (s ++ EmptyString)%string = s.
Proof. induction s as [|c s IH]; simpl; [reflexivity | now rewrite IH]. Qed.

(** The date part of an ISO string parses to the midnight (UTC) of its
    day. *)
Lemma isoParse_dateString (t : Z) :
  Z.abs t <= maxTime ->
  isoParse (dateString t) = Some (t / msPerDay * msPerDay) /\
  Z.abs (t / msPerDay * msPerDay) <= maxTime.
Proof.
  intros Ht. unfold maxTime, msPerDay in *.
  assert (Hn : - 100000000 <= t / 86400000 <= 100000000)
    by (Z.to_euclidean_division_equations; lia).
  split; [| Z.to_euclidean_division_equations; lia].
  unfold dateString, msPerDay.
  pose proof (civil_round_trip (t / 86400000)) as H.
  destruct (civilFromDays (t / 86400000)) as [[y m] d].
  destruct H as (Hm & Hd & Hrt & Hy). specialize (Hy Hn).
  assert (Hd31 : daysInMonth y m <= 31).
  { unfold daysInMonth.
    destruct (m =? 2); [destruct (isLeap y); lia |].
    destruct (_ || _); lia. }
  unfold isoParse.
  rewrite parseYear_yearString by lia.
  cbn [parseDashField append].
  rewrite digits2_pad by lia.
  cbn [parseDashField].
  rewrite <- (append_nil_r (pad 2 d)), digits2_pad by lia.
  assert (E : (1 <=? m) && (m <=? 12) && (1 <=? d) && (d <=? daysInMonth y m) = true).
  { repeat (apply andb_true_intro; split); apply Z.leb_le; lia. }
  rewrite E, Hrt. reflexivity.
Qed.

Lemma dateString_midnight (t : Z) :
  dateString (t / msPerDay * msPerDay) = dateString t.
Proof.
  unfold dateString. rewrite Z.div_mul by (unfold msPerDay; lia). reflexivity.
Qed.

(** Formatting the date part of an ISO string gives it back. *)
Lemma formatDate_dateString (engineParse : string -> option Z) (t : Z) :
  Z.abs t <= maxTime ->
  Utils.formatDate engineParse (Some (dateString t)) = dateString t.
Proof.
  intros Ht. destruct (isoParse_dateString t Ht) as [Hp Hc].
  rewrite (formatDate_valid _ _ (t / msPerDay * msPerDay)).
  - apply dateString_midnight.
  - apply dateString_nonempty.
  - unfold newDate. rewrite (parse_iso _ _ _ Hp). unfold timeClip.
    apply Z.leb_le in Hc. now rewrite Hc.
Qed.

Lemma newDate_range (engineParse : string -> option Z) (s : string) (t : Z) :
  newDate engineParse s = Some t -> Z.abs t <= maxTime.
Proof.
  unfold newDate. destruct (parse engineParse s) as [t'|]; [| discriminate].
  unfold timeClip. destruct (Z.abs t' <=? maxTime) eqn:E; [| discriminate].
  intros [= <-]. now apply Z.leb_le.
Qed.

(** X19: [formatDate] is idempotent: a date it has produced formats to
    itself (it parses to the UTC midnight of the same day), and so does
    the fallback token, which no engine reads as a date. *)
Theorem formatDate_idempotent (engineParse : string -> option Z)
    (Hfallback : engineParse "N/A" = None) (raw : option string) :
  Utils.formatDate engineParse (Some (Utils.formatDate engineParse raw)) =
  Utils.formatDate engineParse raw.
Proof.
  assert (Hna : Utils.formatDate engineParse (Some "N/A") = "N/A"%string).
  { apply formatDate_invalid. unfold newDate, parse.
    replace (isoParse "N/A") with (@None Z) by (vm_compute; reflexivity).
    now rewrite Hfallback. }
  destruct raw as [s|]; [| exact Hna].
  destruct s as [|c s]; [exact Hna |].
  destruct (newDate engineParse (String c s)) as [t|] eqn:Hd.
  - rewrite (formatDate_valid engineParse (String c s) t)
      by (exact Hd || discriminate).
    apply formatDate_dateString. now apply newDate_range in Hd.
  - rewrite (formatDate_invalid _ _ Hd). exact Hna.
Qed.

Lemma formatDate_result (engineParse : string -> option Z) (raw : option string) :
  Utils.formatDate engineParse raw = "N/A"%string \/
  exists t, Z.abs t <= maxTime /\ Utils.formatDate engineParse raw = dateString t.
Proof.
  destruct raw as [s|]; [| now left].
  destruct s as [|c s]; [now left |].
  destruct (newDate engineParse (String c s)) as [t|] eqn:Hd.
  - right. exists t. split; [now apply newDate_range in Hd |].
    apply formatDate_valid; [discriminate | exact Hd].
  - left. now apply formatDate_invalid.
Qed.

Lemma dateChar_not_space :
  forall c, isDateChar c = true -> negb (isWhiteSpace c) = true.
Proof.
  intros c; destruct c as [[] [] [] [] [] [] [] []]; vm_compute; intros; congruence.
Qed.

Lemma trim_dateString (t : Z) : trim (dateString t) = dateString t.
Proof.
  apply JsStringFacts.trim_clean.
  apply (all_impl isDateChar); [apply dateChar_not_space | apply dateString_chars].
Qed.

(** X21: the documented [formatDate] is idempotent as well: what it
    returns, a date of the form YYYY-MM-DD or the fallback token, formats
    to itself. *)
Theorem documented_formatDate_idempotent (engineParse : string -> option Z)
    (Hfallback : engineParse "N/A" = None) (raw : option string) :
  UtilsDocumented.formatDate engineParse
    (Some (UtilsDocumented.formatDate engineParse raw)) =
  UtilsDocumented.formatDate engineParse raw.
Proof.
  assert (Hna : Utils.formatDate engineParse (Some "N/A") = "N/A"%string).
  { apply formatDate_invalid. unfold newDate, parse.
    replace (isoParse "N/A") with (@None Z) by (vm_compute; reflexivity).
    now rewrite Hfallback. }
  assert (Hna' : UtilsDocumented.formatDate engineParse (Some "N/A") = "N/A"%string).
  { rewrite HelperFacts.documented_formatDate_equation. cbv zeta.
    change (trim "N/A") with "N/A"%string. now rewrite Hna. }
  rewrite (HelperFacts.documented_formatDate_equation engineParse raw).
  destruct raw as [s|]; [| exact Hna']. cbv zeta.
  destruct (UtilsDocumented.isDateFormat
              (Utils.formatDate engineParse (Some (trim s)))) eqn:F; [| exact Hna'].
  destruct (formatDate_result engineParse (Some (trim s))) as [E | (t & Ht & E)].
  { rewrite E in F. discriminate F. }
  rewrite E in *.
  rewrite HelperFacts.documented_formatDate_equation. cbv zeta.
  rewrite trim_dateString, (formatDate_dateString _ _ Ht). now rewrite F.
Qed.

Lemma documented_formatDate_idempotent_witness :
  UtilsDocumented.formatDate strictEngine
    (Some (UtilsDocumented.formatDate strictEngine (Some " 2024-02-29T23:30:00-05:00 "))) =
  UtilsDocumented.formatDate strictEngine (Some " 2024-02-29T23:30:00-05:00 ").
Proof.
  exact (documented_formatDate_idempotent strictEngine eq_refl
           (Some " 2024-02-29T23:30:00-05:00 ")).
Defined.

Lemma formatDate_idempotent_witness :
  Utils.formatDate strictEngine
    (Some (Utils.formatDate strictEngine (Some "2024-02-29T23:30:00-05:00"))) =
  Utils.formatDate strictEngine (Some "2024-02-29T23:30:00-05:00").
Proof.
  exact (formatDate_idempotent strictEngine eq_refl (Some "2024-02-29T23:30:00-05:00")).
Defined.

End DateRoundTrip.

(** ** The helpers on untyped values, and the two projections *)

Module ProjectionFacts.
Import Js JsDate Json Types Next DomainLookup JsFacts JsDateFacts UtilsFacts
       DomainLookupFacts GetFacts HelperFacts Reference.

(** *** JSON values *)

Lemma orValue_truthy (a : option value) (b : value) :
  toBoolean b = true -> toBoolean (orValue a b) = true.
Proof.
  intros Hb. destruct a as [x|]; simpl; [| exact Hb].
  destruct (toBoolean x) eqn:E; [exact E | exact Hb].
Qed.

Lemma orValue_orFallback (a : option value) (b : value) :
  orFallback a b (orValue a b).
Proof.
  split.
  - intros v -> Hv. simpl. now rewrite Hv.
  - destruct a as [x|]; simpl; [| reflexivity]. now intros ->.
Qed.


Lemma textsOf_strings (l : list string) : textsOf (map JStr l) = l.
Proof.
  unfold textsOf. induction l as [|h l IH]; simpl; [reflexivity |].
  now rewrite IH.
Qed.

(** *** The helpers of utils.ts on untyped values *)


Lemma formatHostnames_texts (l : list value) :
  UtilsJs.formatHostnames (Some (JArr l)) = Utils.formatHostnames (Some (textsOf l)).
Proof.
  unfold UtilsJs.formatHostnames, Utils.formatHostnames, joinValues, join, textsOf.
  now rewrite length_map.
Qed.


Lemma formatHostnames_typed (l : list string) :
  UtilsJs.formatHostnames (Some (ofStrings l)) = Utils.formatHostnames (Some l).
Proof. unfold ofStrings. now rewrite formatHostnames_texts, textsOf_strings. Qed.

Lemma get_ofContact (c : Contact) :
  get (ofContact c) "organization" = ofOptString (organization c) /\
  get (ofContact c) "name" = ofOptString (name c).
Proof.
  destruct c as [[?|] [?|] [?|] [?|] [?|] [?|] [?|] [?|] [?|] [?|] [?|]];
    split; reflexivity.
Qed.

Lemma getRegistrantName_typed (c : Contact) :
  UtilsJs.getRegistrantName (Some (ofContact c)) =
  JStr (Utils.getRegistrantName (Some c)).
Proof.
  unfold UtilsJs.getRegistrantName, Utils.getRegistrantName.
  destruct (get_ofContact c) as [-> ->].
  change (toBoolean (ofContact c)) with true. cbv iota. simpl negb. cbv iota.
  destruct (organization c) as [[|a o]|]; destruct (name c) as [[|b n]|]; reflexivity.
Qed.




Lemma resolver_contactNameOf (contact : option value) :
  contactNameOf contact (UtilsJs.getRegistrantName contact) /\
  toBoolean (UtilsJs.getRegistrantName contact) = true.
Proof.
  unfold UtilsJs.getRegistrantName. split; [split |].
  - destruct contact as [c|]; [| reflexivity]. simpl. now intros ->.
  - intros c -> Hc. rewrite Hc. simpl negb. cbv iota. split.
    + intros o Ho Hot. unfold orUndefined. rewrite Ho. simpl toBooleanOpt.
      rewrite Hot. simpl. now rewrite Hot.
    + intros Ho. unfold orUndefined. rewrite Ho. apply orValue_orFallback.
  - destruct contact as [c|]; [| reflexivity].
    destruct (toBoolean c); [| reflexivity]. simpl negb. cbv iota.
    now apply orValue_truthy.
Qed.

Lemma documented_resolver_typed (c : Contact) :
  UtilsDocumentedJs.getRegistrantName (Some (ofContact c)) =
  UtilsDocumented.getRegistrantName (Some c).
Proof.
  unfold UtilsDocumentedJs.getRegistrantName, UtilsDocumentedJs.resolve,
    UtilsDocumented.getRegistrantName, UtilsDocumented.trimmedNonEmpty.
  destruct (get_ofContact c) as [-> ->].
  change (toBoolean (ofContact c)) with true.
  change (typeofObject (ofContact c)) with true.
  cbn [negb orb].
  destruct (organization c) as [o|]; destruct (name c) as [n|];
    cbn [ofOptString option_map UtilsDocumentedJs.trimOpt UtilsDocumentedJs.nonEmpty];
    rewrite ?length_pos, ?andb_diag;
    repeat match goal with
           | |- context [negb (isEmpty ?x)] => destruct (negb (isEmpty x))
           end; reflexivity.
Qed.

(** A record as the provider documents it, projected. *)
Example registered_projection :
  domainInfo (libUtils strictEngine) Samples.registered "example.com" =
  {| di_domainName := JStr "example.com";
     di_registrar := JStr "Example Registrar, Inc.";
     di_registrationDate := "1995-08-14";
     di_expirationDate := "2030-08-13";
     di_estimatedDomainAge := JNum (Finite 11000 "11000");
     di_hostnames := "a.iana-servers.net, b...." |} /\
  contactInfo (libUtils strictEngine) Samples.registered =
  {| ci_registrantName := JStr "Example Org";
     ci_technicalContactName := JStr "T. Roe";
     ci_administrativeContactName := JStr "N/A";
     ci_contactEmail := JStr "admin@example.com" |} /\
  contactInfo (documentedUtils strictEngine) Samples.untyped =
  {| ci_registrantName := JStr "N/A";
     ci_technicalContactName := JStr "N/A";
     ci_administrativeContactName := JStr "N/A";
     ci_contactEmail := JBool true |}.
Proof. repeat split. Qed.

Lemma resolvers_same (contact : option value) :
  UtilsJs.getTechnicalContactName contact = UtilsJs.getRegistrantName contact /\
  UtilsJs.getAdministrativeContactName contact = UtilsJs.getRegistrantName contact.
Proof. split; reflexivity. Qed.


Lemma accepted_nonempty (w : World) (request : Request) (cleanDomain t : string) :
  accepted w request cleanDomain t -> cleanDomain <> EmptyString.
Proof.
  intros [_ [Hv _]].
  apply validateDomain_continue in Hv as [d [_ [_ [_ Hc]]]].
  apply cleanAndCheck_normal in Hc. tauto.
Qed.

(** *** The domain projection *)




(** *** The contact projection *)

(** X7: the [ContactInformation] of a successful contact lookup, field
    by field, in terms of the record the provider sent: each name is the
    fallback token when the record has no such contact, else the
    organization of the contact when that is truthy, else its name when
    truthy, else the fallback token; the e-mail is the upstream value
    when truthy, else the fallback token; no field is ever falsy; on a
    contact of the declared type the name is what the typed resolver
    gives. *)
Theorem contact_information_fields
    (engineParse : string -> option Z) (w : World) (request : Request)
    (ci : ContactInformation) (ts : string)
    (Hsuccess : GET (libUtils engineParse) w request = Return (jsonOk (ContactBody ci ts))) :
  exists cleanDomain r whoisRecord ErrorMessage,
    accepted w request cleanDomain "contact" /\
    fetch w WHOIS_BASE_URL (requestBody w cleanDomain) = FetchResolves r /\
    ok r = true /\
    r_json r = JsonObject (Some whoisRecord) ErrorMessage /\
    let upstream := get (recordValue whoisRecord) in
    contactNameOf (upstream "registrant") (ci_registrantName ci) /\
    contactNameOf (upstream "technicalContact") (ci_technicalContactName ci) /\
    contactNameOf (upstream "administrativeContact") (ci_administrativeContactName ci) /\
    orFallback (upstream "contactEmail") (JStr "N/A") (ci_contactEmail ci) /\
    toBoolean (ci_registrantName ci) = true /\
    toBoolean (ci_technicalContactName ci) = true /\
    toBoolean (ci_administrativeContactName ci) = true /\
    toBoolean (ci_contactEmail ci) = true /\
    (forall c : Contact, upstream "registrant" = Some (ofContact c) ->
       ci_registrantName ci = JStr (Utils.getRegistrantName (Some c))) /\
    (forall c : Contact, upstream "technicalContact" = Some (ofContact c) ->
       ci_technicalContactName ci = JStr (Utils.getTechnicalContactName (Some c))) /\
    (forall c : Contact, upstream "administrativeContact" = Some (ofContact c) ->
       ci_administrativeContactName ci =
       JStr (Utils.getAdministrativeContactName (Some c))).
Proof.
  apply GET_ok_inversion in Hsuccess
    as (c & t & r & rec & em & Hacc & Hf & Hok & Hj & [[_ Hb] | [-> Hb]]);
    [discriminate Hb |].
  injection Hb as -> _.
  exists c, r, rec, em.
  refine (conj Hacc (conj Hf (conj Hok (conj Hj _)))).
  cbv zeta. unfold contactInfo.
  cbn [ci_registrantName ci_technicalContactName ci_administrativeContactName
       ci_contactEmail getRegistrantName getTechnicalContactName
       getAdministrativeContactName libUtils].
  refine (conj _ (conj _ (conj _ (conj _ (conj _ (conj _ (conj _ (conj _
         (conj _ (conj _ _)))))))))).
  - apply resolver_contactNameOf.
  - apply (resolver_contactNameOf (get (recordValue rec) "technicalContact")).
  - apply (resolver_contactNameOf (get (recordValue rec) "administrativeContact")).
  - apply orValue_orFallback.
  - apply resolver_contactNameOf.
  - apply (resolver_contactNameOf (get (recordValue rec) "technicalContact")).
  - apply (resolver_contactNameOf (get (recordValue rec) "administrativeContact")).
  - now apply orValue_truthy.
  - intros k ->. apply getRegistrantName_typed.
  - intros k ->. apply (getRegistrantName_typed k).
  - intros k ->. apply (getRegistrantName_typed k).
Qed.

Lemma contact_information_fields_witness :
  GET (libUtils strictEngine)
      (Samples.answering (Samples.okWith (JsonObject (Some Samples.untyped) None)))
      Samples.contactRequest =
  Return (jsonOk (ContactBody
                    {| ci_registrantName := JNum (Finite 5 "5");
                       ci_technicalContactName := JStr "N/A";
                       ci_administrativeContactName := JStr "N/A";
                       ci_contactEmail := JBool true |}
                    "1970-01-01T00:00:00.000Z")) /\
  exists cleanDomain r whoisRecord ErrorMessage,
    accepted (Samples.answering (Samples.okWith (JsonObject (Some Samples.untyped) None)))
      Samples.contactRequest cleanDomain "contact" /\
    fetch (Samples.answering (Samples.okWith (JsonObject (Some Samples.untyped) None)))
      WHOIS_BASE_URL
      (requestBody
         (Samples.answering (Samples.okWith (JsonObject (Some Samples.untyped) None)))
         cleanDomain) = FetchResolves r /\
    r_json r = JsonObject (Some whoisRecord) ErrorMessage /\
    contactNameOf (get (recordValue whoisRecord) "registrant") (JNum (Finite 5 "5")) /\
    orFallback (get (recordValue whoisRecord) "contactEmail") (JStr "N/A") (JBool true).
Proof.
  destruct (contact_information_fields strictEngine
              (Samples.answering (Samples.okWith (JsonObject (Some Samples.untyped) None)))
              Samples.contactRequest
              {| ci_registrantName := JNum (Finite 5 "5");
                 ci_technicalContactName := JStr "N/A";
                 ci_administrativeContactName := JStr "N/A";
                 ci_contactEmail := JBool true |}
              "1970-01-01T00:00:00.000Z" eq_refl)
    as (cleanDomain & r & whoisRecord & em & Hacc & Hf & _ & Hj & H).
  cbv zeta in H.
  destruct H as (Hreg & _ & _ & Hmail & _).
  split; [reflexivity |].
  exists cleanDomain, r, whoisRecord, em.
  refine (conj Hacc (conj Hf (conj Hj (conj Hreg Hmail)))).
Defined.

(** *** The domain projection with the documented helpers *)

Lemma documented_formatDate_shape (engineParse : string -> option Z)
    (raw : option string) :
  UtilsDocumented.formatDate engineParse raw = "N/A"%string \/
  UtilsDocumented.isDateFormat (UtilsDocumented.formatDate engineParse raw) = true.
Proof.
  rewrite documented_formatDate_equation.
  destruct raw as [s|]; [| now left]. cbv zeta.
  destruct (UtilsDocumented.isDateFormat _) eqn:F; [now right | now left].
Qed.

Lemma documented_formatDate_untyped_shape (engineParse : string -> option Z)
    (raw : option value) :
  UtilsDocumentedJs.formatDate engineParse raw = "N/A"%string \/
  UtilsDocumented.isDateFormat (UtilsDocumentedJs.formatDate engineParse raw) = true.
Proof.
  destruct raw as [[| b | n | s | l | f]|]; try (now left).
  apply documented_formatDate_shape.
Qed.

Lemma documented_formatHostnames_length (list : option (list string)) :
  (length (UtilsDocumented.formatHostnames list) <= 25)%nat.
Proof.
  destruct list as [l|]; [| simpl; lia].
  assert (E : UtilsDocumented.formatHostnames (Some l) =
              Utils.formatHostnames
                (Some (filter (fun h => negb (Reference.isBlank h)) l))).
  { rewrite documented_formatHostnames_reference.
    unfold Reference.formatHostnames_reference, Utils.formatHostnames.
    destruct (filter _ l); reflexivity. }
  rewrite E. apply formatHostnames_length.
Qed.

Lemma valid_hostnames_texts (l : list value) :
  textsOf (filter UtilsDocumentedJs.isValidHostname l) =
  filter (fun hostname => (0 <? length (trim hostname))%nat) (stringsOf l).
Proof.
  induction l as [|x l IH]; [reflexivity |].
  destruct x as [| b | n | s | e | f]; simpl; try exact IH.
  destruct (0 <? length (trim s))%nat; simpl; [now rewrite <- IH | exact IH].
Qed.

Lemma documented_formatHostnames_elements (v : option value) :
  UtilsDocumentedJs.formatHostnames (Some (orValue v (JArr []))) =
  UtilsDocumented.formatHostnames (Some (stringsOf (elementsOf v))).
Proof.
  assert (A : forall l,
             UtilsDocumentedJs.formatHostnames (Some (JArr l)) =
             UtilsDocumented.formatHostnames (Some (stringsOf l))).
  { intros l.
    unfold UtilsDocumentedJs.formatHostnames, UtilsDocumented.formatHostnames,
      joinValues, join.
    fold (textsOf (filter UtilsDocumentedJs.isValidHostname l)).
    rewrite <- (length_map elementText (filter UtilsDocumentedJs.isValidHostname l)).
    fold (textsOf (filter UtilsDocumentedJs.isValidHostname l)).
    rewrite valid_hostnames_texts.
    destruct l as [|x l]; [reflexivity |].
    change (List.length (x :: l) =? 0)%nat with false. cbv iota.
    destruct (stringsOf (x :: l)) as [|h k]; reflexivity. }
  destruct v as [x|]; [| reflexivity].
  destruct x as [| b | n | s | l | f]; simpl orValue;
    try (destruct (negb _); reflexivity); try reflexivity.
  - destruct b; reflexivity.
  - apply A.
Qed.

(** X23: with the documented helpers, the [DomainInformation] of a
    successful domain lookup in terms of the record the provider sent,
    whatever JSON value that record and its properties are: the domain
    name and the registrar are the upstream values when truthy, else the
    clean domain and the fallback token, hence never empty; each date is
    the fallback token or of the form YYYY-MM-DD, and the fallback token
    when the upstream value is not a string; the host names are what the
    documented [formatHostnames] gives for the string entries of the
    upstream array, and have between 1 and 25 characters. *)
Theorem documented_domain_information_fields
    (engineParse : string -> option Z) (w : World) (request : Request)
    (di : DomainInformation) (ts : string)
    (Hsuccess : GET (documentedUtils engineParse) w request =
                Return (jsonOk (DomainBody di ts))) :
  exists cleanDomain r whoisRecord ErrorMessage,
    accepted w request cleanDomain "domain" /\
    fetch w WHOIS_BASE_URL (requestBody w cleanDomain) = FetchResolves r /\
    ok r = true /\
    r_json r = JsonObject (Some whoisRecord) ErrorMessage /\
    let upstream := get (recordValue whoisRecord) in
    let hostNames := getOpt (upstream "nameServers") "hostNames" in
    orFallback (upstream "domainName") (JStr cleanDomain) (di_domainName di) /\
    orFallback (upstream "registrarName") (JStr "N/A") (di_registrar di) /\
    toBoolean (di_domainName di) = true /\
    toBoolean (di_registrar di) = true /\
    (di_registrationDate di = "N/A" \/
     UtilsDocumented.isDateFormat (di_registrationDate di) = true) /\
    (di_expirationDate di = "N/A" \/
     UtilsDocumented.isDateFormat (di_expirationDate di) = true) /\
    (forall v, upstream "createdDate" = Some v -> isString v = false ->
               di_registrationDate di = "N/A") /\
    (forall v, upstream "expiresDate" = Some v -> isString v = false ->
               di_expirationDate di = "N/A") /\
    di_hostnames di =
      UtilsDocumented.formatHostnames (Some (stringsOf (elementsOf hostNames))) /\
    di_hostnames di <> EmptyString /\
    length (di_hostnames di) <= 25.
Proof.
  apply GET_ok_inversion in Hsuccess
    as (c & t & r & rec & em & Hacc & Hf & Hok & Hj & [[-> Hb] | [_ Hb]]);
    [| discriminate Hb].
  injection Hb as -> _.
  pose proof (accepted_nonempty _ _ _ _ Hacc) as Hc.
  exists c, r, rec, em.
  refine (conj Hacc (conj Hf (conj Hok (conj Hj _)))).
  cbv zeta. unfold domainInfo.
  cbn [di_domainName di_registrar di_registrationDate di_expirationDate
       di_estimatedDomainAge di_hostnames formatDate formatHostnames documentedUtils].
  rewrite documented_formatHostnames_elements.
  refine (conj _ (conj _ (conj _ (conj _ (conj _ (conj _ (conj _ (conj _
         (conj _ (conj _ _)))))))))).
  - apply orValue_orFallback.
  - apply orValue_orFallback.
  - apply orValue_truthy. simpl. now apply isEmpty_false in Hc as ->.
  - now apply orValue_truthy.
  - apply documented_formatDate_untyped_shape.
  - apply documented_formatDate_untyped_shape.
  - intros v -> Hv. destruct v; try reflexivity. discriminate Hv.
  - intros v -> Hv. destruct v; try reflexivity. discriminate Hv.
  - reflexivity.
  - apply documented_formatHostnames_nonempty.
  - apply documented_formatHostnames_length.
Qed.

Lemma documented_domain_information_fields_witness :
  GET (documentedUtils strictEngine)
      (Samples.answering (Samples.okWith (JsonObject (Some Samples.untyped) None)))
      Samples.domainRequest =
  Return (jsonOk (DomainBody
                    {| di_domainName := JStr "example.com";
                       di_registrar := JNum (Finite 123 "123");
                       di_registrationDate := "N/A";
                       di_expirationDate := "N/A";
                       di_estimatedDomainAge := JNum zero;
                       di_hostnames := "ns1.example.com" |}
                    "1970-01-01T00:00:00.000Z")) /\
  exists cleanDomain r whoisRecord ErrorMessage,
    accepted (Samples.answering (Samples.okWith (JsonObject (Some Samples.untyped) None)))
      Samples.domainRequest cleanDomain "domain" /\
    fetch (Samples.answering (Samples.okWith (JsonObject (Some Samples.untyped) None)))
      WHOIS_BASE_URL
      (requestBody
         (Samples.answering (Samples.okWith (JsonObject (Some Samples.untyped) None)))
         cleanDomain) = FetchResolves r /\
    r_json r = JsonObject (Some whoisRecord) ErrorMessage /\
    "ns1.example.com" =
    UtilsDocumented.formatHostnames
      (Some (stringsOf (elementsOf
         (getOpt (get (recordValue whoisRecord) "nameServers") "hostNames")))).
Proof.
  destruct (documented_domain_information_fields strictEngine
              (Samples.answering (Samples.okWith (JsonObject (Some Samples.untyped) None)))
              Samples.domainRequest
              {| di_domainName := JStr "example.com";
                 di_registrar := JNum (Finite 123 "123");
                 di_registrationDate := "N/A";
                 di_expirationDate := "N/A";
                 di_estimatedDomainAge := JNum zero;
                 di_hostnames := "ns1.example.com" |}
              "1970-01-01T00:00:00.000Z" eq_refl)
    as (cleanDomain & r & whoisRecord & em & Hacc & Hf & _ & Hj & H).
  cbv zeta in H.
  destruct H as (_ & _ & _ & _ & _ & _ & _ & _ & Hhost & _).
  split; [reflexivity |].
  exists cleanDomain, r, whoisRecord, em.
  refine (conj Hacc (conj Hf (conj Hj Hhost))).
Defined.

End ProjectionFacts.
